(** * NanoClaw authorization, command channel and container runner:
      a shallow embedding and its properties

    The development follows the TypeScript sources module by module:
    [Js] (the string primitives of the runtime the code relies on),
    [Types] (types.ts), [Utils] (utils.ts), [UserRegistry]
    (user-registry.ts), [Authorization] (authorization.ts),
    [AuthorizationRev0] (the other revision of authorization.ts that the
    repository carries, src/unnamed/part_002), [Config] (the constants of
    config.ts and the library functions, as parameters), [Db] (the task
    and participant tables of db.ts), [StrangerDetection] (the
    stranger-detection module, src/unnamed/part_001), [Index] (the IPC
    watcher and the message router of index.ts), [ContainerRunner]
    (container-runner.ts) and [Api] (the HTTP API, src/unnamed/part_000).
    [Fixture] is a small concrete deployment on which the definitions are
    run.  Definitions come first; the theorems about them follow in the
    second half of the file.

    Conventions.  Strings are sequences of code units below 256.  State
    that the code keeps in module variables, in the database or on disk is
    passed explicitly.  Time stamps are kept as epoch milliseconds where the
    code stores their ISO-8601 rendering.  File-system and database calls
    are taken to succeed unless a definition says what their failure does. *)

From Stdlib Require Import ZArith Strings.String Strings.Ascii List Bool Lia.
From stdpp Require Import base option list gmap strings pretty.

Local Open Scope string_scope.
Local Open Scope Z_scope.

(* ===================================================================== *)
(** ** Runtime string primitives *)
(* ===================================================================== *)

Module Js.

(** Truthiness of a string: only the empty string is falsy. *)
Definition strTruthy (s : string) : bool :=
  match s with
  | EmptyString => false
  | String _ _ => true
  end.

(** Truthiness of an optional string property ([undefined] is falsy). *)
Definition truthy (o : option string) : bool :=
  match o with
  | Some s => strTruthy s
  | None => false
  end.

(** [s.split(sep)] for a one-character separator.  The result is never
    empty: a string without the separator yields the singleton [s]. *)
Fixpoint split (sep : ascii) (s : string) : list string :=
  match s with
  | EmptyString => [EmptyString]
  | String c rest =>
      if Ascii.eqb c sep then EmptyString :: split sep rest
      else match split sep rest with
           | [] => [String c EmptyString]
           | p :: ps => String c p :: ps
           end
  end.

(** [s.split(sep, limit)]: the first [limit] pieces. *)
Definition splitLimit (sep : ascii) (limit : nat) (s : string) : list string :=
  firstn limit (split sep s).

(** Whether the character occurs in the string. *)
Fixpoint hasChar (c : ascii) (s : string) : bool :=
  match s with
  | EmptyString => false
  | String d rest => Ascii.eqb d c || hasChar c rest
  end.

(** [s.startsWith(p)]. *)
Fixpoint startsWith (p s : string) : bool :=
  match p, s with
  | EmptyString, _ => true
  | String _ _, EmptyString => false
  | String a p', String b s' => Ascii.eqb a b && startsWith p' s'
  end.

(** [s.endsWith(p)]. *)
Definition endsWith (p s : string) : bool :=
  (String.length p <=? String.length s)%nat
  && String.eqb (String.substring (String.length s - String.length p)
                                  (String.length p) s) p.

(** [s.indexOf(p)]: offset of the first occurrence, [None] for -1. *)
Fixpoint indexOf (p s : string) : option nat :=
  if startsWith p s then Some 0%nat
  else match s with
       | EmptyString => None
       | String _ s' => option_map S (indexOf p s')
       end.

(** [s.includes(p)]. *)
Definition includes (p s : string) : bool :=
  match indexOf p s with
  | Some _ => true
  | None => false
  end.

(** [s.slice(from)] and [s.slice(from, to)] for offsets within range. *)
Fixpoint drop (n : nat) (s : string) : string :=
  match n, s with
  | O, _ => s
  | S _, EmptyString => EmptyString
  | S n', String _ s' => drop n' s'
  end.

Fixpoint take (n : nat) (s : string) : string :=
  match n, s with
  | O, _ => EmptyString
  | S _, EmptyString => EmptyString
  | S n', String c s' => String c (take n' s')
  end.

Definition slice (from to : nat) (s : string) : string :=
  take (to - from) (drop from s).

(** [s.slice(-n)]: the last [n] code units. *)
Definition sliceLast (n : nat) (s : string) : string :=
  drop (String.length s - n) s.

(** White space as [String.prototype.trim] sees it, for code units below
    256: TAB, LF, VT, FF, CR, SPACE and NBSP. *)
Definition isSpace (c : ascii) : bool :=
  let n := nat_of_ascii c in
  ((9 <=? n)%nat && (n <=? 13)%nat) || (n =? 32)%nat || (n =? 160)%nat.

Fixpoint trimStart (s : string) : string :=
  match s with
  | EmptyString => EmptyString
  | String c s' => if isSpace c then trimStart s' else s
  end.

Fixpoint trimEnd (s : string) : string :=
  match s with
  | EmptyString => EmptyString
  | String c s' =>
      match trimEnd s' with
      | EmptyString => if isSpace c then EmptyString else String c EmptyString
      | t => String c t
      end
  end.

Definition trim (s : string) : string := trimEnd (trimStart s).

(** [s.toLowerCase()] for code units below 256: A-Z and the Latin-1
    capitals U+00C0-U+00DE (the multiplication sign U+00D7 apart). *)
Definition lowerChar (c : ascii) : ascii :=
  let n := nat_of_ascii c in
  if ((65 <=? n)%nat && (n <=? 90)%nat)
     || ((192 <=? n)%nat && (n <=? 222)%nat && negb (n =? 215)%nat)
  then ascii_of_nat (n + 32) else c.

Fixpoint toLowerCase (s : string) : string :=
  match s with
  | EmptyString => EmptyString
  | String c s' => String (lowerChar c) (toLowerCase s')
  end.

(** [parts.join(sep)]. *)
Fixpoint join (sep : string) (parts : list string) : string :=
  match parts with
  | [] => EmptyString
  | [p] => p
  | p :: ps => p ++ sep ++ join sep ps
  end.

(** Decimal digits, for [parseInt(s, 10)]. *)
Definition digitValue (c : ascii) : option Z :=
  let n := nat_of_ascii c in
  if ((48 <=? n)%nat && (n <=? 57)%nat) then Some (Z.of_nat (n - 48)) else None.

(** The longest prefix of decimal digits, read as a number; [None] when the
    string does not start with a digit. *)
Fixpoint leadingDigits (acc : option Z) (s : string) : option Z :=
  match s with
  | EmptyString => acc
  | String c s' =>
      match digitValue c with
      | Some d => leadingDigits (Some (10 * default 0 acc + d)) s'
      | None => acc
      end
  end.

(** [parseInt(s, 10)]: leading white space is skipped, an optional sign is
    read, then the longest run of digits; [None] stands for NaN.  (Beyond
    2^53 the runtime rounds to a double; every use below only compares the
    result with bounds under 2^53, which rounding preserves.) *)
Definition parseInt10 (s : string) : option Z :=
  match trimStart s with
  | String "-" s' => option_map Z.opp (leadingDigits None s')
  | String "+" s' => leadingDigits None s'
  | t => leadingDigits None t
  end.

(** [s.replace(/c/g, replacement)] for a one-character pattern and a
    replacement without [$]. *)
Fixpoint replaceAll (c : ascii) (replacement : string) (s : string) : string :=
  match s with
  | EmptyString => EmptyString
  | String d rest =>
      if Ascii.eqb d c then replacement ++ replaceAll c replacement rest
      else String d (replaceAll c replacement rest)
  end.

(** The double quote and the line feed, as one-character strings. *)
Definition dquote : string := String "034" EmptyString.
Definition newline : string := String "010" EmptyString.

(** [Array.from(new Set(items))]: the items in the order of their first
    occurrence, each once. *)
Definition setAdd (seen : list string) (x : string) : list string :=
  if existsb (String.eqb x) seen then seen else (seen ++ [x])%list.

Definition arrayFromSet (items : list string) : list string :=
  fold_left setAdd items [].

End Js.

(* ===================================================================== *)
(** ** types.ts *)
(* ===================================================================== *)

Module Types.

Inductive UserTier := owner | family | friend | stranger.

(** [ContextTier] is the three-valued type ['owner' | 'family' | 'friend']. *)
Inductive ContextTier := ctxOwner | ctxFamily | ctxFriend.

#[global] Instance UserTier_eq_dec : EqDecision UserTier.
Proof. solve_decision. Defined.

#[global] Instance ContextTier_eq_dec : EqDecision ContextTier.
Proof. solve_decision. Defined.

(** The string a tier prints as in a template literal. *)
Definition tierName (t : UserTier) : string :=
  match t with
  | owner => "owner"
  | family => "family"
  | friend => "friend"
  | stranger => "stranger"
  end.

Definition contextTierName (t : ContextTier) : string :=
  match t with
  | ctxOwner => "owner"
  | ctxFamily => "family"
  | ctxFriend => "friend"
  end.

Record UserInfo := mkUserInfo {
  ui_jid : string;
  ui_name : string;
  ui_addedAt : string;
  ui_addedBy : option string
}.

(** The registry as user-registry.ts reads it: one owner record, the family
    list and the friends list. *)
Record UserRegistry := mkUserRegistry {
  reg_owner : UserInfo;
  reg_family : list UserInfo;
  reg_friends : list UserInfo
}.

Record AuthorizationResult := mkAuthorizationResult {
  ar_canInvoke : bool;
  ar_tier : UserTier;
  ar_reason : string
}.

Record GroupParticipant := mkGroupParticipant {
  gp_jid : string;
  gp_tier : UserTier
}.

Record AdditionalMount := mkAdditionalMount {
  am_hostPath : string;
  am_containerPath : string;
  am_readonly : option bool
}.

Record ContainerConfig := mkContainerConfig {
  cc_additionalMounts : option (list AdditionalMount);
  cc_timeout : option Z
}.

Record RegisteredGroup := mkRegisteredGroup {
  rg_name : string;
  rg_folder : string;
  rg_trigger : string;
  rg_added_at : string;
  rg_contextTier : option ContextTier;
  rg_containerConfig : option ContainerConfig
}.

Inductive TaskStatus := active | paused | completed.

#[global] Instance TaskStatus_eq_dec : EqDecision TaskStatus.
Proof. solve_decision. Defined.

Inductive ContextMode := modeGroup | modeIsolated.

(** [schedule_type] is stored as the string the command carried: the cast
    [as 'cron' | 'interval' | 'once'] checks nothing at run time. *)
Record ScheduledTask := mkScheduledTask {
  st_id : string;
  st_group_folder : string;
  st_chat_jid : string;
  st_prompt : string;
  st_schedule_type : string;
  st_schedule_value : string;
  st_context_mode : ContextMode;
  st_next_run : option Z;
  st_last_run : option Z;
  st_last_result : option string;
  st_status : TaskStatus;
  st_created_at : Z
}.

Record TaskRunLog := mkTaskRunLog {
  trl_task_id : string;
  trl_run_at : Z;
  trl_duration_ms : Z;
  trl_status : string;
  trl_result : option string;
  trl_error : option string
}.

Record VaultSettings := mkVaultSettings {
  vs_path : string;
  vs_enabled : bool
}.

Record VaultConfig := mkVaultConfig {
  vc_mainVault : option VaultSettings;
  vc_privateVault : option VaultSettings
}.

(** A JSON value, as [JSON.parse] returns it.  Numbers are kept as
    integers; an object is the list of its properties. *)
#[warnings="-register-all"]
Inductive Json :=
| JNull
| JBool (b : bool)
| JNumber (z : Z)
| JString (s : string)
| JArray (items : list Json)
| JObject (properties : list (string * Json)).

(** A log record of the structured logger: level, fields and message. *)
Inductive LogValue :=
| LStr (s : string)
| LBool (b : bool)
| LNum (z : Z).

Record LogEntry := mkLogEntry {
  log_level : string;
  log_fields : list (string * LogValue);
  log_message : string
}.

(** A stored chat message, as [getMessagesSince] returns it. *)
Record NewMessage := mkNewMessage {
  nm_id : string;
  nm_chat_jid : string;
  nm_sender : string;
  nm_sender_name : string;
  nm_content : string;
  nm_timestamp : string
}.

End Types.

(* ===================================================================== *)
(** ** utils.ts *)
(* ===================================================================== *)

Module Utils.

(** What [loadJson] can observe of a file: it does not exist; it exists but
    reading or [JSON.parse] throws; or it parses to a value. *)
Inductive JsonFile (T : Type) :=
| FileMissing
| FileCorrupt
| FileParsed (v : T).

Arguments FileMissing {T}.
Arguments FileCorrupt {T}.
Arguments FileParsed {T} v.

(** [loadJson(filePath, defaultValue)]: the parsed value when the file
    exists and parses, the default in every other case (the [catch] swallows
    the exception). *)
Definition loadJson {T : Type} (file : JsonFile T) (defaultValue : T) : T :=
  match file with
  | FileParsed v => v
  | FileCorrupt => defaultValue
  | FileMissing => defaultValue
  end.

(** [normalizeJid]: the local part is cut at its first colon, the domain
    (the piece between the first and the second at-sign) is kept when it is
    not empty. *)
Definition normalizeJid (jid : string) : string :=
  let parts := Js.splitLimit "@" 2 jid in
  let localPart := nth 0 parts EmptyString in
  let domain := nth_error parts 1 in
  let normalizedLocal := hd EmptyString (Js.split ":" localPart) in
  if Js.truthy domain
  then normalizedLocal ++ "@" ++ default EmptyString domain
  else normalizedLocal.

End Utils.

(* ===================================================================== *)
(** ** user-registry.ts *)
(* ===================================================================== *)

Module UserRegistry.
Import Types.

(** The module carries its own copy of [normalizeJid], the same text as the
    one of utils.ts. *)
Definition normalizeJid (jid : string) : string :=
  let parts := Js.splitLimit "@" 2 jid in
  let localPart := nth 0 parts EmptyString in
  let domain := nth_error parts 1 in
  let normalizedLocal := hd EmptyString (Js.split ":" localPart) in
  if Js.truthy domain
  then normalizedLocal ++ "@" ++ default EmptyString domain
  else normalizedLocal.

Definition defaultRegistry : UserRegistry :=
  {| reg_owner := {| ui_jid := ""; ui_name := ""; ui_addedAt := "";
                     ui_addedBy := None |};
     reg_family := [];
     reg_friends := [] |}.

(** [loadUserRegistry]: the state of data/users.json is the argument. *)
Definition loadUserRegistry (usersFile : Utils.JsonFile UserRegistry)
  : UserRegistry :=
  Utils.loadJson usersFile defaultRegistry.

(** [registry.family.some(user => normalizeJid(user.jid) === normalizedJid)] *)
Definition someMatches (normalizedJid : string) (users : list UserInfo) : bool :=
  existsb (fun user => String.eqb (normalizeJid (ui_jid user)) normalizedJid) users.

Definition getUserTierFromRegistry (normalizedJid : string)
  (registry : UserRegistry) : UserTier :=
  if Js.strTruthy (ui_jid (reg_owner registry))
     && String.eqb (normalizeJid (ui_jid (reg_owner registry))) normalizedJid
  then owner
  else if someMatches normalizedJid (reg_family registry) then family
  else if someMatches normalizedJid (reg_friends registry) then friend
  else stranger.

Definition getUserTier (usersFile : Utils.JsonFile UserRegistry) (jid : string)
  : UserTier :=
  let normalizedJid := normalizeJid jid in
  let registry := loadUserRegistry usersFile in
  getUserTierFromRegistry normalizedJid registry.

(** [saveUserRegistry]: after the write the file parses to the registry
    written. *)
Definition saveUserRegistry (registry : UserRegistry)
  : Utils.JsonFile UserRegistry :=
  Utils.FileParsed registry.

(** [addUser]: refused ([false], file untouched) when the identity already
    has a tier; otherwise appended to the family list for ['family'] and to
    the friends list for anything else. *)
Definition addUser (usersFile : Utils.JsonFile UserRegistry)
  (jid name tier : string) (addedBy : option string) (addedAt : string)
  : bool * Utils.JsonFile UserRegistry :=
  let normalizedJid := normalizeJid jid in
  let registry := loadUserRegistry usersFile in
  let currentTier := getUserTierFromRegistry normalizedJid registry in
  if negb (bool_decide (currentTier = stranger)) then (false, usersFile)
  else
    let userInfo :=
      {| ui_jid := normalizedJid;
         ui_name := name;
         ui_addedAt := addedAt;
         ui_addedBy := if Js.truthy addedBy
                       then option_map normalizeJid addedBy else None |} in
    let registry' :=
      if String.eqb tier "family"
      then {| reg_owner := reg_owner registry;
              reg_family := reg_family registry ++ [userInfo];
              reg_friends := reg_friends registry |}
      else {| reg_owner := reg_owner registry;
              reg_family := reg_family registry;
              reg_friends := reg_friends registry ++ [userInfo] |} in
    (true, saveUserRegistry registry').

(** [users.findIndex(...)] followed by [users.splice(index, 1)]: the first
    match is removed; [None] when there is none. *)
Fixpoint removeFirstMatch (normalizedJid : string) (users : list UserInfo)
  : option (list UserInfo) :=
  match users with
  | [] => None
  | user :: rest =>
      if String.eqb (normalizeJid (ui_jid user)) normalizedJid then Some rest
      else option_map (cons user) (removeFirstMatch normalizedJid rest)
  end.

(** [removeUser]: [None] stands for the exception thrown for the owner. *)
Definition removeUser (usersFile : Utils.JsonFile UserRegistry) (jid : string)
  : option (bool * Utils.JsonFile UserRegistry) :=
  let normalizedJid := normalizeJid jid in
  let registry := loadUserRegistry usersFile in
  if Js.strTruthy (ui_jid (reg_owner registry))
     && String.eqb (normalizeJid (ui_jid (reg_owner registry))) normalizedJid
  then None
  else match removeFirstMatch normalizedJid (reg_family registry) with
       | Some family' =>
           Some (true, saveUserRegistry
                         {| reg_owner := reg_owner registry;
                            reg_family := family';
                            reg_friends := reg_friends registry |})
       | None =>
           match removeFirstMatch normalizedJid (reg_friends registry) with
           | Some friends' =>
               Some (true, saveUserRegistry
                             {| reg_owner := reg_owner registry;
                                reg_family := reg_family registry;
                                reg_friends := friends' |})
           | None => Some (false, usersFile)
           end
       end.

(** [getUsersByTier], used by the IPC handler and the stranger alert. *)
Definition getUsersByTier (usersFile : Utils.JsonFile UserRegistry)
  (tier : ContextTier) : list UserInfo :=
  let registry := loadUserRegistry usersFile in
  match tier with
  | ctxOwner =>
      if Js.strTruthy (ui_jid (reg_owner registry))
      then [reg_owner registry] else []
  | ctxFamily => reg_family registry
  | ctxFriend => reg_friends registry
  end.

(** [initializeOwner]: [None] stands for the exception thrown when the
    registry already names an owner; otherwise the state of the file after
    the write. *)
Definition initializeOwner (usersFile : Utils.JsonFile UserRegistry)
  (jid name addedAt : string) : option (Utils.JsonFile UserRegistry) :=
  let registry := loadUserRegistry usersFile in
  if Js.strTruthy (ui_jid (reg_owner registry)) then None
  else
    let normalizedJid := normalizeJid jid in
    Some (saveUserRegistry
            {| reg_owner := {| ui_jid := normalizedJid; ui_name := name;
                               ui_addedAt := addedAt; ui_addedBy := None |};
               reg_family := reg_family registry;
               reg_friends := reg_friends registry |}).

(** [users.find(user => normalizeJid(user.jid) === normalizedJid)] *)
Definition findMatch (normalizedJid : string) (users : list UserInfo)
  : option UserInfo :=
  find (fun user => String.eqb (normalizeJid (ui_jid user)) normalizedJid) users.

(** [getUserInfo]: [None] stands for [null]. *)
Definition getUserInfo (usersFile : Utils.JsonFile UserRegistry) (jid : string)
  : option UserInfo :=
  let normalizedJid := normalizeJid jid in
  let registry := loadUserRegistry usersFile in
  if Js.strTruthy (ui_jid (reg_owner registry))
     && String.eqb (normalizeJid (ui_jid (reg_owner registry))) normalizedJid
  then Some (reg_owner registry)
  else match findMatch normalizedJid (reg_family registry) with
       | Some familyUser => Some familyUser
       | None =>
           match findMatch normalizedJid (reg_friends registry) with
           | Some friendUser => Some friendUser
           | None => None
           end
       end.

End UserRegistry.

(* ===================================================================== *)
(** ** authorization.ts *)
(* ===================================================================== *)

Module Authorization.
Import Types.

Record StrangerCacheEntry := mkStrangerCacheEntry {
  sce_hasStrangers : bool;
  sce_lastChecked : Z;
  sce_participants : list string
}.

(** Cache TTL: 5 minutes. *)
Definition CACHE_TTL : Z := 300000.

Definition normalizeJid (jid : string) : string :=
  let parts := Js.splitLimit "@" 2 jid in
  let localPart := nth 0 parts EmptyString in
  let domain := nth_error parts 1 in
  let normalizedLocal := hd EmptyString (Js.split ":" localPart) in
  if Js.truthy domain
  then normalizedLocal ++ "@" ++ default EmptyString domain
  else normalizedLocal.

(** [canInvoke] returns the authorization result; its one effect is the
    log record, which is where [isGroupChat] goes. *)
Definition canInvoke (usersFile : Utils.JsonFile UserRegistry)
  (senderJid : string) (isGroupChat : bool)
  : AuthorizationResult * list LogEntry :=
  let normalizedJid := normalizeJid senderJid in
  let tier := UserRegistry.getUserTier usersFile normalizedJid in
  let canInvoke :=
    bool_decide (tier = owner) || bool_decide (tier = family) in
  let result :=
    {| ar_tier := tier;
       ar_canInvoke := canInvoke;
       ar_reason :=
         if canInvoke
         then tierName tier ++ " tier user can invoke Jarvis"
         else tierName tier ++ " tier users cannot invoke Jarvis" |} in
  (result,
   [ {| log_level := "info";
        log_fields := [ ("senderJid", LStr normalizedJid);
                        ("tier", LStr (tierName tier));
                        ("canInvoke", LBool canInvoke);
                        ("isGroupChat", LBool isGroupChat) ];
        log_message := "[authorization] Invoke check" |} ]).

(** [cached.participants.includes(x)] *)
Definition listIncludes (x : string) (l : list string) : bool :=
  existsb (String.eqb x) l.

(** The test that decides whether the cached snapshot still stands. *)
Definition participantsChanged (participants : list string)
  (cached : StrangerCacheEntry) : bool :=
  negb (Nat.eqb (List.length participants)
                (List.length (sce_participants cached)))
  || existsb (fun p => negb (listIncludes (normalizeJid p)
                                          (sce_participants cached)))
             participants.

(** The classification loop: it stops at the first stranger.  The second
    component lists the identities handed to [getUserTier], in order. *)
Fixpoint scanForStranger (usersFile : Utils.JsonFile UserRegistry)
  (normalizedParticipants : list string) : bool * list string :=
  match normalizedParticipants with
  | [] => (false, [])
  | participantJid :: rest =>
      if bool_decide (UserRegistry.getUserTier usersFile participantJid = stranger)
      then (true, [participantJid])
      else let '(found, seen) := scanForStranger usersFile rest in
           (found, participantJid :: seen)
  end.

(** One call of [hasStrangers]: its result, the cache after the call and
    the identities it classified (none on a cache hit). *)
Record HasStrangersRun := mkHasStrangersRun {
  hs_result : bool;
  hs_cache : gmap string StrangerCacheEntry;
  hs_classified : list string;
  hs_fromCache : bool
}.

Definition hasStrangers (usersFile : Utils.JsonFile UserRegistry)
  (strangerCache : gmap string StrangerCacheEntry) (now : Z)
  (groupJid : string) (participants : list string) (forceRefresh : bool)
  : HasStrangersRun :=
  let normalizedGroupJid := normalizeJid groupJid in
  let fresh :=
    let normalizedParticipants := map normalizeJid participants in
    let '(foundStranger, seen) := scanForStranger usersFile normalizedParticipants in
    {| hs_result := foundStranger;
       hs_cache :=
         <[ normalizedGroupJid :=
              {| sce_hasStrangers := foundStranger;
                 sce_lastChecked := now;
                 sce_participants := normalizedParticipants |} ]> strangerCache;
       hs_classified := seen;
       hs_fromCache := false |} in
  if forceRefresh then fresh
  else match strangerCache !! normalizedGroupJid with
       | Some cached =>
           let age := now - sce_lastChecked cached in
           if (age <? CACHE_TTL) && negb (participantsChanged participants cached)
           then {| hs_result := sce_hasStrangers cached;
                   hs_cache := strangerCache;
                   hs_classified := [];
                   hs_fromCache := true |}
           else fresh
       | None => fresh
       end.

(** [contextPriority.indexOf(tier)] in [['owner', 'family', 'friend']]. *)
Definition contextIndex (t : ContextTier) : nat :=
  match t with
  | ctxOwner => 0
  | ctxFamily => 1
  | ctxFriend => 2
  end%nat.

(** [contextPriority[i]]; an index past the end would read [undefined]. *)
Definition contextPriority : list ContextTier := [ctxOwner; ctxFamily; ctxFriend].

Definition inferredContextTier (senderTier : UserTier) : ContextTier :=
  match senderTier with
  | owner => ctxOwner
  | family => ctxFamily
  | friend => ctxFriend
  | stranger => ctxFriend
  end.

(** [determineAgentContext]: the sender's inferred tier, constrained by the
    group's tier when the group has one. *)
Definition determineAgentContext (senderTier : UserTier)
  (groupContextTier : option ContextTier) : ContextTier :=
  let inferred := inferredContextTier senderTier in
  match groupContextTier with
  | Some groupTier =>
      let senderIndex := contextIndex inferred in
      let groupIndex := contextIndex groupTier in
      let effectiveIndex := Nat.max senderIndex groupIndex in
      nth effectiveIndex contextPriority ctxFriend
  | None => inferred
  end.

Definition getParticipantTiers (usersFile : Utils.JsonFile UserRegistry)
  (participants : list string) : list GroupParticipant :=
  map (fun jid =>
         let normalizedJid := normalizeJid jid in
         {| gp_jid := normalizedJid;
            gp_tier := UserRegistry.getUserTier usersFile normalizedJid |})
      participants.

Definition clearStrangerCache (strangerCache : gmap string StrangerCacheEntry)
  (groupJid : option string) : gmap string StrangerCacheEntry :=
  if Js.truthy groupJid
  then delete (normalizeJid (default EmptyString groupJid)) strangerCache
  else ∅.

End Authorization.

(* ===================================================================== *)
(** ** authorization.ts, the other revision (src/unnamed/part_002) *)
(* ===================================================================== *)

Module AuthorizationRev0.
Import Types.

(** This revision cuts the whole identity at its first colon. *)
Definition normalizeJid (jid : string) : string :=
  hd EmptyString (Js.split ":" jid).

(** [determineAgentContext] of this revision: a configured group tier is
    returned as it is; the sender's tier is read only when there is none. *)
Definition determineAgentContext (senderTier : UserTier)
  (groupContextTier : option ContextTier) : ContextTier :=
  match groupContextTier with
  | Some groupTier => groupTier
  | None =>
      match senderTier with
      | owner => ctxOwner
      | family => ctxFamily
      | friend => ctxFriend
      | stranger => ctxFriend
      end
  end.

End AuthorizationRev0.

(* ===================================================================== *)
(** ** config.ts and the runtime *)
(* ===================================================================== *)

Module Config.

(** config.ts is not among the sources read here: the constants it exports
    are parameters of the development. *)
Class Settings := {
  DATA_DIR : string;
  GROUPS_DIR : string;
  MAIN_GROUP_FOLDER : string;
  TIMEZONE : string;
  CONTAINER_TIMEOUT : Z;
  CONTAINER_MAX_OUTPUT_SIZE : nat;
  expandPath : string -> string
}.

(** Library functions of the runtime that the code calls and that are
    parameters as well.  [cron_next expr tz now] stands for
    [CronExpressionParser.parse(expr, {tz}).next()], [None] when either call
    throws; [Date_parse s] for [new Date(s).getTime()], [None] for NaN;
    [toISOString] renders a time value; [JSON_parse s] is the value parsed
    or, on the left, the message of the exception thrown. *)
Class Runtime := {
  path_join : list string -> string;
  cron_next : string -> string -> Z -> option Z;
  Date_parse : string -> option Z;
  toISOString : Z -> string;
  JSON_parse : string -> string + Types.Json
}.

(** The largest time value of a [Date]; [toISOString] throws beyond it. *)
Definition MAX_TIME_VALUE : Z := 8640000000000000.

(** [TRIGGER_PATTERN.test(content)], the regular expression being a
    constant of config.ts (taken without the global flag: a test keeps no
    state). *)
Class Trigger := {
  TRIGGER_PATTERN_test : string -> bool
}.

End Config.

(* ===================================================================== *)
(** ** db.ts: the scheduled-task table *)
(* ===================================================================== *)

Module Db.
Import Types.

(** The two tables the task commands touch.  [scheduled_tasks] has [id] as
    its primary key. *)
Record Database := mkDatabase {
  scheduled_tasks : gmap string ScheduledTask;
  task_run_logs : list TaskRunLog
}.

(** [Partial<Pick<ScheduledTask, ...>>]: an absent field is [None]. *)
Record TaskUpdates := mkTaskUpdates {
  upd_prompt : option string;
  upd_schedule_type : option string;
  upd_schedule_value : option string;
  upd_next_run : option (option Z);
  upd_status : option TaskStatus
}.

Definition statusUpdate (s : TaskStatus) : TaskUpdates :=
  {| upd_prompt := None; upd_schedule_type := None; upd_schedule_value := None;
     upd_next_run := None; upd_status := Some s |}.

(** [createTask]: the INSERT fails ([None]) on a duplicate primary key. *)
Definition createTask (task : ScheduledTask) (db : Database) : option Database :=
  match scheduled_tasks db !! st_id task with
  | Some _ => None
  | None =>
      Some {| scheduled_tasks := <[ st_id task := task ]> (scheduled_tasks db);
              task_run_logs := task_run_logs db |}
  end.

Definition getTaskById (id : string) (db : Database) : option ScheduledTask :=
  scheduled_tasks db !! id.

Definition applyUpdates (updates : TaskUpdates) (t : ScheduledTask) : ScheduledTask :=
  {| st_id := st_id t;
     st_group_folder := st_group_folder t;
     st_chat_jid := st_chat_jid t;
     st_prompt := default (st_prompt t) (upd_prompt updates);
     st_schedule_type := default (st_schedule_type t) (upd_schedule_type updates);
     st_schedule_value := default (st_schedule_value t) (upd_schedule_value updates);
     st_context_mode := st_context_mode t;
     st_next_run := default (st_next_run t) (upd_next_run updates);
     st_last_run := st_last_run t;
     st_last_result := st_last_result t;
     st_status := default (st_status t) (upd_status updates);
     st_created_at := st_created_at t |}.

(** [updateTask]: UPDATE ... WHERE id = ?; a row that is not there is not
    touched. *)
Definition updateTask (id : string) (updates : TaskUpdates) (db : Database)
  : Database :=
  {| scheduled_tasks := alter (applyUpdates updates) id (scheduled_tasks db);
     task_run_logs := task_run_logs db |}.

(** [deleteTask]: the run logs of the task first, then the task. *)
Definition deleteTask (id : string) (db : Database) : Database :=
  {| scheduled_tasks := delete id (scheduled_tasks db);
     task_run_logs :=
       List.filter (fun l => negb (String.eqb (trl_task_id l) id))
                   (task_run_logs db) |}.

(** *** The participants of the groups *)

(** A row of [group_participants] without its primary key
    [(group_jid, user_jid)]. *)
Record ParticipantRow := mkParticipantRow {
  joined_at : Z;
  is_active : bool
}.

(** [INSERT ... VALUES (?, ?, ?, 1) ON CONFLICT(group_jid, user_jid) DO
    UPDATE SET is_active = 1]: a new row is active and joined now; an
    existing row is reactivated and keeps its [joined_at]. *)
Definition upsertActive (groupJid : string) (now : Z) (table : gmap (string * string) ParticipantRow)
  (participant : string) : gmap (string * string) ParticipantRow :=
  match table !! (groupJid, participant) with
  | Some row =>
      <[ (groupJid, participant) :=
           {| joined_at := joined_at row; is_active := true |} ]> table
  | None =>
      <[ (groupJid, participant) := {| joined_at := now; is_active := true |} ]> table
  end.

(** [updateGroupParticipants]: within one transaction every row of the
    group is marked inactive, then the statement above is run for each
    participant. *)
Definition updateGroupParticipants (groupJid : string)
  (participants : list string) (now : Z) (table : gmap (string * string) ParticipantRow)
  : gmap (string * string) ParticipantRow :=
  let deactivated :=
    map_imap (fun key row =>
                Some (if String.eqb key.1 groupJid
                      then {| joined_at := joined_at row; is_active := false |}
                      else row)) table in
  fold_left (upsertActive groupJid now) participants deactivated.

(** The table holds an active row for the participant in the group. *)
Definition activeAt (table : gmap (string * string) ParticipantRow) (groupJid participant : string)
  : Prop :=
  exists row, table !! (groupJid, participant) = Some row /\ is_active row = true.

(** [getGroupParticipants]: the [user_jid] of the active rows of the group
    (the query gives no order). *)
Definition getGroupParticipants (groupJid : string) (table : gmap (string * string) ParticipantRow)
  : list string :=
  map (fun entry => entry.1.2)
      (List.filter (fun entry => String.eqb entry.1.1 groupJid && is_active entry.2)
                   (map_to_list table)).

(** *** Due tasks *)

(** [ORDER BY next_run]: insertion into a list sorted by [next_run]. *)
Fixpoint insertByNextRun (task : ScheduledTask) (sorted : list ScheduledTask)
  : list ScheduledTask :=
  match sorted with
  | [] => [task]
  | first :: rest =>
      if default 0 (st_next_run task) <=? default 0 (st_next_run first)
      then task :: sorted
      else first :: insertByNextRun task rest
  end.

(** The WHERE clause of [getDueTasks]:
    [status = 'active' AND next_run IS NOT NULL AND next_run <= ?]. *)
Definition isDue (now : Z) (task : ScheduledTask) : bool :=
  bool_decide (st_status task = active)
  && match st_next_run task with
     | Some nextRun => nextRun <=? now
     | None => false
     end.

(** [getDueTasks()] at time [now]. *)
Definition getDueTasks (now : Z) (db : Database) : list ScheduledTask :=
  foldr insertByNextRun []
    (List.filter (isDue now) (map snd (map_to_list (scheduled_tasks db)))).

(** [updateTaskAfterRun(id, nextRun, lastResult)] at time [now]: the run is
    recorded, and a task without a next run becomes ['completed']. *)
Definition updateTaskAfterRun (id : string) (nextRun : option Z)
  (lastResult : string) (now : Z) (db : Database) : Database :=
  {| scheduled_tasks :=
       alter (fun t =>
                {| st_id := st_id t;
                   st_group_folder := st_group_folder t;
                   st_chat_jid := st_chat_jid t;
                   st_prompt := st_prompt t;
                   st_schedule_type := st_schedule_type t;
                   st_schedule_value := st_schedule_value t;
                   st_context_mode := st_context_mode t;
                   st_next_run := nextRun;
                   st_last_run := Some now;
                   st_last_result := Some lastResult;
                   st_status := match nextRun with
                                | None => completed
                                | Some _ => st_status t
                                end;
                   st_created_at := st_created_at t |})
             id (scheduled_tasks db);
     task_run_logs := task_run_logs db |}.

(** The primary key of a row is its [id] column. *)
Definition keyedById (db : Database) : Prop :=
  forall key task, scheduled_tasks db !! key = Some task -> st_id task = key.

End Db.

(* ===================================================================== *)
(** ** stranger-detection.ts (src/unnamed/part_001) *)
(* ===================================================================== *)

Module StrangerDetection.
Import Types.

(** [participants.filter(jid => getUserTier(jid) === 'stranger')] *)
Definition strangersAmong (usersFile : Utils.JsonFile UserRegistry)
  (participants : list string) : list string :=
  List.filter (fun jid =>
                 bool_decide (UserRegistry.getUserTier usersFile jid = stranger))
              participants.

(** [detectStrangersInGroup].  [metadata] is what [sock.groupMetadata]
    gives: the participants' ids, or on the left the message of the
    exception.  The result is the list returned, or on the left the message
    of the exception thrown; the second component is the stranger cache
    after the call. *)
Definition detectStrangersInGroup (usersFile : Utils.JsonFile UserRegistry)
  (strangerCache : gmap string Authorization.StrangerCacheEntry) (now : Z)
  (metadata : string + list string) (groupJid : string)
  : (string + list string) * gmap string Authorization.StrangerCacheEntry :=
  match metadata with
  | inl message => (inl ("Failed to fetch group metadata: " ++ message), strangerCache)
  | inr participantJids =>
      let run := Authorization.hasStrangers usersFile strangerCache now groupJid
                   participantJids true in
      if negb (Authorization.hs_result run)
      then (inr [], Authorization.hs_cache run)
      else (inr (strangersAmong usersFile participantJids), Authorization.hs_cache run)
  end.

(** [syncGroupParticipants]: the table after the update, or on the left
    the message of the exception thrown. *)
Definition syncGroupParticipants (metadata : string + list string)
  (groupJid : string) (now : Z) (table : gmap (string * string) Db.ParticipantRow)
  : string + gmap (string * string) Db.ParticipantRow :=
  match metadata with
  | inl message => inl ("Failed to sync group participants: " ++ message)
  | inr participantJids =>
      let normalizedGroupJid := Utils.normalizeJid groupJid in
      let normalizedParticipantJids :=
        Js.arrayFromSet (map Utils.normalizeJid participantJids) in
      inr (Db.updateGroupParticipants normalizedGroupJid
             normalizedParticipantJids now table)
  end.

Record IgnoreDecision := mkIgnoreDecision {
  shouldIgnore : bool;
  hasStrangersFlag : bool;
  strangers : list string
}.

(** [shouldIgnoreThread], with the stranger cache after the call. *)
Definition shouldIgnoreThread (usersFile : Utils.JsonFile UserRegistry)
  (strangerCache : gmap string Authorization.StrangerCacheEntry) (now : Z)
  (groupJid : string) (participants : list string)
  : IgnoreDecision * gmap string Authorization.StrangerCacheEntry :=
  let run := Authorization.hasStrangers usersFile strangerCache now groupJid
               participants false in
  if negb (Authorization.hs_result run)
  then ({| shouldIgnore := false; hasStrangersFlag := false; strangers := [] |},
        Authorization.hs_cache run)
  else ({| shouldIgnore := true; hasStrangersFlag := true;
           strangers := strangersAmong usersFile participants |},
        Authorization.hs_cache run).

End StrangerDetection.

(* ===================================================================== *)
(** ** index.ts: the IPC watcher *)
(* ===================================================================== *)

Module Index.
Import Types Config.

(** The payload of a command file, as the handlers read its fields. *)
Record IpcData := mkIpcData {
  d_type : option string;
  d_taskId : option string;
  d_prompt : option string;
  d_schedule_type : option string;
  d_schedule_value : option string;
  d_context_mode : option string;
  d_groupFolder : option string;
  d_chatJid : option string;
  d_text : option string;
  d_jid : option string;
  d_name : option string;
  d_folder : option string;
  d_trigger : option string;
  d_containerConfig : option ContainerConfig;
  d_userJid : option string;
  d_userName : option string;
  d_tier : option string
}.

(** What [JSON.parse(fs.readFileSync(filePath))] does with a file: it
    throws, or it returns [null] ([None]) or a value whose properties can be
    read. *)
Inductive IpcContent :=
| IpcUnparsable
| IpcParsed (data : option IpcData).

(** One namespace directory of data/ipc with its two queues. *)
Record IpcNamespace := mkIpcNamespace {
  ns_messages : gmap string IpcContent;
  ns_tasks : gmap string IpcContent
}.

(** data/ipc: the namespace directories and the errors directory. *)
Record IpcTree := mkIpcTree {
  ipc_namespaces : gmap string IpcNamespace;
  ipc_errors : gmap string IpcContent
}.

(** Effects on the outside world, in the order they happen. *)
Inductive HostEffect :=
| SendMessage (jid text : string)
| SyncGroupMetadata
| WriteGroupsSnapshot (groupFolder : string) (isMain : bool)
| SaveRegisteredGroups
| MakeGroupDir (folder : string).

(** The host's mutable state.  [registeredGroups] keeps the property order
    of the object, which [Object.values(...).find] depends on. *)
Record HostState := mkHostState {
  db : Db.Database;
  registeredGroups : list (string * RegisteredGroup);
  usersFile : Utils.JsonFile UserRegistry;
  ipc : IpcTree;
  effects : list HostEffect;
  logs : list LogEntry
}.

(** How a handler ends: normally, or by an exception (with the state it
    leaves behind). *)
Inductive Completion :=
| Normal (st : HostState)
| Thrown (err : string) (st : HostState).

Definition withDb (f : Db.Database -> Db.Database) (st : HostState) : HostState :=
  {| db := f (db st); registeredGroups := registeredGroups st;
     usersFile := usersFile st; ipc := ipc st; effects := effects st;
     logs := logs st |}.

Definition withGroups (g : list (string * RegisteredGroup)) (st : HostState)
  : HostState :=
  {| db := db st; registeredGroups := g; usersFile := usersFile st;
     ipc := ipc st; effects := effects st; logs := logs st |}.

Definition withUsersFile (f : Utils.JsonFile UserRegistry) (st : HostState)
  : HostState :=
  {| db := db st; registeredGroups := registeredGroups st; usersFile := f;
     ipc := ipc st; effects := effects st; logs := logs st |}.

Definition withIpc (t : IpcTree) (st : HostState) : HostState :=
  {| db := db st; registeredGroups := registeredGroups st;
     usersFile := usersFile st; ipc := t; effects := effects st;
     logs := logs st |}.

Definition emit (e : HostEffect) (st : HostState) : HostState :=
  {| db := db st; registeredGroups := registeredGroups st;
     usersFile := usersFile st; ipc := ipc st;
     effects := effects st ++ [e]; logs := logs st |}.

Definition logAt (level : string) (fields : list (string * LogValue))
  (message : string) (st : HostState) : HostState :=
  {| db := db st; registeredGroups := registeredGroups st;
     usersFile := usersFile st; ipc := ipc st; effects := effects st;
     logs := logs st ++ [ {| log_level := level; log_fields := fields;
                             log_message := message |} ] |}.

(** [registeredGroups[jid]] *)
Fixpoint lookupGroup (jid : string) (groups : list (string * RegisteredGroup))
  : option RegisteredGroup :=
  match groups with
  | [] => None
  | (k, g) :: rest => if String.eqb k jid then Some g else lookupGroup jid rest
  end.

(** [Object.entries(registeredGroups).find(([, g]) => g.folder === folder)] *)
Definition findByFolder (folder : string) (groups : list (string * RegisteredGroup))
  : option (string * RegisteredGroup) :=
  find (fun kg => String.eqb (rg_folder (snd kg)) folder) groups.

(** [registeredGroups[jid] = group]: an existing property keeps its place,
    a new one goes last. *)
Fixpoint setGroup (jid : string) (group : RegisteredGroup)
  (groups : list (string * RegisteredGroup)) : list (string * RegisteredGroup) :=
  match groups with
  | [] => [(jid, group)]
  | (k, g) :: rest =>
      if String.eqb k jid then (k, group) :: rest
      else (k, g) :: setGroup jid group rest
  end.

(** [sendMessage] swallows transport errors: it never throws. *)
Definition sendMessage (jid text : string) (st : HostState) : HostState :=
  emit (SendMessage jid text) st.

Definition registerGroup (jid : string) (group : RegisteredGroup)
  (st : HostState) : HostState :=
  logAt "info" [("jid", LStr jid); ("name", LStr (rg_name group));
                ("folder", LStr (rg_folder group))] "Group registered"
    (emit (MakeGroupDir (rg_folder group))
       (emit SaveRegisteredGroups
          (withGroups (setGroup jid group (registeredGroups st)) st))).

(** The privilege level of a namespace: the context tier of the first
    registered group whose folder is the namespace, ['friend'] when there is
    none or it has no tier. *)
Definition sourceContextTier (sourceGroup : string) (st : HostState)
  : ContextTier :=
  match findByFolder sourceGroup (registeredGroups st) with
  | Some (_, group) => default ctxFriend (rg_contextTier group)
  | None => ctxFriend
  end.

(** The guard shared by pause_task, resume_task and cancel_task:
    [task && (isOwner || (isFamily && task.group_folder === sourceGroup))]. *)
Definition mayActOnTask (contextTier : ContextTier) (sourceGroup : string)
  (task : option ScheduledTask) : bool :=
  match task with
  | Some t =>
      bool_decide (contextTier = ctxOwner)
      || (bool_decide (contextTier = ctxFamily)
          && String.eqb (st_group_folder t) sourceGroup)
  | None => false
  end.

Section Handlers.
Context `{Settings} `{Runtime}.

(** The schedule check of schedule_task.  [inl message] is a rejection
    (the warning logged before [break]); [inr None] is the exception
    [toISOString] throws on an invalid date; [inr (Some nextRun)] accepts. *)
Definition computeNextRun (scheduleType scheduleValue : string) (now : Z)
  : string + option (option Z) :=
  if String.eqb scheduleType "cron" then
    match cron_next scheduleValue TIMEZONE now with
    | Some t => inr (Some (Some t))
    | None => inl "Invalid cron expression"
    end
  else if String.eqb scheduleType "interval" then
    match Js.parseInt10 scheduleValue with
    | None => inl "Invalid interval"
    | Some ms =>
        if ms <=? 0 then inl "Invalid interval"
        else if now + ms <=? MAX_TIME_VALUE then inr (Some (Some (now + ms)))
        else inr None
    end
  else if String.eqb scheduleType "once" then
    match Date_parse scheduleValue with
    | None => inl "Invalid timestamp"
    | Some t => inr (Some (Some t))
    end
  else inr (Some None).

(** [processTaskIpc(data, sourceGroup, isMain)]; [now] is the clock and
    [rand] the random suffix drawn for a task id. *)
Definition processTaskIpc (payload : option IpcData) (sourceGroup : string)
  (isMain : bool) (now : Z) (rand : string) (st : HostState) : Completion :=
  let contextTier := sourceContextTier sourceGroup st in
  let isOwner := bool_decide (contextTier = ctxOwner) in
  let isFamily := bool_decide (contextTier = ctxFamily) in
  let who := [("sourceGroup", LStr sourceGroup);
              ("contextTier", LStr (contextTierName contextTier))] in
  match payload with
  | None => Thrown "TypeError: Cannot read properties of null" st
  | Some data =>
    let type := default EmptyString (d_type data) in
    if String.eqb type "schedule_task" then
      if Js.truthy (d_prompt data) && Js.truthy (d_schedule_type data)
         && Js.truthy (d_schedule_value data) && Js.truthy (d_groupFolder data)
      then
        let targetGroup := default EmptyString (d_groupFolder data) in
        let scheduleValue := default EmptyString (d_schedule_value data) in
        if negb isOwner && negb isFamily then
          Normal (logAt "warn" who "Insufficient privilege for schedule_task" st)
        else if negb isOwner && negb (String.eqb targetGroup sourceGroup) then
          Normal (logAt "warn" who "Unauthorized schedule_task attempt blocked" st)
        else
          match findByFolder targetGroup (registeredGroups st) with
          | None =>
              Normal (logAt "warn" [("targetGroup", LStr targetGroup)]
                        "Cannot schedule task: target group not registered" st)
          | Some (targetJid, _) =>
              let scheduleType := default EmptyString (d_schedule_type data) in
              match computeNextRun scheduleType scheduleValue now with
              | inl message =>
                  Normal (logAt "warn" [("scheduleValue", LStr scheduleValue)]
                            message st)
              | inr None => Thrown "RangeError: Invalid time value" st
              | inr (Some nextRun) =>
                  let taskId := "task-" ++ pretty now ++ "-" ++ rand in
                  let contextMode :=
                    if String.eqb (default EmptyString (d_context_mode data)) "group"
                    then modeGroup else modeIsolated in
                  let task :=
                    {| st_id := taskId;
                       st_group_folder := targetGroup;
                       st_chat_jid := targetJid;
                       st_prompt := default EmptyString (d_prompt data);
                       st_schedule_type := scheduleType;
                       st_schedule_value := scheduleValue;
                       st_context_mode := contextMode;
                       st_next_run := nextRun;
                       st_last_run := None;
                       st_last_result := None;
                       st_status := active;
                       st_created_at := now |} in
                  match Db.createTask task (db st) with
                  | None => Thrown "SqliteError: UNIQUE constraint failed" st
                  | Some db' =>
                      Normal (logAt "info" (("taskId", LStr taskId) :: who)
                                "Task created via IPC" (withDb (fun _ => db') st))
                  end
              end
          end
      else Normal st
    else if String.eqb type "pause_task" then
      if Js.truthy (d_taskId data) then
        let taskId := default EmptyString (d_taskId data) in
        if mayActOnTask contextTier sourceGroup (Db.getTaskById taskId (db st))
        then Normal (logAt "info" (("taskId", LStr taskId) :: who)
                       "Task paused via IPC"
                       (withDb (Db.updateTask taskId (Db.statusUpdate paused)) st))
        else Normal (logAt "warn" (("taskId", LStr taskId) :: who)
                       "Unauthorized task pause attempt" st)
      else Normal st
    else if String.eqb type "resume_task" then
      if Js.truthy (d_taskId data) then
        let taskId := default EmptyString (d_taskId data) in
        if mayActOnTask contextTier sourceGroup (Db.getTaskById taskId (db st))
        then Normal (logAt "info" (("taskId", LStr taskId) :: who)
                       "Task resumed via IPC"
                       (withDb (Db.updateTask taskId (Db.statusUpdate active)) st))
        else Normal (logAt "warn" (("taskId", LStr taskId) :: who)
                       "Unauthorized task resume attempt" st)
      else Normal st
    else if String.eqb type "cancel_task" then
      if Js.truthy (d_taskId data) then
        let taskId := default EmptyString (d_taskId data) in
        if mayActOnTask contextTier sourceGroup (Db.getTaskById taskId (db st))
        then Normal (logAt "info" (("taskId", LStr taskId) :: who)
                       "Task cancelled via IPC"
                       (withDb (Db.deleteTask taskId) st))
        else Normal (logAt "warn" (("taskId", LStr taskId) :: who)
                       "Unauthorized task cancel attempt" st)
      else Normal st
    else if String.eqb type "refresh_groups" then
      if isOwner then
        Normal (emit (WriteGroupsSnapshot sourceGroup isOwner)
                  (emit SyncGroupMetadata
                     (logAt "info" who "Group metadata refresh requested via IPC" st)))
      else Normal (logAt "warn" who "Unauthorized refresh_groups attempt blocked" st)
    else if String.eqb type "register_group" then
      if negb isOwner then
        Normal (logAt "warn" who "Unauthorized register_group attempt blocked" st)
      else if Js.truthy (d_jid data) && Js.truthy (d_name data)
              && Js.truthy (d_folder data) && Js.truthy (d_trigger data)
      then
        Normal (registerGroup (default EmptyString (d_jid data))
                  {| rg_name := default EmptyString (d_name data);
                     rg_folder := default EmptyString (d_folder data);
                     rg_trigger := default EmptyString (d_trigger data);
                     rg_added_at := toISOString now;
                     rg_contextTier := None;
                     rg_containerConfig := d_containerConfig data |} st)
      else Normal (logAt "warn" []
                     "Invalid register_group request - missing required fields" st)
    else if String.eqb type "add_user" then
      if negb isOwner then
        Normal (logAt "warn" who "Unauthorized add_user attempt blocked" st)
      else if Js.truthy (d_userJid data) && Js.truthy (d_userName data)
              && Js.truthy (d_tier data)
      then
        let '(success, file') :=
          UserRegistry.addUser (usersFile st)
            (default EmptyString (d_userJid data))
            (default EmptyString (d_userName data))
            (default EmptyString (d_tier data)) None (toISOString now) in
        if success
        then Normal (logAt "info" [("sourceGroup", LStr sourceGroup)]
                       "User added via IPC" (withUsersFile file' st))
        else Normal (logAt "warn" [] "User already exists or add failed" st)
      else Normal (logAt "warn" []
                     "Invalid add_user request - missing required fields" st)
    else if String.eqb type "remove_user" then
      if negb isOwner then
        Normal (logAt "warn" who "Unauthorized remove_user attempt blocked" st)
      else if Js.truthy (d_userJid data) then
        match UserRegistry.removeUser (usersFile st)
                (default EmptyString (d_userJid data)) with
        | Some (true, file') =>
            Normal (logAt "info" [("sourceGroup", LStr sourceGroup)]
                      "User removed via IPC" (withUsersFile file' st))
        | Some (false, _) =>
            Normal (logAt "warn" [] "User not found in registry" st)
        | None =>
            Normal (logAt "error" [] "Failed to remove user (may be owner)" st)
        end
      else Normal (logAt "warn" [] "Invalid remove_user request - missing userJid" st)
    else if String.eqb type "list_users" then
      if negb isOwner && negb isFamily then
        Normal (logAt "warn" who "Unauthorized list_users attempt blocked" st)
      else Normal (logAt "info" who "Users listed via IPC" st)
    else if String.eqb type "get_my_tier" then
      if Js.truthy (d_userJid data)
      then Normal (logAt "info" [("sourceGroup", LStr sourceGroup)]
                     "User tier queried via IPC" st)
      else Normal (logAt "warn" [] "Invalid get_my_tier request - missing userJid" st)
    else Normal (logAt "warn" [("type", LStr type)] "Unknown IPC task type" st)
  end.

(** The state a handler leaves behind, however it ends. *)
Definition completionState (c : Completion) : HostState :=
  match c with
  | Normal st => st
  | Thrown _ st => st
  end.


(** [fs.unlinkSync(filePath)] for a file of a namespace queue. *)
Definition unlinkTaskFile (sourceGroup file : string) (t : IpcTree) : IpcTree :=
  {| ipc_namespaces :=
       alter (fun ns => {| ns_messages := ns_messages ns;
                           ns_tasks := delete file (ns_tasks ns) |})
             sourceGroup (ipc_namespaces t);
     ipc_errors := ipc_errors t |}.

Definition unlinkMessageFile (sourceGroup file : string) (t : IpcTree) : IpcTree :=
  {| ipc_namespaces :=
       alter (fun ns => {| ns_messages := delete file (ns_messages ns);
                           ns_tasks := ns_tasks ns |})
             sourceGroup (ipc_namespaces t);
     ipc_errors := ipc_errors t |}.

(** The name a file gets in the errors directory:
    [`${sourceGroup}-${file}`]. *)
Definition quarantineName (sourceGroup file : string) : string :=
  sourceGroup ++ "-" ++ file.

(** [fs.renameSync(filePath, path.join(errorDir, ...))] *)
Definition quarantineTaskFile (sourceGroup file : string) (content : IpcContent)
  (t : IpcTree) : IpcTree :=
  {| ipc_namespaces := ipc_namespaces (unlinkTaskFile sourceGroup file t);
     ipc_errors := <[ quarantineName sourceGroup file := content ]> (ipc_errors t) |}.

Definition quarantineMessageFile (sourceGroup file : string) (content : IpcContent)
  (t : IpcTree) : IpcTree :=
  {| ipc_namespaces := ipc_namespaces (unlinkMessageFile sourceGroup file t);
     ipc_errors := <[ quarantineName sourceGroup file := content ]> (ipc_errors t) |}.

Definition readTaskFile (sourceGroup file : string) (t : IpcTree)
  : option IpcContent :=
  ns ← ipc_namespaces t !! sourceGroup; ns_tasks ns !! file.

Definition readMessageFile (sourceGroup file : string) (t : IpcTree)
  : option IpcContent :=
  ns ← ipc_namespaces t !! sourceGroup; ns_messages ns !! file.

(** The body of the loop over [taskFiles] for one file that the directory
    listing returned: parse, hand to [processTaskIpc], then unlink; any
    exception moves the file to the errors directory instead. *)
Definition processTaskFile (sourceGroup file : string) (now : Z) (rand : string)
  (st : HostState) : HostState :=
  let isMain := String.eqb sourceGroup MAIN_GROUP_FOLDER in
  match readTaskFile sourceGroup file (ipc st) with
  | None => st
  | Some content =>
      let quarantine err st' :=
        withIpc (quarantineTaskFile sourceGroup file content (ipc st'))
          (logAt "error" [("file", LStr file); ("sourceGroup", LStr sourceGroup);
                          ("err", LStr err)]
             "Error processing IPC task" st') in
      match content with
      | IpcUnparsable => quarantine "SyntaxError" st
      | IpcParsed payload =>
          match processTaskIpc payload sourceGroup isMain now rand st with
          | Normal st' => withIpc (unlinkTaskFile sourceGroup file (ipc st')) st'
          | Thrown err st' => quarantine err st'
          end
      end
  end.

(** The authorization test of the message queue:
    [isMain || (targetGroup && targetGroup.folder === sourceGroup)]. *)
Definition maySendTo (sourceGroup chatJid : string)
  (groups : list (string * RegisteredGroup)) : bool :=
  String.eqb sourceGroup MAIN_GROUP_FOLDER
  || match lookupGroup chatJid groups with
     | Some targetGroup => String.eqb (rg_folder targetGroup) sourceGroup
     | None => false
     end.

(** The body of the loop over [messageFiles] for one file. *)
Definition processMessageFile (sourceGroup file : string) (st : HostState)
  : HostState :=
  match readMessageFile sourceGroup file (ipc st) with
  | None => st
  | Some content =>
      let quarantine err :=
        withIpc (quarantineMessageFile sourceGroup file content (ipc st))
          (logAt "error" [("file", LStr file); ("sourceGroup", LStr sourceGroup);
                          ("err", LStr err)]
             "Error processing IPC message" st) in
      match content with
      | IpcUnparsable => quarantine "SyntaxError"
      | IpcParsed None => quarantine "TypeError: Cannot read properties of null"
      | IpcParsed (Some data) =>
          let st' :=
            if String.eqb (default EmptyString (d_type data)) "message"
               && Js.truthy (d_chatJid data) && Js.truthy (d_text data)
            then
              let chatJid := default EmptyString (d_chatJid data) in
              let text := default EmptyString (d_text data) in
              if maySendTo sourceGroup chatJid (registeredGroups st)
              then logAt "info" [("chatJid", LStr chatJid);
                                 ("sourceGroup", LStr sourceGroup)]
                     "IPC message sent" (sendMessage chatJid text st)
              else logAt "warn" [("chatJid", LStr chatJid);
                                 ("sourceGroup", LStr sourceGroup)]
                     "Unauthorized IPC message attempt blocked" st
            else st in
          withIpc (unlinkMessageFile sourceGroup file (ipc st')) st'
      end
  end.

(** One step of the watcher: a message file or a task file of some
    namespace directory (any directory but [errors]) whose name ends in
    [.json] is consumed. *)
Inductive ipcStep : HostState -> HostState -> Prop :=
| StepMessage (sourceGroup file : string) (st : HostState) :
    sourceGroup <> "errors" -> Js.endsWith ".json" file = true ->
    ipcStep st (processMessageFile sourceGroup file st)
| StepTask (sourceGroup file : string) (now : Z) (rand : string) (st : HostState) :
    sourceGroup <> "errors" -> Js.endsWith ".json" file = true ->
    ipcStep st (processTaskFile sourceGroup file now rand st).

(** States the watcher can reach from a given one. *)
Inductive ipcReach (st0 : HostState) : HostState -> Prop :=
| ReachHere : ipcReach st0 st0
| ReachStep (st st' : HostState) :
    ipcReach st0 st -> ipcStep st st' -> ipcReach st0 st'.

End Handlers.

(** *** The message router *)

(** [translateJid]: an identity of the LID address space is replaced by
    the phone identity recorded for its user part, when there is one. *)
Definition translateJid (lidToPhoneMap : gmap string string) (jid : string)
  : string :=
  if negb (Js.endsWith "@lid" jid) then jid
  else
    let lidUser :=
      hd EmptyString (Js.split ":" (hd EmptyString (Js.split "@" jid))) in
    match lidToPhoneMap !! lidUser with
    | Some phoneJid => if Js.strTruthy phoneJid then phoneJid else jid
    | None => jid
    end.

(** [escapeXml], the local function of [processMessage]. *)
Definition escapeXml (s : string) : string :=
  Js.replaceAll "034" "&quot;"
    (Js.replaceAll ">" "&gt;" (Js.replaceAll "<" "&lt;" (Js.replaceAll "&" "&amp;" s))).

Definition messageLine (m : NewMessage) : string :=
  "<message sender=" ++ Js.dquote ++ escapeXml (nm_sender_name m) ++ Js.dquote
  ++ " time=" ++ Js.dquote ++ nm_timestamp m ++ Js.dquote ++ ">"
  ++ escapeXml (nm_content m) ++ "</message>".

Definition buildPrompt (missedMessages : list NewMessage) : string :=
  "<messages>" ++ Js.newline ++ Js.join Js.newline (map messageLine missedMessages)
  ++ Js.newline ++ "</messages>".

(** The alert sent to the owner (the warning sign is kept as the bytes of
    its UTF-8 encoding). *)
Definition strangerWarning (groupName : string) : string :=
  "⚠️ Security Alert: Strangers detected in group " ++ Js.dquote ++ groupName
  ++ Js.dquote ++ ". All messages from this group are being ignored until strangers are removed or added to your user registry.".

(** What [processMessage] does to the outside world. *)
Inductive RouterEffect :=
| Sent (jid text : string)
| Typing (jid : string) (isTyping : bool)
| AgentRun (group : RegisteredGroup) (prompt chatJid : string) (tier : ContextTier).

(** The module variables and files [processMessage] reads and writes. *)
Record RouterState := mkRouterState {
  rs_registeredGroups : list (string * RegisteredGroup);
  rs_usersFile : Utils.JsonFile UserRegistry;
  rs_lidToPhoneMap : gmap string string;
  rs_strangerCache : gmap string Authorization.StrangerCacheEntry;
  rs_lastAgentTimestamp : gmap string string;
  rs_effects : list RouterEffect
}.

(** What the calls awaited by [processMessage] answer:
    [sock.groupMetadata(jid)] gives the participants' ids or throws (left),
    [getMessagesSince(jid, since)] the stored messages, [runAgent] the
    agent's reply or [null]. *)
Record MessageEnv := mkMessageEnv {
  groupMetadata : string -> string + list string;
  getMessagesSince : string -> string -> list NewMessage;
  runAgent : RegisteredGroup -> string -> string -> ContextTier -> option string
}.

(** The [return] (or the end) that a call of [processMessage] reaches. *)
Inductive MessageOutcome :=
| NotRegistered
| MetadataUnavailable
| StrangersDetected
| FriendPassive
| CannotInvoke
| NoTrigger
| LegacyRejected
| EmptyPrompt
| Processed (tier : ContextTier) (response : option string).

Definition withStrangerCache (cache : gmap string Authorization.StrangerCacheEntry)
  (st : RouterState) : RouterState :=
  {| rs_registeredGroups := rs_registeredGroups st;
     rs_usersFile := rs_usersFile st;
     rs_lidToPhoneMap := rs_lidToPhoneMap st;
     rs_strangerCache := cache;
     rs_lastAgentTimestamp := rs_lastAgentTimestamp st;
     rs_effects := rs_effects st |}.

Definition withLastAgentTimestamp (chatJid timestamp : string) (st : RouterState)
  : RouterState :=
  {| rs_registeredGroups := rs_registeredGroups st;
     rs_usersFile := rs_usersFile st;
     rs_lidToPhoneMap := rs_lidToPhoneMap st;
     rs_strangerCache := rs_strangerCache st;
     rs_lastAgentTimestamp := <[ chatJid := timestamp ]> (rs_lastAgentTimestamp st);
     rs_effects := rs_effects st |}.

Definition push (e : RouterEffect) (st : RouterState) : RouterState :=
  {| rs_registeredGroups := rs_registeredGroups st;
     rs_usersFile := rs_usersFile st;
     rs_lidToPhoneMap := rs_lidToPhoneMap st;
     rs_strangerCache := rs_strangerCache st;
     rs_lastAgentTimestamp := rs_lastAgentTimestamp st;
     rs_effects := rs_effects st ++ [e] |}.

Section Messages.
Context `{Settings} `{Trigger}.

(** [processMessage] from the trigger check on: [st1] is the state after
    the stranger detection. *)
Definition authorizeAndRun (env : MessageEnv) (msg : NewMessage)
  (group : RegisteredGroup) (st1 : RouterState) : RouterState * MessageOutcome :=
  let content := Js.trim (nm_content msg) in
  let isMainGroup := String.eqb (rg_folder group) MAIN_GROUP_FOLDER in
  let isGroupChat := Js.endsWith "@g.us" (nm_chat_jid msg) in
  let senderJid := translateJid (rs_lidToPhoneMap st1) (nm_sender msg) in
  let senderTier := UserRegistry.getUserTier (rs_usersFile st1) senderJid in
  let hasTrigger := isMainGroup || TRIGGER_PATTERN_test content in
  let authResult :=
    (Authorization.canInvoke (rs_usersFile st1) senderJid isGroupChat).1 in
  if negb (ar_canInvoke authResult) then
    if bool_decide (senderTier = friend) && hasTrigger
    then (st1, FriendPassive)
    else (st1, CannotInvoke)
  else if negb hasTrigger then (st1, NoTrigger)
  else if negb isMainGroup && negb (TRIGGER_PATTERN_test content)
  then (st1, LegacyRejected)
  else
    let agentContextTier :=
      Authorization.determineAgentContext senderTier (rg_contextTier group) in
    let sinceTimestamp :=
      default EmptyString (rs_lastAgentTimestamp st1 !! nm_chat_jid msg) in
    let missedMessages := getMessagesSince env (nm_chat_jid msg) sinceTimestamp in
    let prompt := buildPrompt missedMessages in
    if negb (Js.strTruthy prompt) then (st1, EmptyPrompt)
    else
      let response := runAgent env group prompt (nm_chat_jid msg) agentContextTier in
      let st2 :=
        push (Typing (nm_chat_jid msg) false)
          (push (AgentRun group prompt (nm_chat_jid msg) agentContextTier)
             (push (Typing (nm_chat_jid msg) true) st1)) in
      if Js.truthy response
      then (push (Sent (nm_chat_jid msg) (default EmptyString response))
              (withLastAgentTimestamp (nm_chat_jid msg) (nm_timestamp msg) st2),
            Processed agentContextTier response)
      else (st2, Processed agentContextTier response).

(** [processMessage(msg)] at time [now]; one call is taken to run without
    another handler changing the state at its [await]s.  Log records are
    left out. *)
Definition processMessage (env : MessageEnv) (now : Z) (msg : NewMessage)
  (st : RouterState) : RouterState * MessageOutcome :=
  match lookupGroup (nm_chat_jid msg) (rs_registeredGroups st) with
  | None => (st, NotRegistered)
  | Some group =>
      let isGroupChat := Js.endsWith "@g.us" (nm_chat_jid msg) in
      if isGroupChat then
        match groupMetadata env (nm_chat_jid msg) with
        | inl _ => (st, MetadataUnavailable)
        | inr participants =>
            let run :=
              Authorization.hasStrangers (rs_usersFile st) (rs_strangerCache st)
                now (nm_chat_jid msg) participants false in
            let st1 := withStrangerCache (Authorization.hs_cache run) st in
            if Authorization.hs_result run then
              match UserRegistry.getUsersByTier (rs_usersFile st) ctxOwner with
              | ownerUser :: _ =>
                  if Js.strTruthy (ui_jid ownerUser)
                  then (push (Sent (ui_jid ownerUser)
                                (strangerWarning (rg_name group))) st1,
                        StrangersDetected)
                  else (st1, StrangersDetected)
              | [] => (st1, StrangersDetected)
              end
            else authorizeAndRun env msg group st1
        end
      else authorizeAndRun env msg group st
  end.

End Messages.

End Index.

(* ===================================================================== *)
(** ** container-runner.ts *)
(* ===================================================================== *)

Module ContainerRunner.
Import Types Config.

Definition OUTPUT_START_MARKER : string := "---NANOCLAW_OUTPUT_START---".
Definition OUTPUT_END_MARKER : string := "---NANOCLAW_OUTPUT_END---".

Record VolumeMount := mkVolumeMount {
  hostPath : string;
  containerPath : string;
  readonly : bool
}.

(** mount-security.ts is not among the sources read here: its
    [validateAdditionalMounts(mounts, groupName, isMain)] is a parameter. *)
Class MountSecurity := {
  validateAdditionalMounts : list AdditionalMount -> string -> bool -> list VolumeMount
}.

(** What [fs.realpathSync] does with a path. *)
Inductive RealPath :=
| Resolved (path : string)
| NoEntry
| ResolveError (message : string).

(** The part of the host that [buildVolumeMounts] reads: the working
    directory, the vault configuration ([loadVaultConfig()]), and the file
    system as far as it is looked at. *)
Record HostView := mkHostView {
  cwd : string;
  vaultConfig : VaultConfig;
  realpathSync : string -> RealPath;
  isDirectory : string -> bool;
  existsSync : string -> bool;
  readFileSync : string -> string
}.

Section Mounts.
Context `{Settings} `{Runtime} `{MountSecurity}.

Definition getSessionDirPath (groupFolder : string) (tier : ContextTier) : string :=
  match tier with
  | ctxOwner => path_join [DATA_DIR; "sessions"; "owner"; ".claude"]
  | ctxFamily => path_join [DATA_DIR; "sessions"; "family"; ".claude"]
  | ctxFriend => path_join [DATA_DIR; "sessions"; "friends"; groupFolder; ".claude"]
  end.

Definition blockedPatterns : list string :=
  [".ssh"; ".gnupg"; ".gpg"; ".aws"; "credentials"].

(** [validateVaultMount]: [true] when it returns, [false] when it throws. *)
Definition validateVaultMount (host : HostView) (vaultPath : string) : bool :=
  match realpathSync host vaultPath with
  | Resolved resolvedPath =>
      let lowerPath := Js.toLowerCase resolvedPath in
      if existsb (fun pattern => Js.includes pattern lowerPath) blockedPatterns
      then false
      else isDirectory host resolvedPath
  | NoEntry => false
  | ResolveError _ => false
  end.

(** The mount of a vault, when it is enabled, has a path and passes
    validation. *)
Definition vaultMount (host : HostView) (vault : option VaultSettings)
  (target : string) : list VolumeMount :=
  match vault with
  | Some v =>
      if vs_enabled v && Js.strTruthy (vs_path v) then
        let vaultPath := expandPath (vs_path v) in
        if validateVaultMount host vaultPath
        then [ {| hostPath := vaultPath; containerPath := target; readonly := false |} ]
        else []
      else []
  | None => []
  end.

Definition groupMount (group : RegisteredGroup) : VolumeMount :=
  {| hostPath := path_join [GROUPS_DIR; rg_folder group];
     containerPath := "/workspace/group";
     readonly := false |}.

(** The read-only global memory directory, when it exists. *)
Definition globalMount (host : HostView) : list VolumeMount :=
  let globalDir := path_join [GROUPS_DIR; "global"] in
  if existsSync host globalDir
  then [ {| hostPath := globalDir; containerPath := "/workspace/global";
            readonly := true |} ]
  else [].

(** The lines of .env that survive the filter: not blank, not a comment,
    and starting with one of the two allowed variable names and [=]. *)
Definition allowedVars : list string := ["CLAUDE_CODE_OAUTH_TOKEN"; "ANTHROPIC_API_KEY"].

Definition filteredLines (envContent : string) : list string :=
  List.filter (fun line =>
            let trimmed := Js.trim line in
            if negb (Js.strTruthy trimmed) || Js.startsWith "#" trimmed then false
            else existsb (fun v => Js.startsWith (v ++ "=") trimmed) allowedVars)
         (Js.split "010" envContent).

Definition envMount (host : HostView) : list VolumeMount :=
  let envDir := path_join [DATA_DIR; "env"] in
  let envFile := path_join [cwd host; ".env"] in
  if existsSync host envFile then
    match filteredLines (readFileSync host envFile) with
    | [] => []
    | _ :: _ => [ {| hostPath := envDir; containerPath := "/workspace/env-dir";
                     readonly := true |} ]
    end
  else [].

(** [effectiveTier || group.contextTier || (isMain ? 'owner' : 'friend')] *)
Definition resolveContextTier (group : RegisteredGroup) (isMain : bool)
  (effectiveTier : option ContextTier) : ContextTier :=
  match effectiveTier with
  | Some t => t
  | None =>
      match rg_contextTier group with
      | Some t => t
      | None => if isMain then ctxOwner else ctxFriend
      end
  end.

(** The mounts pushed by the [switch] on the context tier. *)
Definition tierMounts (host : HostView) (group : RegisteredGroup)
  (contextTier : ContextTier) : list VolumeMount :=
  match contextTier with
  | ctxOwner =>
      [ {| hostPath := cwd host; containerPath := "/workspace/project";
           readonly := false |} ]
      ++ vaultMount host (vc_privateVault (vaultConfig host)) "/workspace/vaults/private"
      ++ vaultMount host (vc_mainVault (vaultConfig host)) "/workspace/vaults/main"
      ++ [groupMount group]
  | ctxFamily =>
      vaultMount host (vc_mainVault (vaultConfig host)) "/workspace/vaults/main"
      ++ [groupMount group]
      ++ globalMount host
  | ctxFriend =>
      [groupMount group] ++ globalMount host
  end%list.

Definition sessionMount (group : RegisteredGroup) (contextTier : ContextTier)
  : VolumeMount :=
  {| hostPath := getSessionDirPath (rg_folder group) contextTier;
     containerPath := "/home/node/.claude";
     readonly := false |}.

Definition ipcMount (group : RegisteredGroup) : VolumeMount :=
  {| hostPath := path_join [DATA_DIR; "ipc"; rg_folder group];
     containerPath := "/workspace/ipc";
     readonly := false |}.

(** The mounts added for [group.containerConfig?.additionalMounts]. *)
Definition additionalMounts (group : RegisteredGroup) (isMain : bool)
  : list VolumeMount :=
  match rg_containerConfig group with
  | Some config =>
      match cc_additionalMounts config with
      | Some requested => validateAdditionalMounts requested (rg_name group) isMain
      | None => []
      end
  | None => []
  end.

Definition buildVolumeMounts (host : HostView) (group : RegisteredGroup)
  (isMain : bool) (effectiveTier : option ContextTier) : list VolumeMount :=
  let contextTier := resolveContextTier group isMain effectiveTier in
  (tierMounts host group contextTier
   ++ [sessionMount group contextTier]
   ++ [ipcMount group]
   ++ envMount host
   ++ additionalMounts group isMain)%list.

(** The mounts that only the owner and family branches create: the project
    root and the two vaults, told by where they appear in the container. *)
Definition isProjectOrVaultMount (m : VolumeMount) : bool :=
  String.eqb (containerPath m) "/workspace/project"
  || String.eqb (containerPath m) "/workspace/vaults/private"
  || String.eqb (containerPath m) "/workspace/vaults/main".

(** What [buildVolumeMounts] writes to data/env/env when it creates the
    environment mount: the surviving lines, each followed by a line feed.
    [None] when nothing is written. *)
Definition envFileContent (host : HostView) : option string :=
  let envFile := path_join [cwd host; ".env"] in
  if existsSync host envFile then
    match filteredLines (readFileSync host envFile) with
    | [] => None
    | line :: lines =>
        Some (Js.join (String "010" EmptyString) (line :: lines)
              ++ String "010" EmptyString)
    end
  else None.

End Mounts.

(** *** Running the container *)

(** The object literal [{status: 'error', result: null, error}]. *)
Definition errorOutput (message : string) : Json :=
  JObject [("status", JString "error"); ("result", JNull);
           ("error", JString message)].

Fixpoint property (name : string) (properties : list (string * Json))
  : option Json :=
  match properties with
  | [] => None
  | (k, v) :: rest => if String.eqb k name then Some v else property name rest
  end.

(** Whether a JSON value has the shape of the interface [ContainerOutput]:
    a status of ['success'] or ['error'], a result that is a string or
    [null], and, when present, a string [newSessionId] and a string
    [error]. *)
Definition isContainerOutput (j : Json) : bool :=
  match j with
  | JObject properties =>
      match property "status" properties with
      | Some (JString s) => String.eqb s "success" || String.eqb s "error"
      | _ => false
      end
      && match property "result" properties with
         | Some (JString _) => true
         | Some JNull => true
         | _ => false
         end
      && match property "newSessionId" properties with
         | Some (JString _) => true
         | None => true
         | _ => false
         end
      && match property "error" properties with
         | Some (JString _) => true
         | None => true
         | _ => false
         end
  | _ => false
  end.

(** What the calls made before any handler is registered throw, if they
    throw: each field holds the message of the exception of one call, in
    the order of the calls.  The first three are made in the body of the
    async function, the last two in the executor of the promise. *)
Record Setup := mkSetup {
  mkdirGroupDir : option string;      (* fs.mkdirSync(groupDir, ...) *)
  buildMounts : option string;        (* buildVolumeMounts(...), buildContainerArgs(...) *)
  mkdirLogsDir : option string;       (* fs.mkdirSync(logsDir, ...) *)
  spawnCall : option string;          (* spawn('container', containerArgs, ...) *)
  stdinWrite : option string          (* container.stdin.write(...), .end() *)
}.

Fixpoint firstThrown (calls : list (option string)) : option string :=
  match calls with
  | [] => None
  | Some message :: _ => Some message
  | None :: rest => firstThrown rest
  end.

(** The exception that ends the setup, if one of its calls throws. *)
Definition setupThrows (setup : Setup) : option string :=
  firstThrown [mkdirGroupDir setup; buildMounts setup; mkdirLogsDir setup;
               spawnCall setup; stdinWrite setup].

(** What happens to the child process, as the handlers registered in
    [runContainerAgent] see it: data on its streams, the timer, the [close]
    event and the [error] event of a failed spawn.  The [close] event comes
    with the exit code ([None] when a signal ended the process) and with
    what [fs.writeFileSync(logFile, ...)] does when the handler writes the
    run log: [None] when the log is written, the message of the exception
    otherwise. *)
Inductive ChildEvent :=
| StdoutData (chunk : string)
| StderrData (chunk : string)
| TimerFired
| Closed (code : option Z) (logWriteError : option string)
| SpawnError (message : string).

(** The variables of the promise executor and the state of the promise:
    [settled] is [None] while it is pending, and holds the value of the
    first call of [resolve] afterwards.  [uncaught] lists the exceptions
    that left a listener. *)
Record RunState := mkRunState {
  stdout : string;
  stderr : string;
  stdoutTruncated : bool;
  stderrTruncated : bool;
  timerArmed : bool;
  killed : bool;
  settled : option Json;
  uncaught : list string
}.

Definition initialRun : RunState :=
  {| stdout := ""; stderr := ""; stdoutTruncated := false;
     stderrTruncated := false; timerArmed := true; killed := false;
     settled := None; uncaught := [] |}.

(** [resolve(value)]: only the first call settles the promise. *)
Definition resolve (value : Json) (st : RunState) : RunState :=
  {| stdout := stdout st; stderr := stderr st;
     stdoutTruncated := stdoutTruncated st; stderrTruncated := stderrTruncated st;
     timerArmed := timerArmed st; killed := killed st;
     settled := match settled st with
                | Some v => Some v
                | None => Some value
                end;
     uncaught := uncaught st |}.

Definition clearTimer (st : RunState) : RunState :=
  {| stdout := stdout st; stderr := stderr st;
     stdoutTruncated := stdoutTruncated st; stderrTruncated := stderrTruncated st;
     timerArmed := false; killed := killed st; settled := settled st;
     uncaught := uncaught st |}.

(** An exception leaves the listener: nothing after the throwing statement
    runs. *)
Definition throwFromListener (message : string) (st : RunState) : RunState :=
  {| stdout := stdout st; stderr := stderr st;
     stdoutTruncated := stdoutTruncated st; stderrTruncated := stderrTruncated st;
     timerArmed := timerArmed st; killed := killed st; settled := settled st;
     uncaught := uncaught st ++ [message] |}.

(** The text handed to [JSON.parse]: what stands between the two markers
    when both are found in order, the last line of the trimmed output
    otherwise. *)
Definition jsonLine (out : string) : string :=
  match Js.indexOf OUTPUT_START_MARKER out, Js.indexOf OUTPUT_END_MARKER out with
  | Some startIdx, Some endIdx =>
      if (startIdx <? endIdx)%nat
      then Js.trim (Js.slice (startIdx + String.length OUTPUT_START_MARKER) endIdx out)
      else List.last (Js.split "010" (Js.trim out)) EmptyString
  | _, _ => List.last (Js.split "010" (Js.trim out)) EmptyString
  end.

(** [`${code}`] for an exit code. *)
Definition codeText (code : option Z) : string :=
  match code with
  | Some c => pretty c
  | None => "null"
  end.

(** The message of the TypeError raised by reading [output.status] when
    [output] is [null]. *)
Definition nullStatusMessage : string :=
  "Cannot read properties of null (reading 'status')".

(** The promise [runContainerAgent] returns. *)
Inductive Promise :=
| Pending
| Fulfilled (value : Json)
| Rejected (reason : string).

Section Run.
Context `{Settings} `{Runtime}.

(** The value the [close] handler resolves with, once the run log is
    written. *)
Definition closeResult (code : option Z) (st : RunState) : Json :=
  if bool_decide (code = Some 0) then
    match JSON_parse (jsonLine (stdout st)) with
    | inl message =>
        errorOutput ("Failed to parse container output: " ++ message)
    | inr JNull =>
        errorOutput ("Failed to parse container output: " ++ nullStatusMessage)
    | inr output => output
    end
  else
    errorOutput ("Container exited with code " ++ codeText code ++ ": "
                 ++ Js.sliceLast 200 (stderr st)).

(** One event, handled. *)
Definition handle (st : RunState) (ev : ChildEvent) : RunState :=
  match ev with
  | StdoutData chunk =>
      if stdoutTruncated st then st
      else
        let remaining := (CONTAINER_MAX_OUTPUT_SIZE - String.length (stdout st))%nat in
        if (remaining <? String.length chunk)%nat
        then {| stdout := stdout st ++ Js.take remaining chunk; stderr := stderr st;
                stdoutTruncated := true; stderrTruncated := stderrTruncated st;
                timerArmed := timerArmed st; killed := killed st;
                settled := settled st; uncaught := uncaught st |}
        else {| stdout := stdout st ++ chunk; stderr := stderr st;
                stdoutTruncated := stdoutTruncated st;
                stderrTruncated := stderrTruncated st;
                timerArmed := timerArmed st; killed := killed st;
                settled := settled st; uncaught := uncaught st |}
  | StderrData chunk =>
      if stderrTruncated st then st
      else
        let remaining := (CONTAINER_MAX_OUTPUT_SIZE - String.length (stderr st))%nat in
        if (remaining <? String.length chunk)%nat
        then {| stdout := stdout st; stderr := stderr st ++ Js.take remaining chunk;
                stdoutTruncated := stdoutTruncated st; stderrTruncated := true;
                timerArmed := timerArmed st; killed := killed st;
                settled := settled st; uncaught := uncaught st |}
        else {| stdout := stdout st; stderr := stderr st ++ chunk;
                stdoutTruncated := stdoutTruncated st;
                stderrTruncated := stderrTruncated st;
                timerArmed := timerArmed st; killed := killed st;
                settled := settled st; uncaught := uncaught st |}
  | TimerFired =>
      if timerArmed st then
        resolve (errorOutput ("Container timed out after "
                              ++ pretty CONTAINER_TIMEOUT ++ "ms"))
          {| stdout := stdout st; stderr := stderr st;
             stdoutTruncated := stdoutTruncated st;
             stderrTruncated := stderrTruncated st;
             timerArmed := false; killed := true; settled := settled st;
             uncaught := uncaught st |}
      else st
  | Closed code logWriteError =>
      (* clearTimeout(timeout); ...; fs.writeFileSync(logFile, ...); then the
         two ways of resolving *)
      match logWriteError with
      | Some message => throwFromListener message (clearTimer st)
      | None => resolve (closeResult code st) (clearTimer st)
      end
  | SpawnError message =>
      resolve (errorOutput ("Container spawn error: " ++ message)) (clearTimer st)
  end.

(** The executor's variables after a sequence of events. *)
Definition run (events : list ChildEvent) : RunState :=
  fold_left handle events initialRun.

(** [runContainerAgent]: the promise it returned, as it stands after the
    events.  An exception during the setup rejects it, and then no handler
    is ever registered; otherwise only [resolve] settles it. *)
Definition runContainerAgent (setup : Setup) (events : list ChildEvent) : Promise :=
  match setupThrows setup with
  | Some message => Rejected message
  | None =>
      match settled (run events) with
      | Some value => Fulfilled value
      | None => Pending
      end
  end.

(** An event that settles a pending promise: the [close] event when the
    run log is written, the [error] event, and the timer while it is
    armed. *)
Definition settles (st : RunState) (ev : ChildEvent) : bool :=
  match ev with
  | Closed _ None => true
  | Closed _ (Some _) => false
  | SpawnError _ => true
  | TimerFired => timerArmed st
  | StdoutData _ => false
  | StderrData _ => false
  end.

End Run.

End ContainerRunner.

(* ===================================================================== *)
(** ** The HTTP API (src/unnamed/part_000) *)
(* ===================================================================== *)

Module Api.
Import Types.

Definition MAX_BODY_SIZE : nat := 64 * 1024.
Definition MAX_TEXT_LENGTH : nat := 32 * 1024.

(** The loop of [loadApiToken] over the lines of the env file. *)
Fixpoint tokenLine (lines : list string) : option string :=
  match lines with
  | [] => None
  | line :: rest =>
      let trimmed := Js.trim line in
      if Js.startsWith "MICROCLAW_API_TOKEN=" trimmed
      then Some (Js.trim (Js.drop (String.length "MICROCLAW_API_TOKEN=") trimmed))
      else tokenLine rest
  end.

(** [loadApiToken]: [envFile] is the content of the env file, [None] when
    reading it throws. *)
Definition loadApiToken (envFile : option string) : option string :=
  match envFile with
  | Some content => tokenLine (Js.split "010" content)
  | None => None
  end.

(** [Buffer.from(s)]: the UTF-8 encoding, one byte for a code unit below
    128 and two for the others. *)
Definition utf8Char (c : ascii) : string :=
  let n := nat_of_ascii c in
  if (n <? 128)%nat then String c EmptyString
  else String (ascii_of_nat (192 + n / 64))
         (String (ascii_of_nat (128 + n mod 64)) EmptyString).

Fixpoint Buffer_from (s : string) : string :=
  match s with
  | EmptyString => EmptyString
  | String c rest => utf8Char c ++ Buffer_from rest
  end.

(** [timingSafeEqual(a, b)], called on buffers of equal length. *)
Definition timingSafeEqual (a b : string) : bool := String.eqb a b.

(** How the request stream ends: the [end] event or the [error] event. *)
Inductive BodyEnd :=
| StreamEnd
| StreamError (message : string).

(** [readBody]: the bytes received, or on the left the message of the
    rejection.  [size] and [received] are the byte count and the chunks so
    far. *)
Fixpoint readBody (size : nat) (received : string) (chunks : list string)
  (ending : BodyEnd) : string + string :=
  match chunks with
  | [] =>
      match ending with
      | StreamEnd => inr received
      | StreamError message => inl message
      end
  | chunk :: rest =>
      let size' := (size + String.length chunk)%nat in
      if (MAX_BODY_SIZE <? size')%nat then inl "Request body too large"
      else readBody size' (received ++ chunk) rest ending
  end.

(** An incoming request, as the handler reads it: the method, the path of
    [new URL(req.url || '/', ...)] ([None] when the constructor throws), the
    Authorization header and the body stream. *)
Record Request := mkRequest {
  method : string;
  pathname : option string;
  authorization : option string;
  chunks : list string;
  ending : BodyEnd
}.

(** How the promise of [processMessage] settles: with a response, with an
    [ApiError], or with another rejection. *)
Inductive ProcessResult :=
| Replied (response : Json)
| FailedWith (message : string) (statusCode : Z)
| Failed.

(** What the handler depends on besides the request: the decoder of
    [Buffer.toString('utf-8')], the callback given to [startApiServer], and
    the two values the health check reports. *)
Class Environment := {
  toStringUtf8 : string -> string;
  processMessage : string -> string -> Json -> ProcessResult;
  uptime : Z;
  timestamp : string
}.

(** What the handler did: the status and body passed to [sendJson], and the
    calls it made to [processMessage]. *)
Record Handled := mkHandled {
  statusCode : Z;
  payload : Json;
  calls : list (string * string * Json)
}.

Definition errorBody (message : string) : Json :=
  JObject [("error", JString message)].

Definition sendJson (status : Z) (body : Json) : Handled :=
  {| statusCode := status; payload := body; calls := [] |}.

(** Truthiness of a JSON value. *)
Definition jsonTruthy (j : Json) : bool :=
  match j with
  | JNull => false
  | JBool b => b
  | JNumber z => negb (z =? 0)
  | JString s => Js.strTruthy s
  | JArray _ => true
  | JObject _ => true
  end.

(** [body.name] for a parsed body that is not [null]: only an object has
    the properties the handler reads. *)
Definition field (name : string) (body : Json) : option Json :=
  match body with
  | JObject properties => ContainerRunner.property name properties
  | _ => None
  end.

Section Handler.
Context `{Config.Runtime} `{Environment}.

(** The handler from the field checks on, for a body that parsed. *)
Definition handleBody (body : Json) : Handled :=
  match body with
  | JNull => sendJson 500 (errorBody "Internal server error")
  | _ =>
      match field "text" body with
      | Some (JString text) =>
          if negb (Js.strTruthy (Js.trim text))
          then sendJson 400 (errorBody "text field cannot be empty")
          else if (MAX_TEXT_LENGTH <? String.length text)%nat
          then sendJson 400
                 (errorBody ("text exceeds maximum length of "
                             ++ pretty (Z.of_nat MAX_TEXT_LENGTH) ++ " bytes"))
          else
            let contextOk :=
              match field "context" body with
              | None => true
              | Some (JObject _) => true
              | Some _ => false
              end in
            let channelOk :=
              match field "channel" body with
              | None => true
              | Some (JString _) => true
              | Some _ => false
              end in
            if negb contextOk
            then sendJson 400 (errorBody "context must be an object")
            else if negb channelOk
            then sendJson 400 (errorBody "Invalid field: channel must be a string")
            else
              let channel :=
                match field "channel" body with
                | Some (JString c) => if Js.strTruthy c then c else "api"
                | _ => "api"
                end in
              let context := default (JObject []) (field "context" body) in
              let async := match field "async" body with
                           | Some v => jsonTruthy v
                           | None => false
                           end in
              if async
              then {| statusCode := 202;
                      payload := JObject [("status", JString "accepted")];
                      calls := [(text, channel, context)] |}
              else
                match processMessage text channel context with
                | Replied response =>
                    {| statusCode := 200; payload := response;
                       calls := [(text, channel, context)] |}
                | FailedWith message status =>
                    {| statusCode := status; payload := errorBody message;
                       calls := [(text, channel, context)] |}
                | Failed =>
                    {| statusCode := 500; payload := errorBody "Processing failed";
                       calls := [(text, channel, context)] |}
                end
      | _ => sendJson 400 (errorBody "text field cannot be empty")
      end
  end.

(** The [catch] around [readBody] and [JSON.parse]. *)
Definition bodyError (message : string) : Handled :=
  if String.eqb message "Request body too large"
  then sendJson 413 (errorBody "Request body too large")
  else sendJson 400 (errorBody "Invalid JSON body").

(** The request handler of [startApiServer]; [apiToken] is what
    [loadApiToken] returned when the server started. *)
Definition handleRequest (apiToken : option string) (req : Request) : Handled :=
  match pathname req with
  | None => sendJson 500 (errorBody "Internal server error")
  | Some path =>
      if String.eqb (method req) "GET" && String.eqb path "/api/health"
      then sendJson 200 (JObject [("status", JString "ok");
                                  ("uptime", JNumber uptime);
                                  ("timestamp", JString timestamp)])
      else if String.eqb (method req) "POST" && String.eqb path "/api/message"
      then
        if negb (Js.truthy apiToken)
        then sendJson 503 (errorBody "API token not configured")
        else
          let authHeader := default EmptyString (authorization req) in
          if negb (Js.truthy (authorization req))
             || negb (Js.startsWith "Bearer " authHeader)
          then sendJson 401 (errorBody "Unauthorized")
          else
            let tokenBuf := Buffer_from (default EmptyString apiToken) in
            let headerBuf := Buffer_from (Js.drop 7 authHeader) in
            if negb (Nat.eqb (String.length tokenBuf) (String.length headerBuf))
               || negb (timingSafeEqual tokenBuf headerBuf)
            then sendJson 401 (errorBody "Unauthorized")
            else
              match readBody 0 EmptyString (chunks req) (ending req) with
              | inl message => bodyError message
              | inr bytes =>
                  match Config.JSON_parse (toStringUtf8 bytes) with
                  | inl message => bodyError message
                  | inr body => handleBody body
                  end
              end
      else sendJson 404 (errorBody "Not found")
  end.

End Handler.

End Api.

(* ===================================================================== *)
(** ** A concrete deployment, for running the definitions *)
(* ===================================================================== *)

Module Fixture.
Import Types.

Definition settings : Config.Settings :=
  {| Config.DATA_DIR := "/srv/nanoclaw/data";
     Config.GROUPS_DIR := "/srv/nanoclaw/groups";
     Config.MAIN_GROUP_FOLDER := "main";
     Config.TIMEZONE := "UTC";
     Config.CONTAINER_TIMEOUT := 300000;
     Config.CONTAINER_MAX_OUTPUT_SIZE := 64;
     Config.expandPath := fun p => p |}.

(** The JSON texts the sample runtime reads: the literals [null], [true]
    and [false] and unsigned integers, with white space around them. *)
Definition parseScalar (text : string) : string + Json :=
  let t := Js.trim text in
  if String.eqb t "null" then inr JNull
  else if String.eqb t "true" then inr (JBool true)
  else if String.eqb t "false" then inr (JBool false)
  else if Js.strTruthy t && forallb (fun c => bool_decide (is_Some (Js.digitValue c)))
                              (list_ascii_of_string t)
  then inr (JNumber (default 0 (Js.leadingDigits None t)))
  else inl "Unexpected token".

(** A runtime that knows one cron expression (every minute), one timestamp
    (the epoch) and the scalar JSON texts; it stands in for the libraries on
    the inputs the examples below use. *)
Definition runtime : Config.Runtime :=
  {| Config.path_join := Js.join "/";
     Config.cron_next := fun expr _ now =>
       if String.eqb expr "* * * * *" then Some (60000 * (now / 60000 + 1))
       else None;
     Config.Date_parse := fun s =>
       if String.eqb s "1970-01-01T00:00:00.000Z" then Some 0 else None;
     Config.toISOString := fun t => pretty t;
     Config.JSON_parse := parseScalar |}.

(** A validator that grants every request read-only under
    /workspace/extra. *)
Definition mountSecurity : ContainerRunner.MountSecurity :=
  {| ContainerRunner.validateAdditionalMounts := fun requested _ _ =>
       map (fun m => {| ContainerRunner.hostPath := am_hostPath m;
                        ContainerRunner.containerPath :=
                          "/workspace/extra/" ++ am_containerPath m;
                        ContainerRunner.readonly := true |})
           requested |}.

(** A host with both vaults configured and present, the global notes
    directory, and an .env file with one allowed and one other variable. *)
Definition hostView : ContainerRunner.HostView :=
  {| ContainerRunner.cwd := "/srv/nanoclaw";
     ContainerRunner.vaultConfig :=
       {| vc_mainVault := Some {| vs_path := "/vaults/main"; vs_enabled := true |};
          vc_privateVault :=
            Some {| vs_path := "/vaults/private"; vs_enabled := true |} |};
     ContainerRunner.realpathSync := fun p => ContainerRunner.Resolved p;
     ContainerRunner.isDirectory := fun _ => true;
     ContainerRunner.existsSync := fun p =>
       String.eqb p "/srv/nanoclaw/groups/global" || String.eqb p "/srv/nanoclaw/.env";
     ContainerRunner.readFileSync := fun _ =>
       "ANTHROPIC_API_KEY=sk-test
DATABASE_PASSWORD=hunter2" |}.

(** A setup in which no call throws. *)
Definition setupDone : ContainerRunner.Setup :=
  {| ContainerRunner.mkdirGroupDir := None; ContainerRunner.buildMounts := None;
     ContainerRunner.mkdirLogsDir := None; ContainerRunner.spawnCall := None;
     ContainerRunner.stdinWrite := None |}.

(** A group that asks for one additional mount. *)
Definition friendsGroup : RegisteredGroup :=
  {| rg_name := "Friends"; rg_folder := "friends-chat"; rg_trigger := "@Jarvis";
     rg_added_at := "2026"; rg_contextTier := None;
     rg_containerConfig :=
       Some {| cc_additionalMounts :=
                 Some [ {| am_hostPath := "/srv/photos";
                           am_containerPath := "photos";
                           am_readonly := Some true |} ];
               cc_timeout := None |} |}.

Definition usersFile : Utils.JsonFile UserRegistry :=
  Utils.FileParsed
    {| reg_owner := mkUserInfo "100@s.whatsapp.net" "Ann" "2026" None;
       reg_family := [mkUserInfo "200@s.whatsapp.net" "Bob" "2026" None];
       reg_friends := [mkUserInfo "300@s.whatsapp.net" "Cy" "2026" None] |}.

Definition group (name folder : string) (tier : option ContextTier)
  : RegisteredGroup :=
  {| rg_name := name; rg_folder := folder; rg_trigger := "@Jarvis";
     rg_added_at := "2026"; rg_contextTier := tier; rg_containerConfig := None |}.

Definition groups : list (string * RegisteredGroup) :=
  [ ("111@g.us", group "Main" "main" (Some ctxOwner));
    ("222@g.us", group "Family" "family-chat" (Some ctxFamily));
    ("333@g.us", group "Friends" "friends-chat" None) ].

(** A task owned by the main group. *)
Definition mainTask : ScheduledTask :=
  {| st_id := "task-1"; st_group_folder := "main"; st_chat_jid := "111@g.us";
     st_prompt := "daily summary"; st_schedule_type := "interval";
     st_schedule_value := "86400000"; st_context_mode := modeIsolated;
     st_next_run := Some 90000000; st_last_run := None; st_last_result := None;
     st_status := active; st_created_at := 3600000 |}.

Definition emptyData : Index.IpcData :=
  {| Index.d_type := None; Index.d_taskId := None; Index.d_prompt := None;
     Index.d_schedule_type := None; Index.d_schedule_value := None;
     Index.d_context_mode := None; Index.d_groupFolder := None;
     Index.d_chatJid := None; Index.d_text := None; Index.d_jid := None;
     Index.d_name := None; Index.d_folder := None; Index.d_trigger := None;
     Index.d_containerConfig := None; Index.d_userJid := None;
     Index.d_userName := None; Index.d_tier := None |}.

(** [{"type": ..., "taskId": ...}] *)
Definition taskCommand (type taskId : string) : Index.IpcData :=
  {| Index.d_type := Some type; Index.d_taskId := Some taskId;
     Index.d_prompt := None;
     Index.d_schedule_type := None; Index.d_schedule_value := None;
     Index.d_context_mode := None; Index.d_groupFolder := None;
     Index.d_chatJid := None; Index.d_text := None; Index.d_jid := None;
     Index.d_name := None; Index.d_folder := None; Index.d_trigger := None;
     Index.d_containerConfig := None; Index.d_userJid := None;
     Index.d_userName := None; Index.d_tier := None |}.

(** [{"type": "message", "chatJid": ..., "text": ..., "groupFolder": ...}] *)
Definition messageCommand (chatJid text claimedFolder : string) : Index.IpcData :=
  {| Index.d_type := Some "message"; Index.d_taskId := None;
     Index.d_prompt := None;
     Index.d_schedule_type := None; Index.d_schedule_value := None;
     Index.d_context_mode := None; Index.d_groupFolder := Some claimedFolder;
     Index.d_chatJid := Some chatJid; Index.d_text := Some text;
     Index.d_jid := None;
     Index.d_name := None; Index.d_folder := None; Index.d_trigger := None;
     Index.d_containerConfig := None; Index.d_userJid := None;
     Index.d_userName := None; Index.d_tier := None |}.

(** [{"type": "schedule_task", "prompt": ..., "schedule_type": ...,
      "schedule_value": ..., "groupFolder": ...}] *)
Definition scheduleCommand (kind value folder : string) : Index.IpcData :=
  {| Index.d_type := Some "schedule_task"; Index.d_taskId := None;
     Index.d_prompt := Some "water the plants";
     Index.d_schedule_type := Some kind; Index.d_schedule_value := Some value;
     Index.d_context_mode := None; Index.d_groupFolder := Some folder;
     Index.d_chatJid := None; Index.d_text := None; Index.d_jid := None;
     Index.d_name := None; Index.d_folder := None; Index.d_trigger := None;
     Index.d_containerConfig := None; Index.d_userJid := None;
     Index.d_userName := None; Index.d_tier := None |}.

(** A host state whose only pending file is [file] in the queue chosen by
    [inTasks] of namespace [sourceGroup]. *)
Definition hostWith (sourceGroup file : string) (inTasks : bool)
  (content : Index.IpcContent) : Index.HostState :=
  {| Index.db := {| Db.scheduled_tasks := {[ "task-1" := mainTask ]};
                    Db.task_run_logs := [] |};
     Index.registeredGroups := groups;
     Index.usersFile := usersFile;
     Index.ipc :=
       {| Index.ipc_namespaces :=
            {[ sourceGroup :=
                 if inTasks
                 then {| Index.ns_messages := ∅;
                         Index.ns_tasks := {[ file := content ]} |}
                 else {| Index.ns_messages := {[ file := content ]};
                         Index.ns_tasks := ∅ |} ]};
          Index.ipc_errors := ∅ |};
     Index.effects := [];
     Index.logs := [] |}.

(** [{"type": "remove_user", "userJid": ...}] *)
Definition removeUserCommand (userJid : string) : Index.IpcData :=
  {| Index.d_type := Some "remove_user"; Index.d_taskId := None;
     Index.d_prompt := None;
     Index.d_schedule_type := None; Index.d_schedule_value := None;
     Index.d_context_mode := None; Index.d_groupFolder := None;
     Index.d_chatJid := None; Index.d_text := None; Index.d_jid := None;
     Index.d_name := None; Index.d_folder := None; Index.d_trigger := None;
     Index.d_containerConfig := None; Index.d_userJid := Some userJid;
     Index.d_userName := None; Index.d_tier := None |}.

(** The trigger of the sample deployment: the message starts with
    [@Jarvis]. *)
Definition trigger : Config.Trigger :=
  {| Config.TRIGGER_PATTERN_test := Js.startsWith "@Jarvis" |}.

(** The family group with a member nobody registered; no stored messages;
    an agent that answers every prompt. *)
Definition messageEnv : Index.MessageEnv :=
  {| Index.groupMetadata := fun _ =>
       inr ["100@s.whatsapp.net"; "200:3@s.whatsapp.net"; "999@s.whatsapp.net"];
     Index.getMessagesSince := fun _ _ => [];
     Index.runAgent := fun _ _ _ _ => Some "done" |}.

Definition routerState : Index.RouterState :=
  {| Index.rs_registeredGroups := groups;
     Index.rs_usersFile := usersFile;
     Index.rs_lidToPhoneMap := ∅;
     Index.rs_strangerCache := ∅;
     Index.rs_lastAgentTimestamp := ∅;
     Index.rs_effects := [] |}.

(** The owner writes to the family group. *)
Definition ownerMessage : NewMessage :=
  {| nm_id := "m1"; nm_chat_jid := "222@g.us"; nm_sender := "100@s.whatsapp.net";
     nm_sender_name := "Ann"; nm_content := "@Jarvis hello";
     nm_timestamp := "2026-01-01T00:00:00.000Z" |}.

Definition database : Db.Database :=
  {| Db.scheduled_tasks := {[ "task-1" := mainTask ]};
     Db.task_run_logs := [] |}.

(** The JSON text [{"text":"hello"}]. *)
Definition helloBody : string :=
  "{" ++ Js.dquote ++ "text" ++ Js.dquote ++ ":" ++ Js.dquote ++ "hello"
  ++ Js.dquote ++ "}".

(** A runtime that also parses that one body. *)
Definition apiRuntime : Config.Runtime :=
  {| Config.path_join := Js.join "/";
     Config.cron_next := fun _ _ _ => None;
     Config.Date_parse := fun _ => None;
     Config.toISOString := fun t => pretty t;
     Config.JSON_parse := fun text =>
       if String.eqb text helloBody
       then inr (JObject [("text", JString "hello")])
       else parseScalar text |}.

Definition apiEnvironment : Api.Environment :=
  {| Api.toStringUtf8 := fun bytes => bytes;
     Api.processMessage := fun text _ _ =>
       Api.Replied (JObject [("text", JString text); ("actions", JArray [])]);
     Api.uptime := 0;
     Api.timestamp := "2026-01-01T00:00:00.000Z" |}.

Definition helloRequest : Api.Request :=
  {| Api.method := "POST"; Api.pathname := Some "/api/message";
     Api.authorization := Some "Bearer s3cret";
     Api.chunks := ["{" ++ Js.dquote; "text" ++ Js.dquote ++ ":" ++ Js.dquote
                    ++ "hello" ++ Js.dquote ++ "}"];
     Api.ending := Api.StreamEnd |}.

End Fixture.

(* ===================================================================== *)
(** * Theorems *)
(* ===================================================================== *)

(* --------------------------------------------------------------------- *)
(** ** Splitting and identity normalisation *)
(* --------------------------------------------------------------------- *)

Section SplitFacts.
Import Js.

Lemma split_not_nil (sep : ascii) (s : string) : split sep s <> [].
Proof.
  induction s as [|c s IH]; simpl; [discriminate|].
  destruct (Ascii.eqb c sep); [discriminate|].
  destruct (split sep s); discriminate.
Qed.

Lemma split_without_sep (sep : ascii) (s : string) :
  hasChar sep s = false -> split sep s = [s].
Proof.
  induction s as [|c s IH]; simpl; [reflexivity|].
  intros H. apply orb_false_iff in H as [Hc Hs].
  rewrite Hc, (IH Hs). reflexivity.
Qed.

Lemma split_pieces_without_sep (sep : ascii) (s : string) :
  Forall (fun p => hasChar sep p = false) (split sep s).
Proof.
  induction s as [|c s IH]; simpl.
  - repeat constructor.
  - destruct (Ascii.eqb c sep) eqn:E.
    + constructor; [reflexivity | exact IH].
    + destruct (split sep s) as [|p ps].
      * repeat constructor. simpl. rewrite E. reflexivity.
      * inversion IH; subst. constructor; [|assumption].
        simpl. rewrite E. assumption.
Qed.

Lemma split_head_keeps_absence (sep d : ascii) (s : string) :
  hasChar d s = false -> hasChar d (hd EmptyString (split sep s)) = false.
Proof.
  induction s as [|c s IH]; simpl; [reflexivity|].
  intros H. apply orb_false_iff in H as [Hc Hs].
  destruct (Ascii.eqb c sep); [reflexivity|].
  specialize (IH Hs).
  destruct (split sep s) as [|p ps]; simpl in *; rewrite Hc; [reflexivity|exact IH].
Qed.

Lemma split_head_without_sep (sep : ascii) (s : string) :
  hasChar sep (hd EmptyString (split sep s)) = false.
Proof.
  pose proof (split_pieces_without_sep sep s) as H.
  destruct (split sep s); [reflexivity|].
  inversion H; assumption.
Qed.

Lemma split_append_sep (sep : ascii) (a b : string) :
  hasChar sep a = false ->
  split sep (a ++ String sep b) = a :: split sep b.
Proof.
  induction a as [|c a IH]; simpl.
  - intros _. rewrite Ascii.eqb_refl. reflexivity.
  - intros H. apply orb_false_iff in H as [Hc Ha].
    rewrite Hc, (IH Ha). reflexivity.
Qed.

End SplitFacts.

(** The three copies of [normalizeJid] are one function. *)
Lemma normalizeJid_copies (jid : string) :
  UserRegistry.normalizeJid jid = Utils.normalizeJid jid
  /\ Authorization.normalizeJid jid = Utils.normalizeJid jid.
Proof. split; reflexivity. Qed.

(** The shape of a normalised identity: either a local part alone, free of
    colons and at-signs, or local part, at-sign and a non-empty domain free
    of at-signs. *)
Lemma normalizeJid_shape (jid : string) :
  (Js.hasChar "@" (Utils.normalizeJid jid) = false
   /\ Js.hasChar ":" (Utils.normalizeJid jid) = false)
  \/ (exists l d,
        Utils.normalizeJid jid = l ++ "@" ++ d
        /\ Js.hasChar "@" l = false /\ Js.hasChar ":" l = false
        /\ Js.hasChar "@" d = false /\ Js.strTruthy d = true).
Proof.
  unfold Utils.normalizeJid, Js.splitLimit.
  pose proof (split_pieces_without_sep "@" jid) as Hall.
  pose proof (split_not_nil "@" jid) as Hne.
  destruct (Js.split "@" jid) as [|p0 ps]; [congruence|].
  inversion Hall as [|? ? Hp0 Hps]; subst.
  assert (Hl1 : Js.hasChar "@" (hd EmptyString (Js.split ":" p0)) = false)
    by (apply split_head_keeps_absence; exact Hp0).
  pose proof (split_head_without_sep ":" p0) as Hl2.
  destruct ps as [|p1 ps']; simpl.
  - left. split; assumption.
  - inversion Hps as [|? ? Hp1 _]; subst.
    destruct p1 as [|c d]; simpl.
    + left. split; assumption.
    + right. exists (hd EmptyString (Js.split ":" p0)), (String c d).
      repeat split; assumption.
Qed.

(** [normalizeJid] is idempotent: a normalised identity is its own normal
    form. *)
Lemma normalizeJid_idempotent (jid : string) :
  Utils.normalizeJid (Utils.normalizeJid jid) = Utils.normalizeJid jid.
Proof.
  destruct (normalizeJid_shape jid) as [[Hat Hcol] | (l & d & E & Hl & Hlc & Hd & Hnz)].
  - set (n := Utils.normalizeJid jid) in *.
    unfold Utils.normalizeJid, Js.splitLimit.
    rewrite (split_without_sep "@" n Hat). simpl.
    rewrite (split_without_sep ":" n Hcol). reflexivity.
  - rewrite E.
    unfold Utils.normalizeJid, Js.splitLimit.
    change (l ++ "@" ++ d) with (l ++ String "@" d).
    rewrite (split_append_sep "@" l d Hl).
    rewrite (split_without_sep "@" d Hd). simpl.
    rewrite (split_without_sep ":" l Hlc). simpl.
    destruct d; [discriminate|]. reflexivity.
Qed.

Example normalizeJid_device_suffix :
  Utils.normalizeJid "15551234567:12@s.whatsapp.net" = "15551234567@s.whatsapp.net".
Proof. reflexivity. Qed.

Example normalizeJid_keeps_domain_colon :
  Utils.normalizeJid "a@b:c" = "a@b:c".
Proof. reflexivity. Qed.

Example normalizeJid_second_at_sign :
  Utils.normalizeJid "a:9@b@c" = "a@b".
Proof. reflexivity. Qed.

(** Each module's [normalizeJid] leaves a normalised identity as it is. *)
Theorem normalizeJid_idempotent_in_every_module (jid : string) :
  Utils.normalizeJid (Utils.normalizeJid jid) = Utils.normalizeJid jid
  /\ UserRegistry.normalizeJid (UserRegistry.normalizeJid jid)
     = UserRegistry.normalizeJid jid
  /\ Authorization.normalizeJid (Authorization.normalizeJid jid)
     = Authorization.normalizeJid jid.
Proof.
  change UserRegistry.normalizeJid with Utils.normalizeJid.
  change Authorization.normalizeJid with Utils.normalizeJid.
  repeat split; apply normalizeJid_idempotent.
Qed.

(* --------------------------------------------------------------------- *)
(** ** Policy engine: classification and invocation *)
(* --------------------------------------------------------------------- *)

Section Classification.
Import Types.

Lemma someMatches_false (normalizedJid : string) (users : list UserInfo) :
  UserRegistry.someMatches normalizedJid users = false <->
  forall u, In u users -> UserRegistry.normalizeJid (ui_jid u) <> normalizedJid.
Proof.
  unfold UserRegistry.someMatches. split.
  - intros H u Hu E.
    assert (existsb (fun user => String.eqb (UserRegistry.normalizeJid (ui_jid user))
                                            normalizedJid) users = true) as Ht.
    { apply existsb_exists. exists u. split; [exact Hu|]. apply String.eqb_eq, E. }
    congruence.
  - intros H. apply not_true_is_false. intros Ht.
    apply existsb_exists in Ht as (u & Hu & E).
    apply String.eqb_eq in E. exact (H u Hu E).
Qed.

(** [getUserTierFromRegistry] answers [stranger] exactly when the owner
    test and both membership tests fail. *)
Lemma getUserTierFromRegistry_stranger (normalizedJid : string) (r : UserRegistry) :
  UserRegistry.getUserTierFromRegistry normalizedJid r = stranger <->
  (Js.strTruthy (ui_jid (reg_owner r)) = true ->
   UserRegistry.normalizeJid (ui_jid (reg_owner r)) <> normalizedJid)
  /\ (forall u, In u (reg_family r) -> UserRegistry.normalizeJid (ui_jid u) <> normalizedJid)
  /\ (forall u, In u (reg_friends r) -> UserRegistry.normalizeJid (ui_jid u) <> normalizedJid).
Proof.
  unfold UserRegistry.getUserTierFromRegistry.
  rewrite <- !someMatches_false.
  destruct (Js.strTruthy (ui_jid (reg_owner r))) eqn:Ho; simpl.
  - destruct (String.eqb _ normalizedJid) eqn:E.
    + split; [discriminate|]. intros (H & _ & _).
      apply String.eqb_eq in E. exfalso. exact (H eq_refl E).
    + apply String.eqb_neq in E.
      destruct (UserRegistry.someMatches normalizedJid (reg_family r));
        [split; [discriminate | intros (_ & ? & _); discriminate]|].
      destruct (UserRegistry.someMatches normalizedJid (reg_friends r));
        [split; [discriminate | intros (_ & _ & ?); discriminate]|].
      split; [intros _|reflexivity]. repeat split. intros _. exact E.
  - destruct (UserRegistry.someMatches normalizedJid (reg_family r));
      [split; [discriminate | intros (_ & ? & _); discriminate]|].
    destruct (UserRegistry.someMatches normalizedJid (reg_friends r));
      [split; [discriminate | intros (_ & _ & ?); discriminate]|].
    split; [intros _|reflexivity]. repeat split. discriminate.
Qed.

(** With the default registry every identity is a stranger. *)
Lemma defaultRegistry_all_strangers (normalizedJid : string) :
  UserRegistry.getUserTierFromRegistry normalizedJid UserRegistry.defaultRegistry
  = stranger.
Proof. reflexivity. Qed.

(** Classifying a normalised identity is classifying the identity. *)
Lemma getUserTier_normalized (usersFile : Utils.JsonFile UserRegistry) (jid : string) :
  UserRegistry.getUserTier usersFile (Utils.normalizeJid jid)
  = UserRegistry.getUserTier usersFile jid.
Proof.
  unfold UserRegistry.getUserTier.
  change UserRegistry.normalizeJid with Utils.normalizeJid.
  rewrite normalizeJid_idempotent. reflexivity.
Qed.

End Classification.

(** C2. An identity whose normalised form matches neither the owner nor a
    member of the family or friends lists is classified [stranger]; and when
    the registry file is missing or cannot be read or parsed, the registry
    loaded is the empty default and every identity is classified
    [stranger]. *)
Theorem getUserTier_unlisted_is_stranger
  (usersFile : Utils.JsonFile Types.UserRegistry) (jid : string) :
  (UserRegistry.normalizeJid
     (Types.ui_jid (Types.reg_owner (UserRegistry.loadUserRegistry usersFile)))
     <> UserRegistry.normalizeJid jid ->
   (forall u, In u (Types.reg_family (UserRegistry.loadUserRegistry usersFile)) ->
              UserRegistry.normalizeJid (Types.ui_jid u) <> UserRegistry.normalizeJid jid) ->
   (forall u, In u (Types.reg_friends (UserRegistry.loadUserRegistry usersFile)) ->
              UserRegistry.normalizeJid (Types.ui_jid u) <> UserRegistry.normalizeJid jid) ->
   UserRegistry.getUserTier usersFile jid = Types.stranger)
  /\ (usersFile = Utils.FileMissing \/ usersFile = Utils.FileCorrupt ->
      UserRegistry.loadUserRegistry usersFile = UserRegistry.defaultRegistry
      /\ UserRegistry.getUserTier usersFile jid = Types.stranger).
Proof.
  split.
  - intros Ho Hfam Hfr. unfold UserRegistry.getUserTier.
    apply getUserTierFromRegistry_stranger. repeat split; auto.
  - intros [-> | ->]; split; reflexivity.
Qed.

(** A registry with an owner, one family member and one friend: a
    fourth identity is a stranger, and so is everybody once the file is
    gone. *)
Lemma getUserTier_unlisted_is_stranger_witness :
  UserRegistry.getUserTier
    (Utils.FileParsed
       {| Types.reg_owner := Types.mkUserInfo "100@s.whatsapp.net" "Ann" "2026" None;
          Types.reg_family := [Types.mkUserInfo "200@s.whatsapp.net" "Bob" "2026" None];
          Types.reg_friends := [Types.mkUserInfo "300@s.whatsapp.net" "Cy" "2026" None] |})
    "400:7@s.whatsapp.net" = Types.stranger
  /\ UserRegistry.getUserTier Utils.FileCorrupt "100@s.whatsapp.net" = Types.stranger.
Proof.
  split.
  - apply (proj1 (getUserTier_unlisted_is_stranger
             (Utils.FileParsed
                {| Types.reg_owner := Types.mkUserInfo "100@s.whatsapp.net" "Ann" "2026" None;
                   Types.reg_family := [Types.mkUserInfo "200@s.whatsapp.net" "Bob" "2026" None];
                   Types.reg_friends := [Types.mkUserInfo "300@s.whatsapp.net" "Cy" "2026" None] |})
             "400:7@s.whatsapp.net")).
    + intros E. vm_compute in E. discriminate E.
    + intros u [<- | []] E. vm_compute in E. discriminate E.
    + intros u [<- | []] E. vm_compute in E. discriminate E.
  - apply (proj2 (getUserTier_unlisted_is_stranger Utils.FileCorrupt "100@s.whatsapp.net")).
    right. reflexivity.
Defined.

Example getUserTier_listed :
  let file := Utils.FileParsed
       {| Types.reg_owner := Types.mkUserInfo "100@s.whatsapp.net" "Ann" "2026" None;
          Types.reg_family := [Types.mkUserInfo "200@s.whatsapp.net" "Bob" "2026" None];
          Types.reg_friends := [Types.mkUserInfo "300@s.whatsapp.net" "Cy" "2026" None] |} in
  UserRegistry.getUserTier file "100:3@s.whatsapp.net" = Types.owner
  /\ UserRegistry.getUserTier file "200@s.whatsapp.net" = Types.family
  /\ UserRegistry.getUserTier file "300@s.whatsapp.net" = Types.friend.
Proof. repeat split. Qed.

(** The tier [canInvoke] reports is the classification of the sender. *)
Lemma canInvoke_tier (usersFile : Utils.JsonFile Types.UserRegistry)
  (senderJid : string) (isGroupChat : bool) :
  Types.ar_tier (fst (Authorization.canInvoke usersFile senderJid isGroupChat))
  = UserRegistry.getUserTier usersFile senderJid.
Proof.
  unfold Authorization.canInvoke. simpl.
  change Authorization.normalizeJid with Utils.normalizeJid.
  apply getUserTier_normalized.
Qed.

(** C8. [canInvoke] grants invocation exactly to identities classified
    [owner] or [family]; [friend] and [stranger] are always refused.  The
    function has no trigger-phrase input, and its other input,
    [isGroupChat], does not enter the decision. *)
Theorem canInvoke_iff_owner_or_family
  (usersFile : Utils.JsonFile Types.UserRegistry)
  (senderJid : string) (isGroupChat : bool) :
  (Types.ar_canInvoke (fst (Authorization.canInvoke usersFile senderJid isGroupChat)) = true
   <-> (UserRegistry.getUserTier usersFile senderJid = Types.owner
        \/ UserRegistry.getUserTier usersFile senderJid = Types.family))
  /\ (Types.ar_canInvoke (fst (Authorization.canInvoke usersFile senderJid isGroupChat)) = false
      <-> (UserRegistry.getUserTier usersFile senderJid = Types.friend
           \/ UserRegistry.getUserTier usersFile senderJid = Types.stranger)).
Proof.
  pose proof (canInvoke_tier usersFile senderJid isGroupChat) as Ht.
  unfold Authorization.canInvoke in *. simpl in *.
  rewrite Ht.
  destruct (UserRegistry.getUserTier usersFile senderJid); simpl;
    split; split; intros H; try discriminate; auto;
    destruct H as [H | H]; discriminate.
Qed.

(** C10. Two runs of [canInvoke] on the same sender that differ in
    [isGroupChat] return the same result: the same tier, the same
    [canInvoke] flag and the same reason. *)
Theorem canInvoke_ignores_isGroupChat
  (usersFile : Utils.JsonFile Types.UserRegistry) (senderJid : string) :
  let inGroup := fst (Authorization.canInvoke usersFile senderJid true) in
  let direct := fst (Authorization.canInvoke usersFile senderJid false) in
  inGroup = direct
  /\ Types.ar_tier inGroup = Types.ar_tier direct
  /\ Types.ar_canInvoke inGroup = Types.ar_canInvoke direct
  /\ Types.ar_reason inGroup = Types.ar_reason direct.
Proof.
  intros inGroup direct.
  assert (E : inGroup = direct) by reflexivity.
  rewrite E. repeat split.
Qed.

(** The flag does reach the log record, and only the log record. *)
Lemma canInvoke_logs_isGroupChat
  (usersFile : Utils.JsonFile Types.UserRegistry) (senderJid : string) (b : bool) :
  exists e, snd (Authorization.canInvoke usersFile senderJid b) = [e]
            /\ In ("isGroupChat", Types.LBool b) (Types.log_fields e).
Proof.
  eexists. split; [reflexivity|]. simpl. auto.
Qed.

(* --------------------------------------------------------------------- *)
(** ** Policy engine: the effective context tier *)
(* --------------------------------------------------------------------- *)

(** [determineAgentContext] returns the more restrictive of the sender's
    inferred tier and the group's tier. *)
Lemma determineAgentContext_is_max (senderTier : Types.UserTier)
  (groupTier : Types.ContextTier) :
  Authorization.contextIndex
    (Authorization.determineAgentContext senderTier (Some groupTier))
  = Nat.max (Authorization.contextIndex (Authorization.inferredContextTier senderTier))
            (Authorization.contextIndex groupTier).
Proof. destruct senderTier, groupTier; reflexivity. Qed.

(** In authorization.ts the context tier returned is never less
    restrictive than the tier inferred from the sender alone, whatever the
    group's tier; a friend or a stranger always runs in the friend
    context. *)
Theorem determineAgentContext_never_elevates (senderTier : Types.UserTier)
  (groupContextTier : option Types.ContextTier) :
  (Authorization.contextIndex (Authorization.inferredContextTier senderTier)
   <= Authorization.contextIndex
        (Authorization.determineAgentContext senderTier groupContextTier))%nat
  /\ (senderTier = Types.friend \/ senderTier = Types.stranger ->
      Authorization.determineAgentContext senderTier groupContextTier = Types.ctxFriend).
Proof.
  split.
  - destruct senderTier, groupContextTier as [[]|]; simpl; lia.
  - intros [-> | ->]; destruct groupContextTier as [[]|]; reflexivity.
Qed.

(** In src/unnamed/part_002 a configured group tier is the answer,
    whoever the sender is. *)
Lemma determineAgentContext_rev0_returns_override (senderTier : Types.UserTier)
  (groupTier : Types.ContextTier) :
  AuthorizationRev0.determineAgentContext senderTier (Some groupTier) = groupTier.
Proof. reflexivity. Qed.

(** C1. The revision of [determineAgentContext] in src/unnamed/part_002
    hands a friend-tier sender the owner context of a group override, where
    authorization.ts answers the friend context. *)
Theorem determineAgentContext_rev0_elevates :
  AuthorizationRev0.determineAgentContext Types.friend (Some Types.ctxOwner)
  = Types.ctxOwner
  /\ AuthorizationRev0.determineAgentContext Types.stranger (Some Types.ctxFamily)
     = Types.ctxFamily
  /\ Authorization.determineAgentContext Types.friend (Some Types.ctxOwner)
     = Types.ctxFriend
  /\ Authorization.determineAgentContext Types.stranger (Some Types.ctxFamily)
     = Types.ctxFriend.
Proof. repeat split. Qed.

(* --------------------------------------------------------------------- *)
(** ** Stranger gate: the cache of [hasStrangers] *)
(* --------------------------------------------------------------------- *)

Section StrangerGate.
Import Types.

(** The classification loop answers whether some participant is a
    stranger. *)
Lemma scanForStranger_result (usersFile : Utils.JsonFile UserRegistry)
  (ps : list string) :
  fst (Authorization.scanForStranger usersFile ps)
  = existsb (fun p => bool_decide (UserRegistry.getUserTier usersFile p = stranger)) ps.
Proof.
  induction ps as [|p ps IH]; simpl; [reflexivity|].
  destruct (bool_decide (UserRegistry.getUserTier usersFile p = stranger)); simpl;
    [reflexivity|].
  destruct (Authorization.scanForStranger usersFile ps); simpl in *. exact IH.
Qed.

(** It classifies a prefix of the list: everything up to the first
    stranger. *)
Lemma scanForStranger_classified_prefix (usersFile : Utils.JsonFile UserRegistry)
  (ps : list string) :
  exists rest, ps = (snd (Authorization.scanForStranger usersFile ps) ++ rest)%list.
Proof.
  induction ps as [|p ps [rest IH]]; simpl; [exists []; reflexivity|].
  destruct (bool_decide (UserRegistry.getUserTier usersFile p = stranger)); simpl.
  - exists ps. reflexivity.
  - destruct (Authorization.scanForStranger usersFile ps) as [b seen]; simpl in *.
    exists rest. congruence.
Qed.

(** Without a stranger, every participant is classified. *)
Lemma scanForStranger_classifies_all (usersFile : Utils.JsonFile UserRegistry)
  (ps : list string) :
  fst (Authorization.scanForStranger usersFile ps) = false ->
  snd (Authorization.scanForStranger usersFile ps) = ps.
Proof.
  induction ps as [|p ps IH]; simpl; [reflexivity|].
  destruct (bool_decide (UserRegistry.getUserTier usersFile p = stranger)); simpl;
    [discriminate|].
  destruct (Authorization.scanForStranger usersFile ps) as [b seen]; simpl in *.
  intros Hb. rewrite (IH Hb). reflexivity.
Qed.

Lemma listIncludes_In (x : string) (l : list string) :
  Authorization.listIncludes x l = true <-> In x l.
Proof.
  unfold Authorization.listIncludes. rewrite existsb_exists. split.
  - intros (y & Hy & E). apply String.eqb_eq in E. subst. exact Hy.
  - intros H. exists x. split; [exact H | apply String.eqb_refl].
Qed.

(** What the snapshot test computes: equal lengths, and every normalised
    participant occurs in the snapshot. *)
Lemma participantsChanged_false (participants : list string)
  (cached : Authorization.StrangerCacheEntry) :
  Authorization.participantsChanged participants cached = false <->
  List.length participants = List.length (Authorization.sce_participants cached)
  /\ incl (map Authorization.normalizeJid participants)
          (Authorization.sce_participants cached).
Proof.
  unfold Authorization.participantsChanged.
  rewrite orb_false_iff, negb_false_iff, Nat.eqb_eq.
  split; intros [Hlen H]; split; try exact Hlen.
  - intros x Hx. apply in_map_iff in Hx as (p & <- & Hp).
    apply listIncludes_In. apply not_false_iff_true. intros Hf.
    assert (existsb (fun p => negb (Authorization.listIncludes
              (Authorization.normalizeJid p)
              (Authorization.sce_participants cached))) participants = true) as Ht.
    { apply existsb_exists. exists p. split; [exact Hp|]. rewrite Hf. reflexivity. }
    congruence.
  - apply not_true_is_false. intros Ht.
    apply existsb_exists in Ht as (p & Hp & Hn).
    apply negb_true_iff in Hn.
    assert (Authorization.listIncludes (Authorization.normalizeJid p)
              (Authorization.sce_participants cached) = true) as Hy.
    { apply listIncludes_In. apply H. apply in_map. exact Hp. }
    congruence.
Qed.

(** On lists without repeated identities the snapshot test is set
    equality. *)
Lemma participantsChanged_false_distinct (participants : list string)
  (cached : Authorization.StrangerCacheEntry) :
  List.NoDup (map Authorization.normalizeJid participants) ->
  List.NoDup (Authorization.sce_participants cached) ->
  (Authorization.participantsChanged participants cached = false <->
   forall x, In x (map Authorization.normalizeJid participants)
             <-> In x (Authorization.sce_participants cached)).
Proof.
  intros Hnd1 Hnd2. rewrite participantsChanged_false. split.
  - intros [Hlen Hincl] x. split; [apply Hincl|].
    apply (NoDup_length_incl Hnd1); [|exact Hincl].
    rewrite length_map. lia.
  - intros Heq. split.
    + rewrite <- (length_map Authorization.normalizeJid participants).
      apply Nat.le_antisymm; apply NoDup_incl_length; try assumption;
        intros x Hx; apply Heq; exact Hx.
    + intros x Hx. apply Heq. exact Hx.
Qed.

(** A forced call classifies afresh and stores the new snapshot. *)
Lemma hasStrangers_forced_is_fresh (usersFile : Utils.JsonFile UserRegistry)
  (strangerCache : gmap string Authorization.StrangerCacheEntry) (now : Z)
  (groupJid : string) (participants : list string) :
  let run := Authorization.hasStrangers usersFile strangerCache now groupJid
               participants true in
  Authorization.hs_fromCache run = false
  /\ Authorization.hs_result run
     = existsb (fun p => bool_decide (UserRegistry.getUserTier usersFile p = stranger))
               (map Authorization.normalizeJid participants)
  /\ Authorization.hs_cache run !! Authorization.normalizeJid groupJid
     = Some {| Authorization.sce_hasStrangers := Authorization.hs_result run;
               Authorization.sce_lastChecked := now;
               Authorization.sce_participants :=
                 map Authorization.normalizeJid participants |}.
Proof.
  unfold Authorization.hasStrangers.
  pose proof (scanForStranger_result usersFile
                (map Authorization.normalizeJid participants)) as Hres.
  destruct (Authorization.scanForStranger usersFile _) as [found seen]; simpl in *.
  repeat split; [exact Hres|]. apply lookup_insert_eq.
Qed.

(** So does a call that finds no entry, or an entry as old as the TTL. *)
Lemma hasStrangers_miss_is_fresh (usersFile : Utils.JsonFile UserRegistry)
  (strangerCache : gmap string Authorization.StrangerCacheEntry) (now : Z)
  (groupJid : string) (participants : list string) :
  (forall cached,
     strangerCache !! Authorization.normalizeJid groupJid = Some cached ->
     Authorization.CACHE_TTL <= now - Authorization.sce_lastChecked cached) ->
  Authorization.hasStrangers usersFile strangerCache now groupJid participants false
  = Authorization.hasStrangers usersFile strangerCache now groupJid participants true.
Proof.
  intros Hold. unfold Authorization.hasStrangers.
  destruct (strangerCache !! Authorization.normalizeJid groupJid) as [cached|];
    [|reflexivity].
  specialize (Hold cached eq_refl). apply Z.ltb_ge in Hold. rewrite Hold.
  reflexivity.
Qed.

(** For participant lists without repeated identities (after
    normalisation), and a snapshot without repeats, [hasStrangers] without
    [forceRefresh] behaves as the cache contract says: within the TTL and
    with the same set of identities it returns the cached answer, classifies
    nobody and leaves the cache alone; with a different set it classifies
    afresh even within the TTL. *)
Lemma hasStrangers_cache_on_distinct_participants
  (usersFile : Utils.JsonFile UserRegistry)
  (strangerCache : gmap string Authorization.StrangerCacheEntry) (now : Z)
  (groupJid : string) (participants : list string)
  (cached : Authorization.StrangerCacheEntry) :
  strangerCache !! Authorization.normalizeJid groupJid = Some cached ->
  now - Authorization.sce_lastChecked cached < Authorization.CACHE_TTL ->
  List.NoDup (map Authorization.normalizeJid participants) ->
  List.NoDup (Authorization.sce_participants cached) ->
  let run := Authorization.hasStrangers usersFile strangerCache now groupJid
               participants false in
  ((forall x, In x (map Authorization.normalizeJid participants)
              <-> In x (Authorization.sce_participants cached)) ->
   Authorization.hs_result run = Authorization.sce_hasStrangers cached
   /\ Authorization.hs_classified run = []
   /\ Authorization.hs_cache run = strangerCache)
  /\ (~ (forall x, In x (map Authorization.normalizeJid participants)
                   <-> In x (Authorization.sce_participants cached)) ->
      Authorization.hs_fromCache run = false
      /\ Authorization.hs_result run
         = existsb (fun p => bool_decide (UserRegistry.getUserTier usersFile p = stranger))
                   (map Authorization.normalizeJid participants)
      /\ Authorization.hs_cache run !! Authorization.normalizeJid groupJid
         = Some {| Authorization.sce_hasStrangers := Authorization.hs_result run;
                   Authorization.sce_lastChecked := now;
                   Authorization.sce_participants :=
                     map Authorization.normalizeJid participants |}).
Proof.
  intros Hc Hage Hnd1 Hnd2 run.
  pose proof (participantsChanged_false_distinct participants cached Hnd1 Hnd2) as Hiff.
  pose proof (hasStrangers_forced_is_fresh usersFile strangerCache now groupJid
                participants) as Hfresh.
  subst run. unfold Authorization.hasStrangers in *. rewrite Hc.
  apply Z.ltb_lt in Hage. rewrite Hage. simpl.
  destruct (Authorization.participantsChanged participants cached) eqn:Hch; simpl.
  - split; [|intros _; exact Hfresh].
    intros Hsame. apply Hiff in Hsame. discriminate.
  - split; [intros _; repeat split|].
    intros Hdiff. exfalso. apply Hdiff. apply Hiff. reflexivity.
Qed.

(** Two calls in a row: the first classifies afresh, the second comes
    within the TTL.  With participant lists free of repeated identities the
    second call answers from the cache exactly when it is given the same
    set of identities. *)
Theorem hasStrangers_second_call (usersFile : Utils.JsonFile UserRegistry)
  (strangerCache : gmap string Authorization.StrangerCacheEntry) (t0 t1 : Z)
  (groupJid : string) (first second : list string) :
  t1 - t0 < Authorization.CACHE_TTL ->
  List.NoDup (map Authorization.normalizeJid first) ->
  List.NoDup (map Authorization.normalizeJid second) ->
  let run0 := Authorization.hasStrangers usersFile strangerCache t0 groupJid
                first true in
  let run1 := Authorization.hasStrangers usersFile (Authorization.hs_cache run0) t1
                groupJid second false in
  ((forall x, In x (map Authorization.normalizeJid second)
              <-> In x (map Authorization.normalizeJid first)) ->
   Authorization.hs_result run1 = Authorization.hs_result run0
   /\ Authorization.hs_classified run1 = [])
  /\ (~ (forall x, In x (map Authorization.normalizeJid second)
                   <-> In x (map Authorization.normalizeJid first)) ->
      Authorization.hs_fromCache run1 = false
      /\ Authorization.hs_result run1
         = existsb (fun p => bool_decide (UserRegistry.getUserTier usersFile p = stranger))
                   (map Authorization.normalizeJid second)).
Proof.
  intros Hage Hnd0 Hnd1 run0 run1.
  destruct (hasStrangers_forced_is_fresh usersFile strangerCache t0 groupJid first)
    as (_ & _ & Hentry).
  fold run0 in Hentry.
  pose proof (hasStrangers_cache_on_distinct_participants usersFile
                (Authorization.hs_cache run0) t1 groupJid second _ Hentry Hage
                Hnd1 Hnd0) as [Hsame Hdiff].
  fold run1 in Hsame, Hdiff. simpl in Hsame, Hdiff. split.
  - intros Heq. destruct (Hsame Heq) as (Hr & Hc & _). split; assumption.
  - intros Hne. destruct (Hdiff Hne) as (Hf & Hr & _). split; assumption.
Qed.

End StrangerGate.

(** A cached answer one second old, asked again with the same two members
    in another order, one of them under a device identity: a hit. *)
Lemma hasStrangers_snapshot_hit_example :
  let file := Utils.FileParsed
       {| Types.reg_owner := Types.mkUserInfo "100@s.whatsapp.net" "Ann" "2026" None;
          Types.reg_family := [Types.mkUserInfo "200@s.whatsapp.net" "Bob" "2026" None];
          Types.reg_friends := [] |} in
  let cached := {| Authorization.sce_hasStrangers := false;
                   Authorization.sce_lastChecked := 1000;
                   Authorization.sce_participants :=
                     ["100@s.whatsapp.net"; "200@s.whatsapp.net"] |} in
  let run := Authorization.hasStrangers file {[ "g@g.us" := cached ]} 2000 "g@g.us"
               ["200:4@s.whatsapp.net"; "100@s.whatsapp.net"] false in
  Authorization.hs_result run = false /\ Authorization.hs_classified run = [].
Proof.
  intros file cached run.
  pose proof (hasStrangers_cache_on_distinct_participants file
                {[ "g@g.us" := cached ]} 2000 "g@g.us"
                ["200:4@s.whatsapp.net"; "100@s.whatsapp.net"] cached) as H.
  assert (H1 : ({[ "g@g.us" := cached ]} : gmap string _)
               !! Authorization.normalizeJid "g@g.us" = Some cached)
    by (vm_compute; reflexivity).
  assert (H2 : 2000 - Authorization.sce_lastChecked cached < Authorization.CACHE_TTL)
    by (vm_compute; reflexivity).
  assert (H3 : List.NoDup (map Authorization.normalizeJid
                        ["200:4@s.whatsapp.net"; "100@s.whatsapp.net"])).
  { vm_compute. repeat constructor; simpl; intuition discriminate. }
  assert (H4 : List.NoDup (Authorization.sce_participants cached)).
  { vm_compute. repeat constructor; simpl; intuition discriminate. }
  destruct (H H1 H2 H3 H4) as [Hsame _].
  destruct Hsame as (Hr & Hc & _).
  - intros x. vm_compute. intuition.
  - split; assumption.
Defined.

(** Two calls on the sample registry, one second apart, with the same two
    members listed in another order and one under a device identity. *)
Lemma hasStrangers_second_call_witness :
  let file := Utils.FileParsed
       {| Types.reg_owner := Types.mkUserInfo "100@s.whatsapp.net" "Ann" "2026" None;
          Types.reg_family := [Types.mkUserInfo "200@s.whatsapp.net" "Bob" "2026" None];
          Types.reg_friends := [] |} in
  let run0 := Authorization.hasStrangers file ∅ 1000 "g@g.us"
                ["100@s.whatsapp.net"; "200@s.whatsapp.net"] true in
  let run1 := Authorization.hasStrangers file (Authorization.hs_cache run0) 2000
                "g@g.us" ["200:4@s.whatsapp.net"; "100@s.whatsapp.net"] false in
  Authorization.hs_result run1 = Authorization.hs_result run0
  /\ Authorization.hs_classified run1 = [].
Proof.
  intros file run0 run1.
  pose proof (hasStrangers_second_call file ∅ 1000 2000 "g@g.us"
                ["100@s.whatsapp.net"; "200@s.whatsapp.net"]
                ["200:4@s.whatsapp.net"; "100@s.whatsapp.net"]) as H.
  assert (H1 : 2000 - 1000 < Authorization.CACHE_TTL) by (vm_compute; reflexivity).
  assert (H2 : List.NoDup (map Authorization.normalizeJid
                             ["100@s.whatsapp.net"; "200@s.whatsapp.net"])).
  { vm_compute. repeat constructor; simpl; intuition discriminate. }
  assert (H3 : List.NoDup (map Authorization.normalizeJid
                             ["200:4@s.whatsapp.net"; "100@s.whatsapp.net"])).
  { vm_compute. repeat constructor; simpl; intuition discriminate. }
  destruct (H H1 H2 H3) as [Hsame _].
  apply Hsame. intros x. vm_compute. intuition.
Defined.

(** C3. The snapshot test compares list lengths and one-way membership, so
    on lists that repeat an identity it is not set equality.  First run: the
    group holds the family member 200 and the unknown 999, the answer [true]
    is cached.  Second run, within the TTL: 999 has left and 200 is listed
    under two device identities; the set of identities changed, yet the
    cached [true] is returned and nobody is classified, while a fresh
    classification answers [false].  Conversely, a snapshot that repeats an
    identity is not matched by the same set listed once. *)
Theorem hasStrangers_stale_on_repeated_identity :
  let file := Utils.FileParsed
       {| Types.reg_owner := Types.mkUserInfo "100@s.whatsapp.net" "Ann" "2026" None;
          Types.reg_family := [Types.mkUserInfo "200@s.whatsapp.net" "Bob" "2026" None];
          Types.reg_friends := [] |} in
  let first := Authorization.hasStrangers file ∅ 1000 "g@g.us"
                 ["200@s.whatsapp.net"; "999@s.whatsapp.net"] false in
  let second := Authorization.hasStrangers file (Authorization.hs_cache first) 2000
                  "g@g.us" ["200@s.whatsapp.net"; "200:1@s.whatsapp.net"] false in
  let forced := Authorization.hasStrangers file (Authorization.hs_cache first) 2000
                  "g@g.us" ["200@s.whatsapp.net"; "200:1@s.whatsapp.net"] true in
  let third := Authorization.hasStrangers file (Authorization.hs_cache forced) 3000
                 "g@g.us" ["200@s.whatsapp.net"] false in
  Authorization.hs_result first = true
  /\ Authorization.hs_fromCache second = true
  /\ Authorization.hs_result second = true
  /\ Authorization.hs_classified second = []
  /\ Authorization.hs_result forced = false
  /\ Authorization.hs_fromCache third = false
  /\ Authorization.hs_classified third = ["200@s.whatsapp.net"].
Proof. vm_compute. repeat split. Qed.

(* --------------------------------------------------------------------- *)
(** ** Command channel: the queues of a namespace *)
(* --------------------------------------------------------------------- *)

Section CommandChannel.
Import Types.
Context `{Config.Settings} `{Config.Runtime}.

Lemma readTaskFile_unlinked (sourceGroup file : string) (t : Index.IpcTree) :
  Index.readTaskFile sourceGroup file (Index.unlinkTaskFile sourceGroup file t) = None.
Proof.
  unfold Index.readTaskFile, Index.unlinkTaskFile. simpl.
  rewrite lookup_alter_eq.
  destruct (Index.ipc_namespaces t !! sourceGroup) as [ns|]; simpl; [|reflexivity].
  apply lookup_delete_eq.
Qed.

Lemma readMessageFile_unlinked (sourceGroup file : string) (t : Index.IpcTree) :
  Index.readMessageFile sourceGroup file (Index.unlinkMessageFile sourceGroup file t)
  = None.
Proof.
  unfold Index.readMessageFile, Index.unlinkMessageFile. simpl.
  rewrite lookup_alter_eq.
  destruct (Index.ipc_namespaces t !! sourceGroup) as [ns|]; simpl; [|reflexivity].
  apply lookup_delete_eq.
Qed.

(** A namespace that is not the owner's may touch a task only if it is a
    family namespace and the task is its own. *)
Lemma mayActOnTask_foreign (contextTier : ContextTier) (sourceGroup : string)
  (task : ScheduledTask) :
  contextTier <> ctxOwner -> st_group_folder task <> sourceGroup ->
  Index.mayActOnTask contextTier sourceGroup (Some task) = false.
Proof.
  intros Hno Hfolder. unfold Index.mayActOnTask.
  rewrite (bool_decide_eq_false_2 _ Hno).
  apply String.eqb_neq in Hfolder. rewrite Hfolder.
  rewrite andb_false_r. reflexivity.
Qed.

(** C4 (as amended).  A pause_task, resume_task or cancel_task file found
    in the task queue of namespace [sourceGroup] that targets a task of
    another namespace, when the tier derived for [sourceGroup] is not
    [owner], changes nothing in the database (the task keeps its status and
    stays), causes no outside effect, and the command file is consumed like
    any processed command: it is deleted from the queue and nothing is
    added to the errors directory. *)
Theorem foreign_task_command_denied_and_consumed
  (st : Index.HostState) (sourceGroup file : string) (now : Z) (rand : string)
  (data : Index.IpcData) (type taskId : string) (task : ScheduledTask) :
  Index.readTaskFile sourceGroup file (Index.ipc st)
    = Some (Index.IpcParsed (Some data)) ->
  Index.d_type data = Some type ->
  type = "pause_task" \/ type = "resume_task" \/ type = "cancel_task" ->
  Index.d_taskId data = Some taskId ->
  Db.getTaskById taskId (Index.db st) = Some task ->
  st_group_folder task <> sourceGroup ->
  Index.sourceContextTier sourceGroup st <> ctxOwner ->
  let st' := Index.processTaskFile sourceGroup file now rand st in
  Index.db st' = Index.db st
  /\ Db.getTaskById taskId (Index.db st') = Some task
  /\ Index.effects st' = Index.effects st
  /\ Index.readTaskFile sourceGroup file (Index.ipc st') = None
  /\ Index.ipc_errors (Index.ipc st') = Index.ipc_errors (Index.ipc st).
Proof.
  intros Hread Htype Hkind Hid Htask Hfolder Htier st'.
  assert (Hdeny : Index.mayActOnTask (Index.sourceContextTier sourceGroup st)
                    sourceGroup (Db.getTaskById taskId (Index.db st)) = false)
    by (rewrite Htask; apply mayActOnTask_foreign; assumption).
  assert (Htruthy : Js.truthy (Index.d_taskId data)
                    = Js.strTruthy taskId) by (rewrite Hid; reflexivity).
  subst st'. unfold Index.processTaskFile. rewrite Hread.
  unfold Index.processTaskIpc. rewrite Htype, Hid. simpl default.
  destruct Hkind as [-> | [-> | ->]]; simpl String.eqb; cbv iota;
    rewrite Hdeny; destruct (Js.truthy (Some taskId)); simpl;
    (repeat split; [exact Htask | apply readTaskFile_unlinked]).
Qed.

(** The message queue: a well-formed send request is forwarded exactly when
    [maySendTo] holds, and the file is consumed either way. *)
Lemma processMessageFile_send (st : Index.HostState) (sourceGroup file : string)
  (data : Index.IpcData) (chatJid text : string) :
  Index.readMessageFile sourceGroup file (Index.ipc st)
    = Some (Index.IpcParsed (Some data)) ->
  Index.d_type data = Some "message" ->
  Index.d_chatJid data = Some chatJid -> Js.strTruthy chatJid = true ->
  Index.d_text data = Some text -> Js.strTruthy text = true ->
  let st' := Index.processMessageFile sourceGroup file st in
  Index.effects st'
  = (if Index.maySendTo sourceGroup chatJid (Index.registeredGroups st)
     then Index.effects st ++ [Index.SendMessage chatJid text]
     else Index.effects st)%list
  /\ Index.readMessageFile sourceGroup file (Index.ipc st') = None
  /\ Index.ipc_errors (Index.ipc st') = Index.ipc_errors (Index.ipc st).
Proof.
  intros Hread Htype Hjid Hjt Htext Htt st'. subst st'.
  unfold Index.processMessageFile. rewrite Hread, Htype, Hjid, Htext.
  simpl. rewrite Hjt, Htt. simpl.
  destruct (Index.maySendTo sourceGroup chatJid (Index.registeredGroups st)); simpl;
    (repeat split; apply readMessageFile_unlinked).
Qed.

Lemma maySendTo_iff (sourceGroup chatJid : string)
  (groups : list (string * RegisteredGroup)) :
  Index.maySendTo sourceGroup chatJid groups = true <->
  sourceGroup = Config.MAIN_GROUP_FOLDER
  \/ exists targetGroup, Index.lookupGroup chatJid groups = Some targetGroup
                         /\ rg_folder targetGroup = sourceGroup.
Proof.
  unfold Index.maySendTo. rewrite orb_true_iff, String.eqb_eq.
  split; (intros [Hm | Hg]; [left; exact Hm | right]).
  - destruct (Index.lookupGroup chatJid groups) as [g|]; [|discriminate].
    exists g. split; [reflexivity | apply String.eqb_eq; exact Hg].
  - destruct Hg as (g & -> & Hf). apply String.eqb_eq. exact Hf.
Qed.

Lemma app_singleton_neq {A : Type} (l : list A) (x : A) : (l ++ [x])%list <> l.
Proof.
  intros E. apply (f_equal (@List.length A)) in E.
  rewrite length_app in E. simpl in E. lia.
Qed.

(** C5. For a message-queue entry of type ['message'] read from namespace
    directory [sourceGroup] that asks to send [text] to channel [chatJid],
    the message is sent if and only if [sourceGroup] is the main group
    folder or [chatJid] is a registered group whose folder is
    [sourceGroup].  The decision is a function of the directory name, the
    target channel and the registry of groups: a second payload with the
    same target and text, whatever its other fields say, has the same
    effect. *)
Theorem ipc_message_sent_iff_authorized
  (st : Index.HostState) (sourceGroup file : string)
  (data : Index.IpcData) (chatJid text : string) :
  Index.readMessageFile sourceGroup file (Index.ipc st)
    = Some (Index.IpcParsed (Some data)) ->
  Index.d_type data = Some "message" ->
  Index.d_chatJid data = Some chatJid -> Js.strTruthy chatJid = true ->
  Index.d_text data = Some text -> Js.strTruthy text = true ->
  let st' := Index.processMessageFile sourceGroup file st in
  (Index.effects st' = (Index.effects st ++ [Index.SendMessage chatJid text])%list
   <-> (sourceGroup = Config.MAIN_GROUP_FOLDER
        \/ exists targetGroup,
             Index.lookupGroup chatJid (Index.registeredGroups st) = Some targetGroup
             /\ rg_folder targetGroup = sourceGroup))
  /\ (Index.effects st' = Index.effects st
      <-> ~ (sourceGroup = Config.MAIN_GROUP_FOLDER
             \/ exists targetGroup,
                  Index.lookupGroup chatJid (Index.registeredGroups st) = Some targetGroup
                  /\ rg_folder targetGroup = sourceGroup))
  /\ (forall (st2 : Index.HostState) (file2 : string) (data2 : Index.IpcData),
        Index.registeredGroups st2 = Index.registeredGroups st ->
        Index.effects st2 = Index.effects st ->
        Index.readMessageFile sourceGroup file2 (Index.ipc st2)
          = Some (Index.IpcParsed (Some data2)) ->
        Index.d_type data2 = Some "message" ->
        Index.d_chatJid data2 = Some chatJid ->
        Index.d_text data2 = Some text ->
        Index.effects (Index.processMessageFile sourceGroup file2 st2)
        = Index.effects st').
Proof.
  intros Hread Htype Hjid Hjt Htext Htt st'.
  destruct (processMessageFile_send st sourceGroup file data chatJid text
              Hread Htype Hjid Hjt Htext Htt) as (Heff & _ & _).
  fold st' in Heff. rewrite <- maySendTo_iff.
  repeat split.
  - intros E. rewrite Heff in E.
    destruct (Index.maySendTo sourceGroup chatJid (Index.registeredGroups st));
      [reflexivity|]. symmetry in E. exfalso. exact (app_singleton_neq _ _ E).
  - intros Hm. rewrite Heff, Hm. reflexivity.
  - intros E Hm. rewrite Heff, Hm in E. exact (app_singleton_neq _ _ E).
  - intros Hn. rewrite Heff.
    destruct (Index.maySendTo sourceGroup chatJid (Index.registeredGroups st));
      [exfalso; apply Hn; reflexivity | reflexivity].
  - intros st2 file2 data2 Hg He Hread2 Htype2 Hjid2 Htext2.
    destruct (processMessageFile_send st2 sourceGroup file2 data2 chatJid text
                Hread2 Htype2 Hjid2 Hjt Htext2 Htt) as (Heff2 & _ & _).
    rewrite Heff2, Heff, Hg, He. reflexivity.
Qed.

End CommandChannel.

(* --------------------------------------------------------------------- *)
(** ** Command channel: schedule validation *)
(* --------------------------------------------------------------------- *)

Section ScheduleValidation.
Import Types.
Context `{Config.Settings} `{Config.Runtime}.








End ScheduleValidation.

(* --------------------------------------------------------------------- *)
(** ** Command channel: runs on the sample deployment *)
(* --------------------------------------------------------------------- *)

(** On the sample deployment: the family namespace asks to pause the main
    group's task.  The task is untouched and the file is gone from the
    queue. *)
Lemma foreign_task_command_denied_and_consumed_witness :
  let st := Fixture.hostWith "family-chat" "pause-1.json" true
              (Index.IpcParsed (Some (Fixture.taskCommand "pause_task" "task-1"))) in
  let st' := @Index.processTaskFile Fixture.settings Fixture.runtime
               "family-chat" "pause-1.json" 5000 "k3x9qa" st in
  Index.db st' = Index.db st
  /\ Index.readTaskFile "family-chat" "pause-1.json" (Index.ipc st') = None.
Proof.
  intros st st'.
  pose proof (@foreign_task_command_denied_and_consumed
                Fixture.settings Fixture.runtime st "family-chat" "pause-1.json"
                5000 "k3x9qa" (Fixture.taskCommand "pause_task" "task-1")
                "pause_task" "task-1" Fixture.mainTask) as H.
  destruct H as (Hdb & _ & _ & Hgone & _).
  - vm_compute. reflexivity.
  - reflexivity.
  - left. reflexivity.
  - reflexivity.
  - vm_compute. reflexivity.
  - intros E. vm_compute in E. discriminate E.
  - intros E. vm_compute in E. discriminate E.
  - split; assumption.
Defined.

(** C4, the claim as stated fails: in the run above the command of the
    family namespace against the main group's task is denied (the task is
    still active), but the command file is not in the errors directory under
    its prefixed name or any other; it has been deleted. *)
Lemma foreign_task_command_not_quarantined :
  let st := Fixture.hostWith "family-chat" "pause-1.json" true
              (Index.IpcParsed (Some (Fixture.taskCommand "pause_task" "task-1"))) in
  let st' := @Index.processTaskFile Fixture.settings Fixture.runtime
               "family-chat" "pause-1.json" 5000 "k3x9qa" st in
  Index.sourceContextTier "family-chat" st = Types.ctxFamily
  /\ Types.st_group_folder Fixture.mainTask = "main"
  /\ Db.getTaskById "task-1" (Index.db st') = Some Fixture.mainTask
  /\ Index.readTaskFile "family-chat" "pause-1.json" (Index.ipc st') = None
  /\ Index.ipc_errors (Index.ipc st')
       !! Index.quarantineName "family-chat" "pause-1.json" = None
  /\ Index.ipc_errors (Index.ipc st') = ∅
  /\ List.map Types.log_message (Index.logs st') = ["Unauthorized task pause attempt"].
Proof. vm_compute. repeat split. Qed.

(** What does reach the errors directory: a file that does not parse, and a
    file whose payload is [null]. *)
Example unparsable_task_file_quarantined :
  let st := Fixture.hostWith "family-chat" "junk.json" true Index.IpcUnparsable in
  let st' := @Index.processTaskFile Fixture.settings Fixture.runtime
               "family-chat" "junk.json" 5000 "k3x9qa" st in
  Index.readTaskFile "family-chat" "junk.json" (Index.ipc st') = None
  /\ Index.ipc_errors (Index.ipc st') !! "family-chat-junk.json"
     = Some Index.IpcUnparsable.
Proof. vm_compute. repeat split. Qed.

Example null_task_file_quarantined :
  let st := Fixture.hostWith "family-chat" "null.json" true (Index.IpcParsed None) in
  let st' := @Index.processTaskFile Fixture.settings Fixture.runtime
               "family-chat" "null.json" 5000 "k3x9qa" st in
  Index.ipc_errors (Index.ipc st') !! "family-chat-null.json"
  = Some (Index.IpcParsed None).
Proof. vm_compute. reflexivity. Qed.

(** The owner namespace may pause any task; a family namespace its own. *)
Example owner_pauses_any_task :
  let st := Fixture.hostWith "main" "pause-1.json" true
              (Index.IpcParsed (Some (Fixture.taskCommand "pause_task" "task-1"))) in
  let st' := @Index.processTaskFile Fixture.settings Fixture.runtime
               "main" "pause-1.json" 5000 "k3x9qa" st in
  Types.st_status <$> Db.getTaskById "task-1" (Index.db st') = Some Types.paused.
Proof. vm_compute. reflexivity. Qed.

(** The family namespace sends to its own channel; the payload's
    [groupFolder] field, which names the main group, plays no part. *)
Lemma ipc_message_sent_iff_authorized_witness :
  let st := Fixture.hostWith "family-chat" "msg-1.json" false
              (Index.IpcParsed (Some (Fixture.messageCommand "222@g.us" "hello" "main"))) in
  Index.effects (@Index.processMessageFile Fixture.settings "family-chat" "msg-1.json" st)
  = [Index.SendMessage "222@g.us" "hello"].
Proof.
  intros st.
  pose proof (@ipc_message_sent_iff_authorized Fixture.settings st
                "family-chat" "msg-1.json"
                (Fixture.messageCommand "222@g.us" "hello" "main")
                "222@g.us" "hello") as H.
  destruct H as (Hsend & _ & _).
  - vm_compute. reflexivity.
  - reflexivity.
  - reflexivity.
  - reflexivity.
  - reflexivity.
  - reflexivity.
  - apply Hsend. right. exists (Fixture.group "Family" "family-chat" (Some Types.ctxFamily)).
    split; reflexivity.
Defined.

(** The same payload aimed at the main group's channel is blocked, although
    it claims to come from the main group. *)
Example ipc_message_to_foreign_channel_blocked :
  let st := Fixture.hostWith "family-chat" "msg-2.json" false
              (Index.IpcParsed (Some (Fixture.messageCommand "111@g.us" "hello" "main"))) in
  let st' := @Index.processMessageFile Fixture.settings "family-chat" "msg-2.json" st in
  Index.effects st' = []
  /\ List.map Types.log_message (Index.logs st')
     = ["Unauthorized IPC message attempt blocked"]
  /\ Index.readMessageFile "family-chat" "msg-2.json" (Index.ipc st') = None.
Proof. vm_compute. repeat split. Qed.


(** Valid schedules of the three kinds create a task with its next run. *)
Example valid_interval_creates_task :
  let st := Fixture.hostWith "main" "sched-2.json" true
              (Index.IpcParsed (Some (Fixture.scheduleCommand "interval" "60000" "family-chat"))) in
  let st' := @Index.processTaskFile Fixture.settings Fixture.runtime
               "main" "sched-2.json" 5000 "k3x9qa" st in
  (fun t => (Types.st_group_folder t, Types.st_chat_jid t, Types.st_next_run t))
    <$> Db.getTaskById "task-5000-k3x9qa" (Index.db st')
  = Some ("family-chat", "222@g.us", Some 65000).
Proof. vm_compute. reflexivity. Qed.

Example valid_cron_creates_task :
  let st := Fixture.hostWith "main" "sched-3.json" true
              (Index.IpcParsed (Some (Fixture.scheduleCommand "cron" "* * * * *" "main"))) in
  let st' := @Index.processTaskFile Fixture.settings Fixture.runtime
               "main" "sched-3.json" 5000 "k3x9qa" st in
  Types.st_next_run <$> Db.getTaskById "task-5000-k3x9qa" (Index.db st')
  = Some (Some 60000).
Proof. vm_compute. reflexivity. Qed.

(** [parseInt] reads a leading run of digits: "5 minutes" is an interval of
    five milliseconds, and the task stores the text as given. *)
Example interval_with_trailing_text_accepted :
  Js.parseInt10 "5 minutes" = Some 5
  /\ Js.parseInt10 " 42abc" = Some 42
  /\ Js.parseInt10 "-7" = Some (-7)
  /\ Js.parseInt10 "abc" = None
  /\ Js.parseInt10 "" = None.
Proof. repeat split. Qed.


(** An interval too large for a date makes [toISOString] throw: the command
    file is quarantined and no task is created. *)
Example overlong_interval_quarantined :
  let st := Fixture.hostWith "main" "sched-4.json" true
              (Index.IpcParsed (Some (Fixture.scheduleCommand "interval"
                                        "99999999999999999999" "main"))) in
  let st' := @Index.processTaskFile Fixture.settings Fixture.runtime
               "main" "sched-4.json" 5000 "k3x9qa" st in
  Index.db st' = Index.db st
  /\ is_Some (Index.ipc_errors (Index.ipc st') !! "main-sched-4.json").
Proof. vm_compute. split; [reflexivity | eexists; reflexivity]. Qed.

(* --------------------------------------------------------------------- *)
(** ** Container runner: mount composition *)
(* --------------------------------------------------------------------- *)

Section MountComposition.
Import Types.
Context `{Config.Settings} `{Config.Runtime} `{ContainerRunner.MountSecurity}.

Lemma globalMount_read_only (host : ContainerRunner.HostView)
  (m : ContainerRunner.VolumeMount) :
  In m (ContainerRunner.globalMount host) ->
  ContainerRunner.containerPath m = "/workspace/global"
  /\ ContainerRunner.readonly m = true
  /\ ContainerRunner.existsSync host (Config.path_join [Config.GROUPS_DIR; "global"]) = true.
Proof.
  unfold ContainerRunner.globalMount.
  destruct (ContainerRunner.existsSync host _) eqn:E; [|intros []].
  intros [<- | []]. repeat split.
Qed.

Lemma envMount_read_only (host : ContainerRunner.HostView)
  (m : ContainerRunner.VolumeMount) :
  In m (ContainerRunner.envMount host) ->
  ContainerRunner.containerPath m = "/workspace/env-dir"
  /\ ContainerRunner.readonly m = true.
Proof.
  unfold ContainerRunner.envMount.
  destruct (ContainerRunner.existsSync host _); [|intros []].
  destruct (ContainerRunner.filteredLines _); [intros []|].
  intros [<- | []]. split; reflexivity.
Qed.



(** The test of the filter on the lines of .env, spelled out. *)
Lemma allowed_line_test (line : string) :
  (let trimmed := Js.trim line in
   if negb (Js.strTruthy trimmed) || Js.startsWith "#" trimmed then false
   else existsb (fun v => Js.startsWith (v ++ "=") trimmed) ContainerRunner.allowedVars)
  = Js.strTruthy (Js.trim line)
    && negb (Js.startsWith "#" (Js.trim line))
    && (Js.startsWith "CLAUDE_CODE_OAUTH_TOKEN=" (Js.trim line)
        || Js.startsWith "ANTHROPIC_API_KEY=" (Js.trim line)).
Proof.
  cbv zeta. unfold ContainerRunner.allowedVars. cbn [existsb].
  change ("CLAUDE_CODE_OAUTH_TOKEN" ++ "=") with "CLAUDE_CODE_OAUTH_TOKEN=".
  change ("ANTHROPIC_API_KEY" ++ "=") with "ANTHROPIC_API_KEY=".
  destruct (Js.strTruthy (Js.trim line)); [|reflexivity].
  destruct (Js.startsWith "#" (Js.trim line)); [reflexivity|].
  destruct (Js.startsWith "CLAUDE_CODE_OAUTH_TOKEN=" (Js.trim line)); [reflexivity|].
  destruct (Js.startsWith "ANTHROPIC_API_KEY=" (Js.trim line)); reflexivity.
Qed.



End MountComposition.


(** The folder of a group is joined to the groups directory as it is: for
    a group whose folder is [..] the directory mounted read-write at
    /workspace/group is the parent of the groups directory. *)
Example group_folder_is_joined_unchecked :
  hd_error
    (@ContainerRunner.buildVolumeMounts Fixture.settings Fixture.runtime
       Fixture.mountSecurity Fixture.hostView
       (Fixture.group "Friends" ".." None) false (Some Types.ctxFriend))
  = Some {| ContainerRunner.hostPath := "/srv/nanoclaw/groups/..";
            ContainerRunner.containerPath := "/workspace/group";
            ContainerRunner.readonly := false |}.
Proof. vm_compute. reflexivity. Qed.

(** For comparison, the same group run at the owner and family tiers. *)
Example owner_and_family_mounts :
  map ContainerRunner.containerPath
    (@ContainerRunner.buildVolumeMounts Fixture.settings Fixture.runtime
       Fixture.mountSecurity Fixture.hostView Fixture.friendsGroup false
       (Some Types.ctxOwner))
  = ["/workspace/project"; "/workspace/vaults/private"; "/workspace/vaults/main";
     "/workspace/group"; "/home/node/.claude"; "/workspace/ipc";
     "/workspace/env-dir"; "/workspace/extra/photos"]
  /\ map ContainerRunner.containerPath
       (@ContainerRunner.buildVolumeMounts Fixture.settings Fixture.runtime
          Fixture.mountSecurity Fixture.hostView Fixture.friendsGroup false
          (Some Types.ctxFamily))
     = ["/workspace/vaults/main"; "/workspace/group"; "/workspace/global";
        "/home/node/.claude"; "/workspace/ipc"; "/workspace/env-dir";
        "/workspace/extra/photos"].
Proof. vm_compute. split; reflexivity. Qed.

(** Only the allowed variable reaches the environment file. *)
Example env_file_filtered :
  ContainerRunner.filteredLines
    (ContainerRunner.readFileSync Fixture.hostView "/srv/nanoclaw/.env")
  = ["ANTHROPIC_API_KEY=sk-test"].
Proof. vm_compute. reflexivity. Qed.

(* --------------------------------------------------------------------- *)
(** ** Container runner: the result of a run *)
(* --------------------------------------------------------------------- *)

Section RunResult.
Import Types.
Context `{Config.Settings} `{Config.Runtime}.

(** Once the promise is settled, no event changes its value. *)
Lemma handle_keeps_settled (st : ContainerRunner.RunState)
  (ev : ContainerRunner.ChildEvent) (v : Json) :
  ContainerRunner.settled st = Some v ->
  ContainerRunner.settled (ContainerRunner.handle st ev) = Some v.
Proof.
  intros Hs. destruct ev; simpl; repeat case_match; simpl;
    rewrite ?Hs; auto; congruence.
Qed.

Lemma fold_handle_keeps_settled (events : list ContainerRunner.ChildEvent)
  (st : ContainerRunner.RunState) (v : Json) :
  ContainerRunner.settled st = Some v ->
  ContainerRunner.settled (fold_left ContainerRunner.handle events st) = Some v.
Proof.
  revert st. induction events as [|ev events IH]; intros st Hs; simpl; [exact Hs|].
  apply IH. apply handle_keeps_settled. exact Hs.
Qed.

(** A settling event leaves the promise settled. *)
Lemma handle_settles (st : ContainerRunner.RunState)
  (ev : ContainerRunner.ChildEvent) :
  ContainerRunner.settles st ev = true ->
  is_Some (ContainerRunner.settled (ContainerRunner.handle st ev)).
Proof.
  destruct ev as [chunk|chunk| |code [message|]|message]; simpl; try discriminate.
  - intros ->. simpl. destruct (ContainerRunner.settled st); eauto.
  - intros _. destruct (ContainerRunner.settled st); eauto.
  - intros _. destruct (ContainerRunner.settled st); eauto.
Qed.

(** Once the timer is cleared and while the promise is pending, the only
    events that settle it are a [close] whose log is written and a spawn
    error. *)
Lemma handle_keeps_pending (st : ContainerRunner.RunState)
  (ev : ContainerRunner.ChildEvent) :
  ContainerRunner.settled st = None ->
  ContainerRunner.timerArmed st = false ->
  match ev with
  | ContainerRunner.Closed _ None => False
  | ContainerRunner.SpawnError _ => False
  | _ => True
  end ->
  ContainerRunner.settled (ContainerRunner.handle st ev) = None
  /\ ContainerRunner.timerArmed (ContainerRunner.handle st ev) = false.
Proof.
  intros Hs Ht.
  destruct ev as [chunk|chunk| |code [message|]|message]; simpl; intros Hev;
    try contradiction; rewrite ?Ht; repeat case_match; simpl; auto.
Qed.

Lemma fold_handle_keeps_pending (events : list ContainerRunner.ChildEvent)
  (st : ContainerRunner.RunState) :
  ContainerRunner.settled st = None ->
  ContainerRunner.timerArmed st = false ->
  Forall (fun ev => match ev with
                    | ContainerRunner.Closed _ None => False
                    | ContainerRunner.SpawnError _ => False
                    | _ => True
                    end) events ->
  ContainerRunner.settled (fold_left ContainerRunner.handle events st) = None.
Proof.
  revert st. induction events as [|ev events IH]; intros st Hs Ht Hall; simpl;
    [exact Hs|].
  apply Forall_cons_iff in Hall as [Hev Hall].
  destruct (handle_keeps_pending st ev Hs Ht Hev) as [Hs' Ht'].
  apply IH; assumption.
Qed.

(** After a setup that does not throw, the promise is what [resolve] made
    of it. *)
Lemma runContainerAgent_after_setup (setup : ContainerRunner.Setup)
  (events : list ContainerRunner.ChildEvent) :
  ContainerRunner.setupThrows setup = None ->
  ContainerRunner.runContainerAgent setup events
  = match ContainerRunner.settled (ContainerRunner.run events) with
    | Some value => ContainerRunner.Fulfilled value
    | None => ContainerRunner.Pending
    end.
Proof. unfold ContainerRunner.runContainerAgent. intros ->. reflexivity. Qed.

(** After a setup that does not throw, a [close] event whose log is
    written and the [error] event always settle the promise: a run in
    which one of them occurred has a result. *)
Lemma runContainerAgent_resolves (setup : ContainerRunner.Setup)
  (events : list ContainerRunner.ChildEvent) :
  ContainerRunner.setupThrows setup = None ->
  (exists ev, In ev events
              /\ match ev with
                 | ContainerRunner.Closed _ None => True
                 | ContainerRunner.SpawnError _ => True
                 | _ => False
                 end) ->
  exists value,
    ContainerRunner.runContainerAgent setup events = ContainerRunner.Fulfilled value.
Proof.
  intros Hsetup Hex. rewrite (runContainerAgent_after_setup _ _ Hsetup).
  enough (Hsome : is_Some (ContainerRunner.settled (ContainerRunner.run events))).
  { destruct Hsome as [v ->]. exists v. reflexivity. }
  revert Hex. unfold ContainerRunner.run.
  generalize ContainerRunner.initialRun as st.
  induction events as [|e events IH]; intros st (ev & Hin & Hev); [destruct Hin|].
  simpl. destruct Hin as [-> | Hin].
  - assert (Hs : ContainerRunner.settles st ev = true).
    { destruct ev as [chunk|chunk| |code [message|]|message]; simpl; tauto. }
    destruct (handle_settles st ev Hs) as [v Hv].
    exists v. apply fold_handle_keeps_settled. exact Hv.
  - apply IH. exists ev. split; assumption.
Qed.

Lemma run_app (before after : list ContainerRunner.ChildEvent) :
  ContainerRunner.run (before ++ after)
  = fold_left ContainerRunner.handle after (ContainerRunner.run before).
Proof. unfold ContainerRunner.run. apply fold_left_app. Qed.

(** Without a block between the markers (a marker is missing, or the first
    end marker does not come after the first start marker) the text parsed
    is the last line of the trimmed output. *)
Lemma jsonLine_without_block (out : string) :
  (forall startIdx endIdx,
     Js.indexOf ContainerRunner.OUTPUT_START_MARKER out = Some startIdx ->
     Js.indexOf ContainerRunner.OUTPUT_END_MARKER out = Some endIdx ->
     (endIdx <= startIdx)%nat) ->
  ContainerRunner.jsonLine out = List.last (Js.split "010" (Js.trim out)) EmptyString.
Proof.
  unfold ContainerRunner.jsonLine. intros Hno.
  destruct (Js.indexOf ContainerRunner.OUTPUT_START_MARKER out) as [a|];
    [|reflexivity].
  destruct (Js.indexOf ContainerRunner.OUTPUT_END_MARKER out) as [b|];
    [|reflexivity].
  specialize (Hno a b eq_refl eq_refl).
  apply Nat.ltb_ge in Hno. rewrite Hno. reflexivity.
Qed.

(** With a block, it is the trimmed text between the markers. *)
Lemma jsonLine_with_block (out : string) (startIdx endIdx : nat) :
  Js.indexOf ContainerRunner.OUTPUT_START_MARKER out = Some startIdx ->
  Js.indexOf ContainerRunner.OUTPUT_END_MARKER out = Some endIdx ->
  (startIdx < endIdx)%nat ->
  ContainerRunner.jsonLine out
  = Js.trim (Js.slice (startIdx + String.length ContainerRunner.OUTPUT_START_MARKER)
                      endIdx out).
Proof.
  unfold ContainerRunner.jsonLine. intros -> -> Hlt.
  apply Nat.ltb_lt in Hlt. rewrite Hlt. reflexivity.
Qed.

(** C6.  The promise of [runContainerAgent] is not always settled with a
    result, and what settles it is not always a [ContainerOutput]:
    - an exception in the setup (creating the group or log directory,
      building the mounts, spawning, writing the input) rejects the promise,
      whatever happens afterwards;
    - when the run log cannot be written, the [close] handler has cleared
      the timer and then throws before it reaches [resolve]: the exception
      leaves the listener, the cleared timer does nothing any more, and the
      promise stays pending whatever the streams still deliver;
    - on exit code 0, a text that parses to anything but [null] is the value
      of the promise as it is, and a number is no [ContainerOutput]. *)
Theorem runContainerAgent_can_reject_or_stay_pending
  (setup : ContainerRunner.Setup) (before after : list ContainerRunner.ChildEvent)
  (code : option Z) (message : string) :
  (forall reason events,
     ContainerRunner.setupThrows setup = Some reason ->
     ContainerRunner.runContainerAgent setup events = ContainerRunner.Rejected reason)
  /\ (ContainerRunner.setupThrows setup = None ->
      ContainerRunner.settled (ContainerRunner.run before) = None ->
      Forall (fun ev => match ev with
                        | ContainerRunner.StdoutData _ => True
                        | ContainerRunner.StderrData _ => True
                        | ContainerRunner.TimerFired => True
                        | ContainerRunner.Closed _ (Some _) => True
                        | ContainerRunner.Closed _ None => False
                        | ContainerRunner.SpawnError _ => False
                        end) after ->
      ContainerRunner.runContainerAgent setup
        (before ++ ContainerRunner.Closed code (Some message) :: after)
      = ContainerRunner.Pending
      /\ ContainerRunner.uncaught
           (ContainerRunner.run (before ++ [ContainerRunner.Closed code (Some message)]))
         = (ContainerRunner.uncaught (ContainerRunner.run before) ++ [message])%list
      /\ ContainerRunner.timerArmed
           (ContainerRunner.run (before ++ [ContainerRunner.Closed code (Some message)]))
         = false)
  /\ (forall n,
        ContainerRunner.setupThrows setup = None ->
        ContainerRunner.settled (ContainerRunner.run before) = None ->
        Config.JSON_parse
          (ContainerRunner.jsonLine (ContainerRunner.stdout (ContainerRunner.run before)))
        = inr (JNumber n) ->
        ContainerRunner.runContainerAgent setup
          (before ++ ContainerRunner.Closed (Some 0) None :: after)
        = ContainerRunner.Fulfilled (JNumber n)
        /\ ContainerRunner.isContainerOutput (JNumber n) = false).
Proof.
  split; [|split].
  - intros reason events Hthrows. unfold ContainerRunner.runContainerAgent.
    rewrite Hthrows. reflexivity.
  - intros Hsetup Hpending Hafter.
    rewrite (runContainerAgent_after_setup _ _ Hsetup), !run_app. simpl.
    split; [|split; reflexivity].
    rewrite (fold_handle_keeps_pending after); [reflexivity| | |].
    + simpl. exact Hpending.
    + reflexivity.
    + eapply Forall_impl; [exact Hafter|].
      intros [chunk|chunk| |c [m|]|m]; simpl; tauto.
  - intros n Hsetup Hpending Hparse.
    rewrite (runContainerAgent_after_setup _ _ Hsetup), run_app. simpl.
    split; [|reflexivity].
    rewrite (fold_handle_keeps_settled after _ (JNumber n)); [reflexivity|].
    simpl. rewrite Hpending. unfold ContainerRunner.closeResult. simpl.
    rewrite Hparse. reflexivity.
Qed.

(** While the setup does not throw, the promise is never rejected; while
    it is pending, each way a run can fail settles it with
    [{status: 'error', result: null, error}], provided the [close] handler
    can write the run log: an exit code other than 0 (or a signal), the
    timer, a spawn error, and output whose text [JSON.parse] rejects or
    parses to [null]; without a block between the markers that text is the
    last line of the trimmed output.  On exit code 0 a value that does
    parse is resolved as it is.  Whatever happens afterwards, the promise
    keeps the value it was settled with. *)
Theorem runContainerAgent_failures_yield_error
  (setup : ContainerRunner.Setup) (before after : list ContainerRunner.ChildEvent) :
  ContainerRunner.setupThrows setup = None ->
  ContainerRunner.settled (ContainerRunner.run before) = None ->
  let st := ContainerRunner.run before in
  (forall events reason,
     ContainerRunner.runContainerAgent setup events <> ContainerRunner.Rejected reason)
  /\ (forall code, code <> Some 0 ->
     ContainerRunner.runContainerAgent setup
       (before ++ ContainerRunner.Closed code None :: after)
     = ContainerRunner.Fulfilled
         (JObject [("status", JString "error"); ("result", JNull);
                   ("error",
                    JString ("Container exited with code "
                             ++ match code with
                                | Some c => pretty c
                                | None => "null"
                                end
                             ++ ": " ++ Js.sliceLast 200 (ContainerRunner.stderr st)))]))
  /\ (ContainerRunner.timerArmed st = true ->
      ContainerRunner.runContainerAgent setup
        (before ++ ContainerRunner.TimerFired :: after)
      = ContainerRunner.Fulfilled
          (JObject [("status", JString "error"); ("result", JNull);
                    ("error",
                     JString ("Container timed out after "
                              ++ pretty Config.CONTAINER_TIMEOUT ++ "ms"))])
      /\ ContainerRunner.killed
           (ContainerRunner.handle st ContainerRunner.TimerFired) = true)
  /\ (forall message,
        ContainerRunner.runContainerAgent setup
          (before ++ ContainerRunner.SpawnError message :: after)
        = ContainerRunner.Fulfilled
            (JObject [("status", JString "error"); ("result", JNull);
                      ("error", JString ("Container spawn error: " ++ message))]))
  /\ (forall message,
        Config.JSON_parse (ContainerRunner.jsonLine (ContainerRunner.stdout st))
        = inl message ->
        ContainerRunner.runContainerAgent setup
          (before ++ ContainerRunner.Closed (Some 0) None :: after)
        = ContainerRunner.Fulfilled
            (JObject [("status", JString "error"); ("result", JNull);
                      ("error",
                       JString ("Failed to parse container output: " ++ message))]))
  /\ (Config.JSON_parse (ContainerRunner.jsonLine (ContainerRunner.stdout st))
      = inr JNull ->
      ContainerRunner.runContainerAgent setup
        (before ++ ContainerRunner.Closed (Some 0) None :: after)
      = ContainerRunner.Fulfilled
          (JObject [("status", JString "error"); ("result", JNull);
                    ("error",
                     JString ("Failed to parse container output: "
                              ++ "Cannot read properties of null (reading 'status')"))]))
  /\ (forall output,
        Config.JSON_parse (ContainerRunner.jsonLine (ContainerRunner.stdout st))
        = inr output -> output <> JNull ->
        ContainerRunner.runContainerAgent setup
          (before ++ ContainerRunner.Closed (Some 0) None :: after)
        = ContainerRunner.Fulfilled output)
  /\ ((forall startIdx endIdx,
         Js.indexOf "---NANOCLAW_OUTPUT_START---" (ContainerRunner.stdout st)
         = Some startIdx ->
         Js.indexOf "---NANOCLAW_OUTPUT_END---" (ContainerRunner.stdout st)
         = Some endIdx ->
         (endIdx <= startIdx)%nat) ->
      ContainerRunner.jsonLine (ContainerRunner.stdout st)
      = List.last (Js.split "010" (Js.trim (ContainerRunner.stdout st))) EmptyString)
  /\ (forall message,
        ContainerRunner.isContainerOutput
          (JObject [("status", JString "error"); ("result", JNull);
                    ("error", JString message)]) = true).
Proof.
  intros Hsetup Hpending. cbv zeta.
  assert (Hsettle : forall ev v,
            ContainerRunner.settled
              (ContainerRunner.handle (ContainerRunner.run before) ev) = Some v ->
            ContainerRunner.runContainerAgent setup (before ++ ev :: after)
            = ContainerRunner.Fulfilled v).
  { intros ev v Hv. rewrite (runContainerAgent_after_setup _ _ Hsetup).
    rewrite run_app. simpl.
    rewrite (fold_handle_keeps_settled after _ v Hv). reflexivity. }
  split.
  { intros events reason. rewrite (runContainerAgent_after_setup _ _ Hsetup).
    destruct (ContainerRunner.settled (ContainerRunner.run events));
      intros E; discriminate E. }
  revert Hpending Hsettle. generalize (ContainerRunner.run before) as s.
  intros s Hpending Hsettle.
  repeat split.
  - intros code Hcode. apply Hsettle. simpl. rewrite Hpending.
    unfold ContainerRunner.closeResult.
    rewrite (bool_decide_eq_false_2 _ Hcode). reflexivity.
  - apply Hsettle. simpl.
    match goal with Harmed : ContainerRunner.timerArmed s = true |- _ =>
      rewrite Harmed end.
    simpl. rewrite Hpending. reflexivity.
  - simpl.
    match goal with Harmed : ContainerRunner.timerArmed s = true |- _ =>
      rewrite Harmed end.
    reflexivity.
  - intros message. apply Hsettle. simpl. rewrite Hpending. reflexivity.
  - intros message Hparse. apply Hsettle. simpl. rewrite Hpending.
    unfold ContainerRunner.closeResult. simpl. rewrite Hparse. reflexivity.
  - intros Hparse. apply Hsettle. simpl. rewrite Hpending.
    unfold ContainerRunner.closeResult. simpl. rewrite Hparse. reflexivity.
  - intros output Hparse Hnn. apply Hsettle. simpl. rewrite Hpending.
    unfold ContainerRunner.closeResult. simpl. rewrite Hparse.
    destruct output; congruence.
  - apply jsonLine_without_block.
Qed.

End RunResult.

(** On the sample deployment: the child writes to stderr and exits with
    code 1 after removing the log directory of its group, so the log write
    throws: the promise stays pending, and the timer, cleared by the
    handler, does not settle it either; the directory of the group cannot
    be created: the promise is rejected; the child prints [42] and exits
    0: the promise is fulfilled with the number 42. *)
Lemma runContainerAgent_can_reject_or_stay_pending_witness :
  @ContainerRunner.runContainerAgent Fixture.settings Fixture.runtime
    Fixture.setupDone
    [ContainerRunner.StderrData "boom";
     ContainerRunner.Closed (Some 1)
       (Some "ENOENT: no such file or directory, open");
     ContainerRunner.TimerFired]
  = ContainerRunner.Pending
  /\ ContainerRunner.uncaught
       (@ContainerRunner.run Fixture.settings Fixture.runtime
          [ContainerRunner.StderrData "boom";
           ContainerRunner.Closed (Some 1)
             (Some "ENOENT: no such file or directory, open")])
     = ["ENOENT: no such file or directory, open"]
  /\ @ContainerRunner.runContainerAgent Fixture.settings Fixture.runtime
       {| ContainerRunner.mkdirGroupDir := Some "EACCES: permission denied, mkdir";
          ContainerRunner.buildMounts := None;
          ContainerRunner.mkdirLogsDir := None;
          ContainerRunner.spawnCall := None;
          ContainerRunner.stdinWrite := None |}
       [ContainerRunner.StdoutData "42"; ContainerRunner.Closed (Some 0) None]
     = ContainerRunner.Rejected "EACCES: permission denied, mkdir"
  /\ @ContainerRunner.runContainerAgent Fixture.settings Fixture.runtime
       Fixture.setupDone
       [ContainerRunner.StdoutData "42"; ContainerRunner.Closed (Some 0) None]
     = ContainerRunner.Fulfilled (Types.JNumber 42)
  /\ ContainerRunner.isContainerOutput (Types.JNumber 42) = false.
Proof.
  pose proof (@runContainerAgent_can_reject_or_stay_pending Fixture.settings
                Fixture.runtime Fixture.setupDone
                [ContainerRunner.StderrData "boom"] [ContainerRunner.TimerFired]
                (Some 1) "ENOENT: no such file or directory, open")
    as (_ & Hpending & _).
  destruct Hpending as (Hp & Hu & _);
    [reflexivity | reflexivity | repeat constructor |].
  pose proof (@runContainerAgent_can_reject_or_stay_pending Fixture.settings
                Fixture.runtime
                {| ContainerRunner.mkdirGroupDir :=
                     Some "EACCES: permission denied, mkdir";
                   ContainerRunner.buildMounts := None;
                   ContainerRunner.mkdirLogsDir := None;
                   ContainerRunner.spawnCall := None;
                   ContainerRunner.stdinWrite := None |}
                [] [] None EmptyString)
    as (Hrejected & _).
  pose proof (@runContainerAgent_can_reject_or_stay_pending Fixture.settings
                Fixture.runtime Fixture.setupDone
                [ContainerRunner.StdoutData "42"] [] None EmptyString)
    as (_ & _ & Hnumber).
  destruct (Hnumber 42 eq_refl eq_refl) as (Hf & Hshape);
    [vm_compute; reflexivity |].
  split; [exact Hp|].
  split; [exact Hu|].
  split; [apply Hrejected; reflexivity|].
  split; [exact Hf | exact Hshape].
Defined.

(** The child prints a line that is not JSON and exits 0: no marker is
    found, the last line fails to parse, and the result is the parse
    error. *)
Lemma runContainerAgent_failures_yield_error_witness :
  @ContainerRunner.runContainerAgent Fixture.settings Fixture.runtime
    Fixture.setupDone
    [ContainerRunner.StdoutData "starting
done, no result"; ContainerRunner.Closed (Some 0) None]
  = ContainerRunner.Fulfilled
      (Types.JObject
         [("status", Types.JString "error"); ("result", Types.JNull);
          ("error",
           Types.JString "Failed to parse container output: Unexpected token")]).
Proof.
  pose proof (@runContainerAgent_failures_yield_error Fixture.settings Fixture.runtime
                Fixture.setupDone
                [ContainerRunner.StdoutData "starting
done, no result"] [] eq_refl eq_refl) as H.
  destruct H as (_ & _ & _ & _ & Hparse & _).
  apply (Hparse "Unexpected token"). vm_compute. reflexivity.
Defined.

(** The other failures, run on the sample deployment. *)
Example runContainerAgent_failure_runs :
  @ContainerRunner.runContainerAgent Fixture.settings Fixture.runtime
    Fixture.setupDone
    [ContainerRunner.StderrData "boom"; ContainerRunner.Closed (Some 1) None]
  = ContainerRunner.Fulfilled
      (ContainerRunner.errorOutput "Container exited with code 1: boom")
  /\ @ContainerRunner.runContainerAgent Fixture.settings Fixture.runtime
       Fixture.setupDone
       [ContainerRunner.StdoutData "partial"; ContainerRunner.TimerFired;
        ContainerRunner.Closed None None]
     = ContainerRunner.Fulfilled
         (ContainerRunner.errorOutput "Container timed out after 300000ms")
  /\ @ContainerRunner.runContainerAgent Fixture.settings Fixture.runtime
       Fixture.setupDone
       [ContainerRunner.SpawnError "spawn container ENOENT"]
     = ContainerRunner.Fulfilled
         (ContainerRunner.errorOutput
            "Container spawn error: spawn container ENOENT")
  /\ @ContainerRunner.runContainerAgent Fixture.settings Fixture.runtime
       Fixture.setupDone
       [ContainerRunner.StdoutData "null"; ContainerRunner.Closed (Some 0) None]
     = ContainerRunner.Fulfilled
         (ContainerRunner.errorOutput
            "Failed to parse container output: Cannot read properties of null (reading 'status')")
  /\ @ContainerRunner.runContainerAgent Fixture.settings Fixture.runtime
       Fixture.setupDone
       [ContainerRunner.StdoutData "log"] = ContainerRunner.Pending.
Proof. vm_compute. repeat split. Qed.

(* --------------------------------------------------------------------- *)
(** ** Command channel: the authorization matrix of task commands *)
(* --------------------------------------------------------------------- *)

Section AuthorizationMatrix.
Import Types.
Context `{Config.Settings} `{Config.Runtime}.

(** Commands from a namespace that is not the owner's never change the
    group registry or the user registry and never reach the transport. *)
Theorem non_owner_commands_leave_registries
  (payload : option Index.IpcData) (sourceGroup : string) (isMain : bool)
  (now : Z) (rand : string) (st : Index.HostState) :
  Index.sourceContextTier sourceGroup st <> ctxOwner ->
  let st' := Index.completionState
               (Index.processTaskIpc payload sourceGroup isMain now rand st) in
  Index.registeredGroups st' = Index.registeredGroups st
  /\ Index.usersFile st' = Index.usersFile st
  /\ Index.effects st' = Index.effects st.
Proof.
  intros Hno. unfold Index.processTaskIpc.
  rewrite (bool_decide_eq_false_2 _ Hno).
  destruct payload as [data|]; [|repeat split].
  repeat case_match; simpl; repeat split; discriminate.
Qed.

(** Commands from a friend-tier namespace change nothing but the log. *)
Theorem friend_commands_change_nothing
  (payload : option Index.IpcData) (sourceGroup : string) (isMain : bool)
  (now : Z) (rand : string) (st : Index.HostState) :
  Index.sourceContextTier sourceGroup st = ctxFriend ->
  let st' := Index.completionState
               (Index.processTaskIpc payload sourceGroup isMain now rand st) in
  Index.db st' = Index.db st
  /\ Index.registeredGroups st' = Index.registeredGroups st
  /\ Index.usersFile st' = Index.usersFile st
  /\ Index.effects st' = Index.effects st
  /\ Index.ipc st' = Index.ipc st.
Proof.
  intros Hf. unfold Index.processTaskIpc, Index.mayActOnTask. rewrite Hf.
  destruct payload as [data|]; [|repeat split].
  repeat case_match; simpl in *; repeat split; discriminate.
Qed.

(** A family-tier namespace can create, pause, resume or cancel tasks of
    its own folder only: tasks of other folders stay as they are, and a
    task that appears belongs to the namespace. *)
Theorem family_commands_stay_in_namespace
  (payload : option Index.IpcData) (sourceGroup : string) (isMain : bool)
  (now : Z) (rand : string) (st : Index.HostState) :
  Index.sourceContextTier sourceGroup st = ctxFamily ->
  let st' := Index.completionState
               (Index.processTaskIpc payload sourceGroup isMain now rand st) in
  (forall id task,
     Db.scheduled_tasks (Index.db st) !! id = Some task ->
     st_group_folder task <> sourceGroup ->
     Db.scheduled_tasks (Index.db st') !! id = Some task)
  /\ (forall id task,
        Db.scheduled_tasks (Index.db st') !! id = Some task ->
        Db.scheduled_tasks (Index.db st) !! id = None ->
        st_group_folder task = sourceGroup).
Proof.
  intros Hf. unfold Index.processTaskIpc, Index.mayActOnTask, Db.getTaskById.
  rewrite Hf.
  destruct payload as [data|]; [|simpl; split; [auto | congruence]].
  repeat case_match; simpl in *; try discriminate;
    try (split; [auto | congruence]).
  - (* schedule_task *)
    match goal with
    | Hc : Db.createTask ?t ?d0 = Some _ |- _ =>
        unfold Db.createTask in Hc;
        destruct (Db.scheduled_tasks d0 !! st_id t) eqn:Hfree; [discriminate|];
        injection Hc as <-
    end.
    match goal with
    | Hg : negb (String.eqb ?target sourceGroup) = false |- _ =>
        apply negb_false_iff, String.eqb_eq in Hg
    end.
    simpl. split.
    + intros id task Hold _. rewrite lookup_insert_ne; [exact Hold|].
      intros <-. simpl in Hfree. congruence.
    + intros id task Hnew Hold. apply lookup_insert_Some in Hnew as [[_ <-] | [_ Hn]];
        [simpl; assumption | congruence].
  - (* schedule_task, the other context mode *)
    match goal with
    | Hc : Db.createTask ?t ?d0 = Some _ |- _ =>
        unfold Db.createTask in Hc;
        destruct (Db.scheduled_tasks d0 !! st_id t) eqn:Hfree; [discriminate|];
        injection Hc as <-
    end.
    match goal with
    | Hg : negb (String.eqb ?target sourceGroup) = false |- _ =>
        apply negb_false_iff, String.eqb_eq in Hg
    end.
    simpl. split.
    + intros id task Hold _. rewrite lookup_insert_ne; [exact Hold|].
      intros <-. simpl in Hfree. congruence.
    + intros id task Hnew Hold. apply lookup_insert_Some in Hnew as [[_ <-] | [_ Hn]];
        [simpl; assumption | congruence].
  - (* pause_task *)
    match goal with Hm : String.eqb _ sourceGroup = true |- _ =>
      apply String.eqb_eq in Hm end.
    split.
    + intros id task Hold Hother. rewrite lookup_alter_ne; [exact Hold|].
      intros <-. congruence.
    + intros id task Hnew Hold. apply lookup_alter_Some in Hnew
        as [(_ & t & Ht & _) | [_ Hn]]; congruence.
  - (* resume_task *)
    match goal with Hm : String.eqb _ sourceGroup = true |- _ =>
      apply String.eqb_eq in Hm end.
    split.
    + intros id task Hold Hother. rewrite lookup_alter_ne; [exact Hold|].
      intros <-. congruence.
    + intros id task Hnew Hold. apply lookup_alter_Some in Hnew
        as [(_ & t & Ht & _) | [_ Hn]]; congruence.
  - (* cancel_task *)
    match goal with Hm : String.eqb _ sourceGroup = true |- _ =>
      apply String.eqb_eq in Hm end.
    split.
    + intros id task Hold Hother. rewrite lookup_delete_ne; [exact Hold|].
      intros <-. congruence.
    + intros id task Hnew Hold. apply lookup_delete_Some in Hnew as [_ Hn].
      congruence.
Qed.

End AuthorizationMatrix.

(** The family namespace of the sample deployment asks to register a
    group: the registry of groups stays as it is. *)
Lemma non_owner_commands_leave_registries_witness :
  let st := Fixture.hostWith "family-chat" "reg.json" true Index.IpcUnparsable in
  let data := {| Index.d_type := Some "register_group"; Index.d_taskId := None;
                 Index.d_prompt := None; Index.d_schedule_type := None;
                 Index.d_schedule_value := None; Index.d_context_mode := None;
                 Index.d_groupFolder := None; Index.d_chatJid := None;
                 Index.d_text := None; Index.d_jid := Some "999@g.us";
                 Index.d_name := Some "Takeover"; Index.d_folder := Some "main";
                 Index.d_trigger := Some "@Jarvis";
                 Index.d_containerConfig := None; Index.d_userJid := None;
                 Index.d_userName := None; Index.d_tier := None |} in
  Index.registeredGroups
    (Index.completionState
       (@Index.processTaskIpc Fixture.settings Fixture.runtime (Some data)
          "family-chat" false 5000 "k3x9qa" st))
  = Fixture.groups.
Proof.
  intros st data.
  pose proof (@non_owner_commands_leave_registries Fixture.settings Fixture.runtime
                (Some data) "family-chat" false 5000 "k3x9qa" st) as H.
  destruct H as (Hg & _).
  - intros E. vm_compute in E. discriminate E.
  - exact Hg.
Defined.

(** The friends namespace asks to cancel the main group's task. *)
Lemma friend_commands_change_nothing_witness :
  let st := Fixture.hostWith "friends-chat" "c.json" true Index.IpcUnparsable in
  Index.db
    (Index.completionState
       (@Index.processTaskIpc Fixture.settings Fixture.runtime
          (Some (Fixture.taskCommand "cancel_task" "task-1"))
          "friends-chat" false 5000 "k3x9qa" st))
  = Index.db st.
Proof.
  intros st.
  pose proof (@friend_commands_change_nothing Fixture.settings Fixture.runtime
                (Some (Fixture.taskCommand "cancel_task" "task-1"))
                "friends-chat" false 5000 "k3x9qa" st) as H.
  destruct H as (Hdb & _).
  - vm_compute. reflexivity.
  - exact Hdb.
Defined.

(** The family namespace schedules a task for itself: the main group's
    task is still there, unchanged. *)
Lemma family_commands_stay_in_namespace_witness :
  let st := Fixture.hostWith "family-chat" "s.json" true Index.IpcUnparsable in
  Db.scheduled_tasks
    (Index.db
       (Index.completionState
          (@Index.processTaskIpc Fixture.settings Fixture.runtime
             (Some (Fixture.scheduleCommand "interval" "60000" "family-chat"))
             "family-chat" false 5000 "k3x9qa" st))) !! "task-1"
  = Some Fixture.mainTask.
Proof.
  intros st.
  pose proof (@family_commands_stay_in_namespace Fixture.settings Fixture.runtime
                (Some (Fixture.scheduleCommand "interval" "60000" "family-chat"))
                "family-chat" false 5000 "k3x9qa" st) as H.
  destruct H as (Hkeep & _).
  - vm_compute. reflexivity.
  - apply Hkeep.
    + vm_compute. reflexivity.
    + intros E. vm_compute in E. discriminate E.
Defined.

Example family_schedules_for_itself_only :
  let st := Fixture.hostWith "family-chat" "s.json" true Index.IpcUnparsable in
  let own := Index.completionState
       (@Index.processTaskIpc Fixture.settings Fixture.runtime
          (Some (Fixture.scheduleCommand "interval" "60000" "family-chat"))
          "family-chat" false 5000 "k3x9qa" st) in
  let other := Index.completionState
       (@Index.processTaskIpc Fixture.settings Fixture.runtime
          (Some (Fixture.scheduleCommand "interval" "60000" "main"))
          "family-chat" false 5000 "k3x9qa" st) in
  is_Some (Db.getTaskById "task-5000-k3x9qa" (Index.db own))
  /\ Index.db other = Index.db st
  /\ List.map Types.log_message (Index.logs other)
     = ["Unauthorized schedule_task attempt blocked"].
Proof. vm_compute. split; [eexists; reflexivity | split; reflexivity]. Qed.

(* --------------------------------------------------------------------- *)
(** ** Container runner: family mounts and the output cap *)
(* --------------------------------------------------------------------- *)

Section MoreOrchestrator.
Import Types.
Context `{Config.Settings} `{Config.Runtime} `{ContainerRunner.MountSecurity}.

Lemma vaultMount_target (host : ContainerRunner.HostView)
  (vault : option VaultSettings) (target : string) (m : ContainerRunner.VolumeMount) :
  In m (ContainerRunner.vaultMount host vault target) ->
  ContainerRunner.containerPath m = target /\ ContainerRunner.readonly m = false.
Proof.
  unfold ContainerRunner.vaultMount.
  destruct vault as [v|]; [|intros []].
  destruct (vs_enabled v && Js.strTruthy (vs_path v)); [|intros []].
  destruct (ContainerRunner.validateVaultMount host _); [|intros []].
  intros [<- | []]. split; reflexivity.
Qed.

(** At the family tier this function mounts neither the project root nor
    the private vault: such a mount can only be one the validator of
    additional mounts returned. *)
Theorem family_mounts_exclude_project_and_private_vault
  (host : ContainerRunner.HostView) (group : RegisteredGroup) (isMain : bool)
  (effectiveTier : option ContextTier) (m : ContainerRunner.VolumeMount) :
  ContainerRunner.resolveContextTier group isMain effectiveTier = ctxFamily ->
  In m (ContainerRunner.buildVolumeMounts host group isMain effectiveTier) ->
  ContainerRunner.containerPath m = "/workspace/project"
  \/ ContainerRunner.containerPath m = "/workspace/vaults/private" ->
  In m (ContainerRunner.additionalMounts group isMain).
Proof.
  intros Htier Hin Hpath. unfold ContainerRunner.buildVolumeMounts in Hin.
  rewrite Htier in Hin. simpl in Hin.
  rewrite !in_app_iff in Hin. simpl in Hin. rewrite !in_app_iff in Hin.
  destruct Hin as [[Hv | [<- | Hg]] | [<- | [<- | [He | Ha]]]];
    try (simpl in Hpath; destruct Hpath; discriminate).
  - apply vaultMount_target in Hv as [Hp _]. rewrite Hp in Hpath.
    destruct Hpath; discriminate.
  - apply globalMount_read_only in Hg as (Hp & _). rewrite Hp in Hpath.
    destruct Hpath; discriminate.
  - apply envMount_read_only in He as (Hp & _). rewrite Hp in Hpath.
    destruct Hpath; discriminate.
  - exact Ha.
Qed.

Lemma length_append (a b : string) :
  String.length (a ++ b) = (String.length a + String.length b)%nat.
Proof. induction a as [|c a IH]; simpl; [reflexivity | rewrite IH; reflexivity]. Qed.

Lemma length_take (n : nat) (s : string) :
  String.length (Js.take n s) = Nat.min n (String.length s).
Proof.
  revert s. induction n as [|n IH]; intros [|c s]; simpl; try reflexivity.
  rewrite IH. reflexivity.
Qed.

Lemma handle_keeps_cap (st : ContainerRunner.RunState)
  (ev : ContainerRunner.ChildEvent) :
  (String.length (ContainerRunner.stdout st) <= Config.CONTAINER_MAX_OUTPUT_SIZE)%nat
  /\ (String.length (ContainerRunner.stderr st) <= Config.CONTAINER_MAX_OUTPUT_SIZE)%nat ->
  (String.length (ContainerRunner.stdout (ContainerRunner.handle st ev))
   <= Config.CONTAINER_MAX_OUTPUT_SIZE)%nat
  /\ (String.length (ContainerRunner.stderr (ContainerRunner.handle st ev))
      <= Config.CONTAINER_MAX_OUTPUT_SIZE)%nat.
Proof.
  intros [Ho He]. destruct ev; simpl; repeat case_match; simpl;
    rewrite ?length_append, ?length_take;
    repeat match goal with
           | E : (_ <? _)%nat = true |- _ => apply Nat.ltb_lt in E
           | E : (_ <? _)%nat = false |- _ => apply Nat.ltb_ge in E
           end;
    split; lia.
Qed.

(** The text collected from each stream never exceeds the cap, whatever
    the child writes. *)
Theorem collected_output_is_capped (events : list ContainerRunner.ChildEvent) :
  (String.length (ContainerRunner.stdout (ContainerRunner.run events))
   <= Config.CONTAINER_MAX_OUTPUT_SIZE)%nat
  /\ (String.length (ContainerRunner.stderr (ContainerRunner.run events))
      <= Config.CONTAINER_MAX_OUTPUT_SIZE)%nat.
Proof.
  unfold ContainerRunner.run.
  assert (Hgen : forall evs st,
            (String.length (ContainerRunner.stdout st)
             <= Config.CONTAINER_MAX_OUTPUT_SIZE)%nat
            /\ (String.length (ContainerRunner.stderr st)
                <= Config.CONTAINER_MAX_OUTPUT_SIZE)%nat ->
            (String.length (ContainerRunner.stdout
                              (fold_left ContainerRunner.handle evs st))
             <= Config.CONTAINER_MAX_OUTPUT_SIZE)%nat
            /\ (String.length (ContainerRunner.stderr
                                 (fold_left ContainerRunner.handle evs st))
                <= Config.CONTAINER_MAX_OUTPUT_SIZE)%nat).
  { induction evs as [|ev evs IH]; intros st Hst; simpl; [exact Hst|].
    apply IH, handle_keeps_cap, Hst. }
  apply Hgen. simpl. split; lia.
Qed.

End MoreOrchestrator.

Lemma family_mounts_exclude_project_and_private_vault_witness :
  Forall (fun m => ContainerRunner.containerPath m <> "/workspace/project"
                   /\ ContainerRunner.containerPath m <> "/workspace/vaults/private")
    (@ContainerRunner.buildVolumeMounts Fixture.settings Fixture.runtime
       Fixture.mountSecurity Fixture.hostView Fixture.friendsGroup false
       (Some Types.ctxFamily)).
Proof.
  apply Forall_forall. intros m Hin. apply list_elem_of_In in Hin.
  split; intros Hp.
  - pose proof (@family_mounts_exclude_project_and_private_vault Fixture.settings
                  Fixture.runtime Fixture.mountSecurity Fixture.hostView
                  Fixture.friendsGroup false (Some Types.ctxFamily) m eq_refl Hin
                  (or_introl Hp)) as Ha.
    vm_compute in Ha. destruct Ha as [<- | []]. vm_compute in Hp. discriminate Hp.
  - pose proof (@family_mounts_exclude_project_and_private_vault Fixture.settings
                  Fixture.runtime Fixture.mountSecurity Fixture.hostView
                  Fixture.friendsGroup false (Some Types.ctxFamily) m eq_refl Hin
                  (or_intror Hp)) as Ha.
    vm_compute in Ha. destruct Ha as [<- | []]. vm_compute in Hp. discriminate Hp.
Defined.

Example output_truncated_at_cap :
  let st := @ContainerRunner.run Fixture.settings Fixture.runtime
              [ContainerRunner.StdoutData "0123456789012345678901234567890123456789";
               ContainerRunner.StdoutData "0123456789012345678901234567890123456789";
               ContainerRunner.StdoutData "late"] in
  String.length (ContainerRunner.stdout st) = 64%nat
  /\ ContainerRunner.stdoutTruncated st = true.
Proof. vm_compute. split; reflexivity. Qed.

(* --------------------------------------------------------------------- *)
(** ** User registry: edits and queries *)
(* --------------------------------------------------------------------- *)

Section RegistryEdits.
Import Types UserRegistry.

Lemma registry_normalizeJid_idempotent (jid : string) :
  normalizeJid (normalizeJid jid) = normalizeJid jid.
Proof. exact (normalizeJid_idempotent jid). Qed.

Lemma someMatches_app (n : string) (users more : list UserInfo) :
  someMatches n (users ++ more) = someMatches n users || someMatches n more.
Proof. unfold someMatches. apply existsb_app. Qed.

Lemma getUserTier_unfold (usersFile : Utils.JsonFile UserRegistry) (jid : string) :
  getUserTier usersFile jid
  = getUserTierFromRegistry (normalizeJid jid) (loadUserRegistry usersFile).
Proof. reflexivity. Qed.

(** The tier an identity has in a registry, by cases. *)
Lemma getUserTierFromRegistry_cases (n : string) (r : UserRegistry) :
  let isOwner := Js.strTruthy (ui_jid (reg_owner r))
                 && String.eqb (normalizeJid (ui_jid (reg_owner r))) n in
  getUserTierFromRegistry n r
  = if isOwner then owner
    else if someMatches n (reg_family r) then family
    else if someMatches n (reg_friends r) then friend
    else stranger.
Proof. reflexivity. Qed.

(** [addUser] adds exactly the identities that are strangers: it answers
    [true] and the identity then has the requested tier ([family] for
    'family', [friend] otherwise), or it answers [false] and leaves the file
    as it is. *)
Theorem addUser_outcome (usersFile : Utils.JsonFile UserRegistry)
  (jid name tier : string) (addedBy : option string) (addedAt : string) :
  let before := getUserTier usersFile jid in
  let result := addUser usersFile jid name tier addedBy addedAt in
  result.1 = bool_decide (before = stranger)
  /\ (before <> stranger -> result.2 = usersFile)
  /\ (before = stranger ->
      getUserTier result.2 jid
      = if String.eqb tier "family" then family else friend).
Proof.
  cbv zeta. unfold addUser. rewrite getUserTier_unfold.
  set (n := normalizeJid jid). set (r := loadUserRegistry usersFile).
  destruct (getUserTierFromRegistry n r) eqn:Et; cbn [negb bool_decide];
    try (rewrite bool_decide_eq_false_2 by discriminate; cbn;
         repeat split; try reflexivity; intros; congruence).
  rewrite bool_decide_eq_true_2 by reflexivity. cbn [negb fst snd].
  repeat split; [congruence|]. intros _.
  rewrite getUserTier_unfold. fold n. cbn [loadUserRegistry Utils.loadJson saveUserRegistry].
  rewrite getUserTierFromRegistry_cases in Et. cbv zeta in Et.
  destruct (Js.strTruthy (ui_jid (reg_owner r))
            && String.eqb (normalizeJid (ui_jid (reg_owner r))) n) eqn:Eo;
    [discriminate|].
  destruct (someMatches n (reg_family r)) eqn:Ef; [discriminate|].
  destruct (someMatches n (reg_friends r)) eqn:Efr; [discriminate|].
  assert (Hself : forall a b c, someMatches n
            [ {| ui_jid := n; ui_name := a; ui_addedAt := b; ui_addedBy := c |} ] = true).
  { intros. unfold someMatches. cbn. unfold n.
    rewrite registry_normalizeJid_idempotent, String.eqb_refl. reflexivity. }
  destruct (String.eqb tier "family");
    rewrite getUserTierFromRegistry_cases; cbv zeta; cbn [reg_owner reg_family reg_friends];
    rewrite Eo, ?someMatches_app, ?Ef, ?Efr, Hself; reflexivity.
Qed.


Lemma removeFirstMatch_None (n : string) (users : list UserInfo) :
  removeFirstMatch n users = None <-> someMatches n users = false.
Proof.
  induction users as [|u users IH]; simpl; [tauto|].
  destruct (String.eqb (normalizeJid (ui_jid u)) n); simpl.
  - split; discriminate.
  - destruct (removeFirstMatch n users); simpl.
    + split; [discriminate|]. intros E. apply IH in E. discriminate.
    + split; [|reflexivity]. intros _. apply IH. reflexivity.
Qed.

(** What [findIndex] and [splice] leave: the list without its first match. *)
Lemma removeFirstMatch_Some (n : string) (users users' : list UserInfo) :
  removeFirstMatch n users = Some users' ->
  exists pre u post,
    users = (pre ++ u :: post)%list /\ users' = (pre ++ post)%list
    /\ normalizeJid (ui_jid u) = n /\ someMatches n pre = false.
Proof.
  revert users'. induction users as [|u users IH]; simpl; [discriminate|].
  intros users'. destruct (String.eqb (normalizeJid (ui_jid u)) n) eqn:E.
  - intros [= <-]. exists [], u, users. apply String.eqb_eq in E. auto.
  - destruct (removeFirstMatch n users) as [rest|]; simpl; [|discriminate].
    intros [= <-]. destruct (IH rest eq_refl) as (pre & v & post & -> & -> & Hv & Hpre).
    exists (u :: pre), v, post. repeat split; auto.
    simpl. rewrite E. exact Hpre.
Qed.

Lemma someMatches_other (n other : string) (u : UserInfo) :
  normalizeJid (ui_jid u) = n -> other <> n -> someMatches other [u] = false.
Proof.
  intros Hu Hne. unfold someMatches. simpl. rewrite Hu.
  destruct (String.eqb n other) eqn:E; [|reflexivity].
  apply String.eqb_eq in E. congruence.
Qed.

Lemma removeFirstMatch_other (n other : string) (users users' : list UserInfo) :
  removeFirstMatch n users = Some users' -> other <> n ->
  someMatches other users' = someMatches other users.
Proof.
  intros H Hne.
  destruct (removeFirstMatch_Some _ _ _ H) as (pre & u & post & -> & -> & Hu & _).
  change (pre ++ u :: post)%list with (pre ++ ([u] ++ post))%list.
  rewrite !someMatches_app, (someMatches_other n other u Hu Hne). reflexivity.
Qed.

Lemma removeFirstMatch_appended (n : string) (users : list UserInfo) (u : UserInfo) :
  someMatches n users = false -> normalizeJid (ui_jid u) = n ->
  removeFirstMatch n (users ++ [u]) = Some users.
Proof.
  intros Hno Hu. induction users as [|v users IH]; simpl.
  - rewrite Hu, String.eqb_refl. reflexivity.
  - unfold someMatches in Hno. simpl in Hno. apply orb_false_iff in Hno as [Hv Hrest].
    rewrite Hv, (IH Hrest). reflexivity.
Qed.

(** Adding or removing one identity changes the tier of no other identity,
    identities being compared after normalisation. *)
Theorem registry_edits_are_local (usersFile : Utils.JsonFile UserRegistry)
  (jid name tier : string) (addedBy : option string) (addedAt other : string) :
  normalizeJid other <> normalizeJid jid ->
  getUserTier (addUser usersFile jid name tier addedBy addedAt).2 other
  = getUserTier usersFile other
  /\ (forall removed file',
        removeUser usersFile jid = Some (removed, file') ->
        getUserTier file' other = getUserTier usersFile other).
Proof.
  intros Hne. split.
  - unfold addUser.
    set (n := normalizeJid jid) in *. set (r := loadUserRegistry usersFile).
    destruct (negb (bool_decide (getUserTierFromRegistry n r = stranger)));
      [reflexivity|].
    cbn [snd]. rewrite !getUserTier_unfold. fold r.
    cbn [loadUserRegistry Utils.loadJson saveUserRegistry].
    set (u := {| ui_jid := n; ui_name := name; ui_addedAt := addedAt;
                 ui_addedBy := _ |}).
    assert (Hu : someMatches (normalizeJid other) [u] = false).
    { apply (someMatches_other n); [|exact Hne].
      unfold u, n. cbn. apply registry_normalizeJid_idempotent. }
    destruct (String.eqb tier "family");
      rewrite !getUserTierFromRegistry_cases; cbv zeta;
      cbn [reg_owner reg_family reg_friends];
      rewrite someMatches_app, Hu, orb_false_r; reflexivity.
  - intros removed file'. unfold removeUser.
    set (n := normalizeJid jid) in *. set (r := loadUserRegistry usersFile).
    destruct (Js.strTruthy (ui_jid (reg_owner r))
              && String.eqb (normalizeJid (ui_jid (reg_owner r))) n);
      [discriminate|].
    destruct (removeFirstMatch n (reg_family r)) as [family'|] eqn:Ef.
    + intros [= <- <-]. rewrite !getUserTier_unfold. fold r.
      cbn [loadUserRegistry Utils.loadJson saveUserRegistry].
      rewrite !getUserTierFromRegistry_cases. cbv zeta.
      cbn [reg_owner reg_family reg_friends].
      rewrite (removeFirstMatch_other _ _ _ _ Ef Hne). reflexivity.
    + destruct (removeFirstMatch n (reg_friends r)) as [friends'|] eqn:Efr.
      * intros [= <- <-]. rewrite !getUserTier_unfold. fold r.
        cbn [loadUserRegistry Utils.loadJson saveUserRegistry].
        rewrite !getUserTierFromRegistry_cases. cbv zeta.
        cbn [reg_owner reg_family reg_friends].
        rewrite (removeFirstMatch_other _ _ _ _ Efr Hne). reflexivity.
      * intros [= <- <-]. reflexivity.
Qed.

(** [removeUser] throws for the owner, answers [false] for a stranger and
    leaves the file, and for a family member or friend answers [true] after
    taking one entry out of the two lists, the owner entry staying as it
    is. *)
Theorem removeUser_outcome (usersFile : Utils.JsonFile UserRegistry) (jid : string) :
  let registry := loadUserRegistry usersFile in
  match getUserTier usersFile jid with
  | owner => removeUser usersFile jid = None
  | stranger => removeUser usersFile jid = Some (false, usersFile)
  | _ =>
      exists file',
        removeUser usersFile jid = Some (true, file')
        /\ reg_owner (loadUserRegistry file') = reg_owner registry
        /\ (List.length (reg_family (loadUserRegistry file'))
            + List.length (reg_friends (loadUserRegistry file')) + 1
            = List.length (reg_family registry)
              + List.length (reg_friends registry))%nat
  end.
Proof.
  cbv zeta. rewrite getUserTier_unfold. unfold removeUser.
  set (n := normalizeJid jid). set (r := loadUserRegistry usersFile).
  rewrite getUserTierFromRegistry_cases. cbv zeta.
  destruct (Js.strTruthy (ui_jid (reg_owner r))
            && String.eqb (normalizeJid (ui_jid (reg_owner r))) n); [reflexivity|].
  destruct (someMatches n (reg_family r)) eqn:Ef.
  - destruct (removeFirstMatch n (reg_family r)) as [family'|] eqn:Er.
    + eexists. split; [reflexivity|]. cbn. split; [reflexivity|].
      destruct (removeFirstMatch_Some _ _ _ Er) as (pre & u & post & -> & -> & _).
      rewrite !length_app. cbn. lia.
    + apply removeFirstMatch_None in Er. congruence.
  - assert (Er : removeFirstMatch n (reg_family r) = None)
      by (apply removeFirstMatch_None; exact Ef).
    rewrite Er.
    destruct (someMatches n (reg_friends r)) eqn:Efr.
    + destruct (removeFirstMatch n (reg_friends r)) as [friends'|] eqn:Er2.
      * eexists. split; [reflexivity|]. cbn. split; [reflexivity|].
        destruct (removeFirstMatch_Some _ _ _ Er2) as (pre & u & post & -> & -> & _).
        rewrite !length_app. cbn. lia.
      * apply removeFirstMatch_None in Er2. congruence.
    + assert (Er2 : removeFirstMatch n (reg_friends r) = None)
        by (apply removeFirstMatch_None; exact Efr).
      rewrite Er2. reflexivity.
Qed.

(** Removing an identity that was just added to a registry in which it
    was a stranger gives the registry back. *)
Theorem addUser_then_removeUser (usersFile : Utils.JsonFile UserRegistry)
  (jid name tier : string) (addedBy : option string) (addedAt : string) :
  getUserTier usersFile jid = stranger ->
  exists file'',
    removeUser (addUser usersFile jid name tier addedBy addedAt).2 jid
    = Some (true, file'')
    /\ loadUserRegistry file'' = loadUserRegistry usersFile
    /\ getUserTier file'' jid = stranger.
Proof.
  intros Hs. pose proof Hs as Hs'. rewrite getUserTier_unfold in Hs.
  unfold addUser. set (n := normalizeJid jid) in *.
  set (r := loadUserRegistry usersFile) in *.
  rewrite Hs. rewrite bool_decide_eq_true_2 by reflexivity. cbn [negb snd].
  rewrite getUserTierFromRegistry_cases in Hs. cbv zeta in Hs.
  destruct (Js.strTruthy (ui_jid (reg_owner r))
            && String.eqb (normalizeJid (ui_jid (reg_owner r))) n) eqn:Eo;
    [discriminate|].
  destruct (someMatches n (reg_family r)) eqn:Ef; [discriminate|].
  destruct (someMatches n (reg_friends r)) eqn:Efr; [discriminate|].
  set (u := {| ui_jid := n; ui_name := name; ui_addedAt := addedAt;
               ui_addedBy := _ |}).
  assert (Hu : normalizeJid (ui_jid u) = n)
    by (unfold u, n; cbn; apply registry_normalizeJid_idempotent).
  assert (Hr : {| reg_owner := reg_owner r; reg_family := reg_family r;
                  reg_friends := reg_friends r |} = r) by (destruct r; reflexivity).
  unfold removeUser. fold n.
  destruct (String.eqb tier "family");
    cbn [loadUserRegistry Utils.loadJson saveUserRegistry reg_owner reg_family reg_friends];
    rewrite Eo.
  - rewrite (removeFirstMatch_appended n (reg_family r) u Ef Hu).
    eexists. split; [reflexivity|]. cbn [loadUserRegistry Utils.loadJson saveUserRegistry].
    split; [exact Hr|]. rewrite getUserTier_unfold.
    cbn [loadUserRegistry Utils.loadJson saveUserRegistry]. rewrite Hr.
    exact Hs'.
  - assert (Er : removeFirstMatch n (reg_family r) = None)
      by (apply removeFirstMatch_None; exact Ef).
    rewrite Er, (removeFirstMatch_appended n (reg_friends r) u Efr Hu).
    eexists. split; [reflexivity|]. cbn [loadUserRegistry Utils.loadJson saveUserRegistry].
    split; [exact Hr|]. rewrite getUserTier_unfold.
    cbn [loadUserRegistry Utils.loadJson saveUserRegistry]. rewrite Hr.
    exact Hs'.
Qed.


(** [initializeOwner] throws when the registry names an owner; otherwise
    it writes the normalised identity as owner and keeps the two lists.
    Afterwards that identity has the owner tier, cannot be removed, and a
    second initialisation throws, unless the identity normalises to the
    empty string: then the registry still has no owner and can be
    initialised again. *)
Theorem initializeOwner_outcome (usersFile : Utils.JsonFile UserRegistry)
  (jid name addedAt : string) :
  let registry := loadUserRegistry usersFile in
  if Js.strTruthy (ui_jid (reg_owner registry))
  then initializeOwner usersFile jid name addedAt = None
  else
    exists file',
      initializeOwner usersFile jid name addedAt = Some file'
      /\ reg_family (loadUserRegistry file') = reg_family registry
      /\ reg_friends (loadUserRegistry file') = reg_friends registry
      /\ (normalizeJid jid <> EmptyString ->
          getUserTier file' jid = owner
          /\ removeUser file' jid = None
          /\ forall jid' name' addedAt',
               initializeOwner file' jid' name' addedAt' = None)
      /\ (normalizeJid jid = EmptyString ->
          (forall other, getUserTier file' other <> owner)
          /\ forall jid' name' addedAt',
               initializeOwner file' jid' name' addedAt' <> None).
Proof.
  cbv zeta. unfold initializeOwner.
  set (r := loadUserRegistry usersFile).
  destruct (Js.strTruthy (ui_jid (reg_owner r))) eqn:Eo; [reflexivity|].
  eexists. split; [reflexivity|].
  cbn [loadUserRegistry Utils.loadJson saveUserRegistry reg_family reg_friends reg_owner ui_jid].
  split; [reflexivity|]. split; [reflexivity|].
  set (n := normalizeJid jid). split.
  - intros Hn. assert (Ht : Js.strTruthy n = true) by (destruct n; [congruence|reflexivity]).
    assert (Hnn : normalizeJid n = n) by apply registry_normalizeJid_idempotent.
    rewrite Ht. repeat split; auto.
    + rewrite getUserTier_unfold, getUserTierFromRegistry_cases. cbv zeta.
      cbn [loadUserRegistry Utils.loadJson saveUserRegistry reg_owner ui_jid].
      fold n. rewrite Hnn, Ht, String.eqb_refl. reflexivity.
    + unfold removeUser.
      cbn [loadUserRegistry Utils.loadJson saveUserRegistry reg_owner ui_jid].
      fold n. rewrite Hnn, Ht, String.eqb_refl. reflexivity.
  - intros Hn. rewrite Hn. cbn [Js.strTruthy]. split; [|discriminate].
    intros other. rewrite getUserTier_unfold, getUserTierFromRegistry_cases. cbv zeta.
    cbn [loadUserRegistry Utils.loadJson saveUserRegistry reg_owner ui_jid Js.strTruthy andb].
    repeat case_match; discriminate.
Qed.

Lemma findMatch_None (n : string) (users : list UserInfo) :
  findMatch n users = None <-> someMatches n users = false.
Proof.
  unfold findMatch, someMatches.
  induction users as [|u users IH]; simpl; [tauto|].
  destruct (String.eqb (normalizeJid (ui_jid u)) n); simpl; [|exact IH].
  split; discriminate.
Qed.

Lemma findMatch_Some (n : string) (users : list UserInfo) (u : UserInfo) :
  findMatch n users = Some u -> In u users /\ normalizeJid (ui_jid u) = n.
Proof.
  unfold findMatch. intros H. apply find_some in H as [Hin E].
  apply String.eqb_eq in E. auto.
Qed.

(** [getUserInfo] answers [null] exactly for strangers; an entry it
    returns carries the identity asked for, after normalisation, and is
    listed by [getUsersByTier] under the tier that [getUserTier] gives. *)
Theorem getUserInfo_matches_tier (usersFile : Utils.JsonFile UserRegistry)
  (jid : string) :
  (getUserInfo usersFile jid = None <-> getUserTier usersFile jid = stranger)
  /\ forall user,
       getUserInfo usersFile jid = Some user ->
       normalizeJid (ui_jid user) = normalizeJid jid
       /\ In user (getUsersByTier usersFile
                     match getUserTier usersFile jid with
                     | owner => ctxOwner
                     | family => ctxFamily
                     | _ => ctxFriend
                     end).
Proof.
  rewrite getUserTier_unfold. unfold getUserInfo, getUsersByTier.
  set (n := normalizeJid jid). set (r := loadUserRegistry usersFile).
  rewrite getUserTierFromRegistry_cases. cbv zeta.
  destruct (Js.strTruthy (ui_jid (reg_owner r))) eqn:Et; cbn [andb].
  - destruct (String.eqb (normalizeJid (ui_jid (reg_owner r))) n) eqn:Eo.
    + split; [split; discriminate|]. intros user [= <-].
      apply String.eqb_eq in Eo. split; [exact Eo|]. left. reflexivity.
    + destruct (findMatch n (reg_family r)) as [fu|] eqn:Ef.
      * destruct (findMatch_Some _ _ _ Ef) as [Hin Hn].
        assert (Hs : someMatches n (reg_family r) = true).
        { destruct (someMatches n (reg_family r)) eqn:E; [reflexivity|].
          apply findMatch_None in E. congruence. }
        rewrite Hs. split; [split; discriminate|]. intros user [= <-]. auto.
      * pose proof (proj1 (findMatch_None _ _) Ef) as Hs. rewrite Hs.
        destruct (findMatch n (reg_friends r)) as [fu|] eqn:Efr.
        -- destruct (findMatch_Some _ _ _ Efr) as [Hin Hn].
           assert (Hs2 : someMatches n (reg_friends r) = true).
           { destruct (someMatches n (reg_friends r)) eqn:E; [reflexivity|].
             apply findMatch_None in E. congruence. }
           rewrite Hs2. split; [split; discriminate|]. intros user [= <-]. auto.
        -- pose proof (proj1 (findMatch_None _ _) Efr) as Hs2. rewrite Hs2.
           split; [tauto|]. discriminate.
  - destruct (findMatch n (reg_family r)) as [fu|] eqn:Ef.
    + destruct (findMatch_Some _ _ _ Ef) as [Hin Hn].
      assert (Hs : someMatches n (reg_family r) = true).
      { destruct (someMatches n (reg_family r)) eqn:E; [reflexivity|].
        apply findMatch_None in E. congruence. }
      rewrite Hs. split; [split; discriminate|]. intros user [= <-]. auto.
    + pose proof (proj1 (findMatch_None _ _) Ef) as Hs. rewrite Hs.
      destruct (findMatch n (reg_friends r)) as [fu|] eqn:Efr.
      * destruct (findMatch_Some _ _ _ Efr) as [Hin Hn].
        assert (Hs2 : someMatches n (reg_friends r) = true).
        { destruct (someMatches n (reg_friends r)) eqn:E; [reflexivity|].
          apply findMatch_None in E. congruence. }
        rewrite Hs2. split; [split; discriminate|]. intros user [= <-]. auto.
      * pose proof (proj1 (findMatch_None _ _) Efr) as Hs2. rewrite Hs2.
        split; [tauto|]. discriminate.
Qed.

End RegistryEdits.

Section DeviceSuffix.
Import Types.

Lemma string_app_assoc (a b c : string) : (a ++ b) ++ c = a ++ (b ++ c).
Proof.
  induction a as [|x a IH]; [reflexivity|].
  change (String x ((a ++ b) ++ c) = String x (a ++ (b ++ c))).
  f_equal. exact IH.
Qed.

Lemma hasChar_app (c : ascii) (a b : string) :
  Js.hasChar c (a ++ b) = Js.hasChar c a || Js.hasChar c b.
Proof.
  induction a as [|x a IH]; [reflexivity|].
  change (Ascii.eqb x c || Js.hasChar c (a ++ b)
          = Ascii.eqb x c || Js.hasChar c a || Js.hasChar c b).
  rewrite IH, orb_assoc. reflexivity.
Qed.

Lemma split_head_append_sep (sep : ascii) (a b : string) :
  Js.hasChar sep a = false ->
  hd EmptyString (Js.split sep (a ++ String sep b)) = a.
Proof. intros H. rewrite (split_append_sep sep a b H). reflexivity. Qed.

Lemma normalizeJid_device_suffix_general (l dev d : string) :
  Js.hasChar "@" l = false -> Js.hasChar ":" l = false ->
  Js.hasChar "@" dev = false ->
  Utils.normalizeJid (l ++ ":" ++ dev ++ "@" ++ d) = Utils.normalizeJid (l ++ "@" ++ d).
Proof.
  intros Hl Hlc Hdev.
  unfold Utils.normalizeJid, Js.splitLimit.
  assert (E1 : l ++ ":" ++ dev ++ "@" ++ d = (l ++ ":" ++ dev) ++ String "@" d).
  { rewrite string_app_assoc. reflexivity. }
  rewrite E1.
  assert (Hld : Js.hasChar "@" (l ++ ":" ++ dev) = false).
  { rewrite hasChar_app, Hl. cbn. exact Hdev. }
  rewrite (split_append_sep "@" _ d Hld).
  change (l ++ "@" ++ d) with (l ++ String "@" d).
  rewrite (split_append_sep "@" l d Hl).
  pose proof (split_not_nil "@" d) as Hne.
  destruct (Js.split "@" d) as [|d1 rest]; [congruence|].
  cbn [firstn nth nth_error].
  change (l ++ ":" ++ dev) with (l ++ String ":" dev).
  rewrite (split_head_append_sep ":" l dev Hlc).
  rewrite (split_without_sep ":" l Hlc). reflexivity.
Qed.

(** An identity with a device suffix, [local:device@domain], normalises to
    the same text as [local@domain], has the same tier and the same
    permission to invoke the agent. *)
Theorem device_suffix_is_ignored (usersFile : Utils.JsonFile UserRegistry)
  (l dev d : string) (isGroupChat : bool) :
  Js.hasChar "@" l = false -> Js.hasChar ":" l = false ->
  Js.hasChar "@" dev = false ->
  let withDevice := l ++ ":" ++ dev ++ "@" ++ d in
  let plain := l ++ "@" ++ d in
  Utils.normalizeJid withDevice = Utils.normalizeJid plain
  /\ UserRegistry.getUserTier usersFile withDevice
     = UserRegistry.getUserTier usersFile plain
  /\ (Authorization.canInvoke usersFile withDevice isGroupChat).1
     = (Authorization.canInvoke usersFile plain isGroupChat).1.
Proof.
  intros Hl Hlc Hdev. cbv zeta.
  pose proof (normalizeJid_device_suffix_general l dev d Hl Hlc Hdev) as E.
  split; [exact E|]. split.
  - unfold UserRegistry.getUserTier.
    change UserRegistry.normalizeJid with Utils.normalizeJid. rewrite E. reflexivity.
  - unfold Authorization.canInvoke.
    change Authorization.normalizeJid with Utils.normalizeJid. rewrite E. reflexivity.
Qed.

End DeviceSuffix.

(* --------------------------------------------------------------------- *)
(** ** Stranger detection and the participant table *)
(* --------------------------------------------------------------------- *)

Section FreshClassification.
Import Types.

Lemma existsb_stranger_normalized (usersFile : Utils.JsonFile UserRegistry)
  (ps : list string) :
  existsb (fun p => bool_decide (UserRegistry.getUserTier usersFile p = stranger))
          (map Authorization.normalizeJid ps)
  = existsb (fun p => bool_decide (UserRegistry.getUserTier usersFile p = stranger)) ps.
Proof.
  induction ps as [|p ps IH]; simpl; [reflexivity|].
  change (Authorization.normalizeJid p) with (Utils.normalizeJid p).
  rewrite getUserTier_normalized, IH. reflexivity.
Qed.

Lemma existsb_stranger_iff (usersFile : Utils.JsonFile UserRegistry) (ps : list string) :
  existsb (fun p => bool_decide (UserRegistry.getUserTier usersFile p = stranger)) ps = true
  <-> exists jid, In jid ps /\ UserRegistry.getUserTier usersFile jid = stranger.
Proof.
  rewrite existsb_exists. split; intros (jid & Hin & Ht); exists jid; split; auto.
  - apply bool_decide_eq_true_1 in Ht. exact Ht.
  - apply bool_decide_eq_true_2. exact Ht.
Qed.

(** What a call that classifies returns. *)
Lemma hasStrangers_fresh_result (usersFile : Utils.JsonFile UserRegistry)
  (strangerCache : gmap string Authorization.StrangerCacheEntry) (now : Z)
  (groupJid : string) (participants : list string) :
  Authorization.hs_result
    (Authorization.hasStrangers usersFile strangerCache now groupJid participants true)
  = existsb (fun p => bool_decide (UserRegistry.getUserTier usersFile p = stranger))
            participants.
Proof.
  destruct (hasStrangers_forced_is_fresh usersFile strangerCache now groupJid
              participants) as (_ & Hr & _).
  cbv zeta in Hr. rewrite Hr. apply existsb_stranger_normalized.
Qed.

(** When [hasStrangers] classifies (a forced refresh, or no cache entry
    younger than five minutes), its answer is [true] exactly when some
    participant has the tier [stranger], which is what
    [getParticipantTiers] reports participant by participant; the cache
    then holds that answer with the time of the call and the normalised
    participants. *)
Theorem fresh_hasStrangers_agrees_with_participant_tiers
  (usersFile : Utils.JsonFile UserRegistry)
  (strangerCache : gmap string Authorization.StrangerCacheEntry) (now : Z)
  (groupJid : string) (participants : list string) (forceRefresh : bool) :
  (forceRefresh = false ->
   forall cached,
     strangerCache !! Authorization.normalizeJid groupJid = Some cached ->
     300000 <= now - Authorization.sce_lastChecked cached) ->
  let run := Authorization.hasStrangers usersFile strangerCache now groupJid
               participants forceRefresh in
  let tiers := Authorization.getParticipantTiers usersFile participants in
  (Authorization.hs_result run = true
   <-> exists jid, In jid participants
                   /\ UserRegistry.getUserTier usersFile jid = stranger)
  /\ (Authorization.hs_result run = true
      <-> exists p, In p tiers /\ gp_tier p = stranger)
  /\ map gp_jid tiers = map Authorization.normalizeJid participants
  /\ Authorization.hs_cache run !! Authorization.normalizeJid groupJid
     = Some {| Authorization.sce_hasStrangers := Authorization.hs_result run;
               Authorization.sce_lastChecked := now;
               Authorization.sce_participants :=
                 map Authorization.normalizeJid participants |}.
Proof.
  intros Hold run tiers.
  assert (Erun : run = Authorization.hasStrangers usersFile strangerCache now
                         groupJid participants true).
  { subst run. destruct forceRefresh; [reflexivity|].
    apply hasStrangers_miss_is_fresh. apply Hold. reflexivity. }
  rewrite Erun.
  destruct (hasStrangers_forced_is_fresh usersFile strangerCache now groupJid
              participants) as (_ & _ & Hc).
  cbv zeta in Hc.
  split; [|split; [|split; [|exact Hc]]]; rewrite ?hasStrangers_fresh_result.
  - apply existsb_stranger_iff.
  - rewrite existsb_stranger_iff. subst tiers.
    unfold Authorization.getParticipantTiers. split.
    + intros (jid & Hin & Ht). eexists. split.
      * apply in_map_iff. exists jid. split; [reflexivity|exact Hin].
      * cbn. change (Authorization.normalizeJid jid) with (Utils.normalizeJid jid).
        rewrite getUserTier_normalized. exact Ht.
    + intros (p & Hin & Ht). apply in_map_iff in Hin as (jid & <- & Hin).
      exists jid. split; [exact Hin|]. cbn in Ht.
      change (Authorization.normalizeJid jid) with (Utils.normalizeJid jid) in Ht.
      rewrite getUserTier_normalized in Ht. exact Ht.
  - subst tiers. unfold Authorization.getParticipantTiers.
    rewrite map_map. reflexivity.
Qed.

(** After [clearStrangerCache], the next [hasStrangers] for a group that
    was cleared (every group, when none is named) classifies afresh; naming
    a group leaves the entries of the other groups. *)
Theorem clearStrangerCache_scope (usersFile : Utils.JsonFile UserRegistry)
  (strangerCache : gmap string Authorization.StrangerCacheEntry) (now : Z)
  (target : option string) (groupJid : string) (participants : list string) :
  let cleared := Authorization.clearStrangerCache strangerCache target in
  ((Js.truthy target = false
    \/ Authorization.normalizeJid (default EmptyString target)
       = Authorization.normalizeJid groupJid) ->
   Authorization.hs_fromCache
     (Authorization.hasStrangers usersFile cleared now groupJid participants false)
   = false
   /\ Authorization.hs_result
        (Authorization.hasStrangers usersFile cleared now groupJid participants false)
      = existsb (fun p => bool_decide (UserRegistry.getUserTier usersFile p = stranger))
                participants)
  /\ (Js.truthy target = true ->
      Authorization.normalizeJid (default EmptyString target)
      <> Authorization.normalizeJid groupJid ->
      cleared !! Authorization.normalizeJid groupJid
      = strangerCache !! Authorization.normalizeJid groupJid).
Proof.
  cbv zeta. unfold Authorization.clearStrangerCache. split.
  - intros Hcase.
    assert (Hnone : (if Js.truthy target
                     then delete (Authorization.normalizeJid (default EmptyString target))
                                 strangerCache
                     else ∅) !! Authorization.normalizeJid groupJid = None).
    { destruct Hcase as [Hf | He].
      - rewrite Hf. apply lookup_empty.
      - destruct (Js.truthy target); [|apply lookup_empty].
        rewrite He. apply lookup_delete_eq. }
    rewrite hasStrangers_miss_is_fresh
      by (intros cached Hc; rewrite Hnone in Hc; discriminate).
    destruct (hasStrangers_forced_is_fresh usersFile
                (if Js.truthy target
                 then delete (Authorization.normalizeJid (default EmptyString target))
                             strangerCache
                 else ∅) now groupJid participants) as (Hf & _).
    split; [exact Hf|]. apply hasStrangers_fresh_result.
  - intros Ht Hne. rewrite Ht. apply lookup_delete_ne. exact Hne.
Qed.

End FreshClassification.

Section StrangerDetectionFacts.
Import Types StrangerDetection.

Lemma strangersAmong_nil_iff (usersFile : Utils.JsonFile UserRegistry)
  (participants : list string) :
  existsb (fun p => bool_decide (UserRegistry.getUserTier usersFile p = stranger))
          participants = false
  -> strangersAmong usersFile participants = [].
Proof.
  unfold strangersAmong. induction participants as [|p ps IH]; simpl; [reflexivity|].
  intros H. apply orb_false_iff in H as [Hp Hps]. rewrite Hp. auto.
Qed.

(** [detectStrangersInGroup] lists the participants whose tier is
    [stranger], and wraps the failure of the metadata call. *)
Lemma detectStrangersInGroup_lists_every_stranger
  (usersFile : Utils.JsonFile UserRegistry)
  (strangerCache : gmap string Authorization.StrangerCacheEntry) (now : Z)
  (metadata : string + list string) (groupJid : string) :
  match metadata with
  | inr participants =>
      (detectStrangersInGroup usersFile strangerCache now metadata groupJid).1
      = inr (List.filter
               (fun jid =>
                  bool_decide (UserRegistry.getUserTier usersFile jid = stranger))
               participants)
  | inl message =>
      detectStrangersInGroup usersFile strangerCache now metadata groupJid
      = (inl ("Failed to fetch group metadata: " ++ message), strangerCache)
  end.
Proof.
  destruct metadata as [message|participants]; [reflexivity|].
  unfold detectStrangersInGroup. rewrite hasStrangers_fresh_result.
  destruct (existsb _ participants) eqn:E; cbn [negb fst]; [reflexivity|].
  f_equal. symmetry. apply (strangersAmong_nil_iff usersFile participants E).
Qed.

(** [shouldIgnoreThread] ignores a thread exactly when it reports
    strangers, and then lists the participants whose tier is [stranger];
    when the answer is not taken from the cache, the thread is ignored
    exactly when there is such a participant. *)
Theorem shouldIgnoreThread_decision (usersFile : Utils.JsonFile UserRegistry)
  (strangerCache : gmap string Authorization.StrangerCacheEntry) (now : Z)
  (groupJid : string) (participants : list string) :
  let decision :=
    (shouldIgnoreThread usersFile strangerCache now groupJid participants).1 in
  let listed :=
    List.filter
      (fun jid => bool_decide (UserRegistry.getUserTier usersFile jid = stranger))
      participants in
  shouldIgnore decision = hasStrangersFlag decision
  /\ strangers decision = (if shouldIgnore decision then listed else [])
  /\ ((forall cached,
         strangerCache !! Authorization.normalizeJid groupJid = Some cached ->
         300000 <= now - Authorization.sce_lastChecked cached) ->
      strangers decision = listed
      /\ (shouldIgnore decision = true
          <-> exists jid, In jid participants
                          /\ UserRegistry.getUserTier usersFile jid = stranger)).
Proof.
  cbv zeta. unfold shouldIgnoreThread.
  destruct (Authorization.hs_result
              (Authorization.hasStrangers usersFile strangerCache now groupJid
                 participants false)) eqn:E; cbn [negb fst shouldIgnore hasStrangersFlag strangers].
  - split; [reflexivity|]. split; [reflexivity|]. intros Hold.
    split; [reflexivity|]. split; [|reflexivity]. intros _.
    rewrite (hasStrangers_miss_is_fresh _ _ _ _ _ Hold), hasStrangers_fresh_result in E.
    apply existsb_stranger_iff. exact E.
  - split; [reflexivity|]. split; [reflexivity|]. intros Hold.
    rewrite (hasStrangers_miss_is_fresh _ _ _ _ _ Hold), hasStrangers_fresh_result in E.
    split.
    + symmetry. apply (strangersAmong_nil_iff usersFile participants E).
    + split; [discriminate|]. intros H. apply existsb_stranger_iff in H. congruence.
Qed.

End StrangerDetectionFacts.

Section ParticipantTable.
Import Db.

Lemma existsb_eqb_In (x : string) (l : list string) :
  existsb (String.eqb x) l = true <-> In x l.
Proof.
  rewrite existsb_exists. split.
  - intros (y & Hy & E). apply String.eqb_eq in E. subst. exact Hy.
  - intros H. exists x. split; [exact H | apply String.eqb_refl].
Qed.

Lemma fold_dedup (items seen : list string) :
  List.NoDup seen ->
  List.NoDup (fold_left Js.setAdd items seen)
  /\ forall x, In x (fold_left Js.setAdd items seen) <-> In x seen \/ In x items.
Proof.
  revert seen. induction items as [|y items IH]; intros seen Hnd; simpl.
  - split; [exact Hnd|]. intros x. tauto.
  - assert (Hnd' : List.NoDup (Js.setAdd seen y)).
    { unfold Js.setAdd. destruct (existsb (String.eqb y) seen) eqn:E; [exact Hnd|].
      apply List.NoDup_app; auto.
      - constructor; [simpl; tauto | constructor].
      - intros x Hx [<-|[]].
        apply existsb_eqb_In in Hx. congruence. }
    destruct (IH _ Hnd') as [H1 H2]. split; [exact H1|].
    intros x. rewrite H2. unfold Js.setAdd.
    destruct (existsb (String.eqb y) seen) eqn:E.
    + apply existsb_eqb_In in E. split; [tauto|]. intros [H|[<-|H]]; auto.
    + rewrite in_app_iff. simpl. tauto.
Qed.

Lemma arrayFromSet_spec (items : list string) :
  List.NoDup (Js.arrayFromSet items)
  /\ forall x, In x (Js.arrayFromSet items) <-> In x items.
Proof.
  destruct (fold_dedup items [] (List.NoDup_nil _)) as [H1 H2].
  split; [exact H1|]. intros x. specialize (H2 x). simpl in H2.
  change (Js.arrayFromSet items) with (fold_left Js.setAdd items []). tauto.
Qed.

Lemma upsertActive_active (groupJid : string) (now : Z) (t : gmap (string * string) ParticipantRow)
  (p g x : string) :
  activeAt (upsertActive groupJid now t p) g x
  <-> (g = groupJid /\ x = p) \/ activeAt t g x.
Proof.
  unfold activeAt, upsertActive.
  destruct (decide ((groupJid, p) = (g, x))) as [[= <- <-]|N].
  - split; [intros _; left; auto|]. intros _.
    destruct (t !! (groupJid, p)) as [row|]; eexists;
      (split; [apply lookup_insert_eq | reflexivity]).
  - split.
    + intros (row & Hrow & Hact). right. exists row. split; [|exact Hact].
      revert Hrow.
      destruct (t !! (groupJid, p)); rewrite lookup_insert_ne by exact N; auto.
    + intros [[-> ->]|(row & Hrow & Hact)]; [congruence|].
      exists row. split; [|exact Hact].
      destruct (t !! (groupJid, p)); rewrite lookup_insert_ne by exact N; exact Hrow.
Qed.

Lemma fold_activate_active (groupJid : string) (now : Z) (ps : list string)
  (t : gmap (string * string) ParticipantRow) (g x : string) :
  activeAt (fold_left (upsertActive groupJid now) ps t) g x
  <-> (g = groupJid /\ In x ps) \/ activeAt t g x.
Proof.
  revert t. induction ps as [|p ps IH]; intros t; simpl.
  - tauto.
  - rewrite IH, upsertActive_active. split.
    + intros [[-> H]|[[-> ->]|H]]; auto.
    + intros [[-> [<-|H]]|H]; auto.
Qed.

Lemma updateGroupParticipants_active (groupJid : string) (ps : list string)
  (now : Z) (table : gmap (string * string) ParticipantRow) (g x : string) :
  activeAt (updateGroupParticipants groupJid ps now table) g x
  <-> (g = groupJid /\ In x ps) \/ (g <> groupJid /\ activeAt table g x).
Proof.
  unfold updateGroupParticipants.
  rewrite fold_activate_active. unfold activeAt at 1.
  rewrite map_lookup_imap. cbn [fst].
  destruct (table !! (g, x)) as [row|] eqn:Et; cbn.
  - destruct (String.eqb g groupJid) eqn:Eg.
    + apply String.eqb_eq in Eg. subst. split.
      * intros [H|(row' & [= <-] & Hact)]; [left; exact H | discriminate].
      * intros [H|[Hne _]]; [left; exact H | congruence].
    + apply String.eqb_neq in Eg. split.
      * intros [H|(row' & [= <-] & Hact)]; [left; exact H|].
        right. split; [exact Eg|]. exists row. rewrite Et. auto.
      * intros [H|[_ (row' & Hrow & Hact)]]; [left; exact H|].
        right. exists row'. rewrite Et in Hrow. auto.
  - split.
    + intros [H|(row' & Hrow & _)]; [left; exact H | discriminate].
    + intros [H|[_ (row' & Hrow & _)]]; [left; exact H|].
      rewrite Et in Hrow. discriminate.
Qed.

Lemma getGroupParticipants_In (g x : string) (table : gmap (string * string) ParticipantRow) :
  In x (getGroupParticipants g table) <-> activeAt table g x.
Proof.
  unfold getGroupParticipants, activeAt. rewrite in_map_iff. split.
  - intros ([[g' x'] row] & <- & Hin). apply filter_In in Hin as [Hin Hf].
    cbn in Hf. apply andb_true_iff in Hf as [Hg Hact].
    apply String.eqb_eq in Hg. subst g'.
    apply list_elem_of_In, elem_of_map_to_list in Hin.
    exists row. auto.
  - intros (row & Hrow & Hact). exists ((g, x), row). split; [reflexivity|].
    apply filter_In. split.
    + apply list_elem_of_In, elem_of_map_to_list. exact Hrow.
    + cbn. rewrite String.eqb_refl, Hact. reflexivity.
Qed.

Lemma getGroupParticipants_NoDup (g : string) (table : gmap (string * string) ParticipantRow) :
  List.NoDup (getGroupParticipants g table).
Proof.
  unfold getGroupParticipants.
  pose proof (NoDup_fst_map_to_list table) as Hnd.
  apply NoDup_ListNoDup in Hnd.
  induction (map_to_list table) as [|[[g' x'] row] l IH]; simpl; [constructor|].
  cbn in Hnd. apply List.NoDup_cons_iff in Hnd as [Hnotin Hnd].
  destruct (String.eqb g' g && is_active row) eqn:E; [|apply IH; exact Hnd].
  simpl. constructor; [|apply IH; exact Hnd].
  apply andb_true_iff in E as [Eg _]. apply String.eqb_eq in Eg. subst g'.
  intros Hin. apply in_map_iff in Hin as ([[g2 x2] row2] & Hx & Hin2).
  cbn in Hx. subst x2. apply filter_In in Hin2 as [Hin2 Hf].
  cbn in Hf. apply andb_true_iff in Hf as [Eg2 _]. apply String.eqb_eq in Eg2. subst g2.
  apply Hnotin. apply in_map_iff. exists ((g, x'), row2). auto.
Qed.

(** After [syncGroupParticipants] the active participants recorded for
    the group are the normalised identities of its current members, each
    once, and the participants recorded for other groups are as before. *)
Theorem syncGroupParticipants_records_current_members
  (participants : list string) (groupJid : string) (now : Z)
  (table : gmap (string * string) ParticipantRow) :
  exists table',
    StrangerDetection.syncGroupParticipants (inr participants) groupJid now table
    = inr table'
    /\ (forall jid,
          In jid (getGroupParticipants (Utils.normalizeJid groupJid) table')
          <-> In jid (map Utils.normalizeJid participants))
    /\ List.NoDup (getGroupParticipants (Utils.normalizeJid groupJid) table')
    /\ (forall other jid,
          other <> Utils.normalizeJid groupJid ->
          In jid (getGroupParticipants other table')
          <-> In jid (getGroupParticipants other table)).
Proof.
  eexists. split; [reflexivity|].
  destruct (arrayFromSet_spec (map Utils.normalizeJid participants)) as [_ Hset].
  split; [|split].
  - intros jid. rewrite getGroupParticipants_In, updateGroupParticipants_active, Hset.
    split; [intros [[_ H]|[Hne _]]; [exact H | congruence] | intros H; left; auto].
  - apply getGroupParticipants_NoDup.
  - intros other jid Hne.
    rewrite !getGroupParticipants_In, updateGroupParticipants_active.
    split; [intros [[H _]|[_ H]]; [congruence | exact H] | intros H; right; auto].
Qed.

End ParticipantTable.

(* --------------------------------------------------------------------- *)
(** ** The message router *)
(* --------------------------------------------------------------------- *)

Section MessageRouting.
Import Types Config Index.
Context `{Settings} `{Trigger}.

Lemma canInvoke_decision (usersFile : Utils.JsonFile UserRegistry)
  (senderJid : string) (isGroupChat : bool) :
  ar_canInvoke (Authorization.canInvoke usersFile senderJid isGroupChat).1
  = bool_decide (UserRegistry.getUserTier usersFile senderJid = owner)
    || bool_decide (UserRegistry.getUserTier usersFile senderJid = family).
Proof.
  unfold Authorization.canInvoke. cbn [fst ar_canInvoke].
  change (Authorization.normalizeJid senderJid) with (Utils.normalizeJid senderJid).
  rewrite getUserTier_normalized. reflexivity.
Qed.

Lemma buildPrompt_truthy (missedMessages : list NewMessage) :
  Js.strTruthy (buildPrompt missedMessages) = true.
Proof. reflexivity. Qed.

(** The second half of [processMessage]: the agent is run exactly for an
    owner or family sender whose message carries the trigger (or arrives in
    the main group). *)
Lemma authorizeAndRun_outcome (env : MessageEnv) (msg : NewMessage)
  (group : RegisteredGroup) (st1 : RouterState) :
  let senderTier :=
    UserRegistry.getUserTier (rs_usersFile st1)
      (translateJid (rs_lidToPhoneMap st1) (nm_sender msg)) in
  let hasTrigger :=
    String.eqb (rg_folder group) MAIN_GROUP_FOLDER
    || TRIGGER_PATTERN_test (Js.trim (nm_content msg)) in
  let tier := Authorization.determineAgentContext senderTier (rg_contextTier group) in
  let response :=
    runAgent env group
      (buildPrompt
         (getMessagesSince env (nm_chat_jid msg)
            (default EmptyString (rs_lastAgentTimestamp st1 !! nm_chat_jid msg))))
      (nm_chat_jid msg) tier in
  (authorizeAndRun env msg group st1).2
  = if bool_decide (senderTier = owner) || bool_decide (senderTier = family)
    then if hasTrigger then Processed tier response else NoTrigger
    else if bool_decide (senderTier = friend) && hasTrigger
         then FriendPassive else CannotInvoke.
Proof.
  cbv zeta. unfold authorizeAndRun. rewrite canInvoke_decision.
  set (senderTier := UserRegistry.getUserTier _ _).
  destruct (bool_decide (senderTier = owner) || bool_decide (senderTier = family));
    cbn [negb].
  - destruct (String.eqb (rg_folder group) MAIN_GROUP_FOLDER) eqn:Em; cbn [orb negb andb].
    + rewrite buildPrompt_truthy. cbn [negb]. destruct (Js.truthy _); reflexivity.
    + destruct (TRIGGER_PATTERN_test (Js.trim (nm_content msg))) eqn:Et; cbn [negb];
        [|reflexivity].
      rewrite buildPrompt_truthy. cbn [negb]. destruct (Js.truthy _); reflexivity.
  - destruct (bool_decide (senderTier = friend) && _); reflexivity.
Qed.

Lemma authorizeAndRun_effects (env : MessageEnv) (msg : NewMessage)
  (group : RegisteredGroup) (st1 : RouterState) :
  let result := authorizeAndRun env msg group st1 in
  match result.2 with
  | Processed tier response =>
      exists prompt,
        rs_effects result.1
        = (rs_effects st1
           ++ [Typing (nm_chat_jid msg) true;
               AgentRun group prompt (nm_chat_jid msg) tier;
               Typing (nm_chat_jid msg) false]
           ++ (if Js.truthy response
               then [Sent (nm_chat_jid msg) (default EmptyString response)]
               else []))%list
        /\ rs_lastAgentTimestamp result.1
           = (if Js.truthy response
              then <[ nm_chat_jid msg := nm_timestamp msg ]> (rs_lastAgentTimestamp st1)
              else rs_lastAgentTimestamp st1)
  | _ => result.1 = st1
  end.
Proof.
  cbv zeta. unfold authorizeAndRun.
  destruct (negb (ar_canInvoke _)).
  { destruct (_ && _); reflexivity. }
  destruct (negb (_ || _)); [reflexivity|].
  destruct (negb _ && negb _); [reflexivity|].
  rewrite buildPrompt_truthy. cbn [negb].
  destruct (Js.truthy (runAgent _ _ _ _ _)) eqn:Er; cbn [fst snd]; rewrite Er;
    eexists; (split; [|reflexivity]); cbn; rewrite <- ?app_assoc; reflexivity.
Qed.

(** The agent is run for a message exactly when its chat is registered, its
    sender is owner or family, it arrives in the main group or carries the
    trigger and, in a group chat, the participants could be fetched and
    [hasStrangers] answered no.  The context tier handed to the agent is
    the sender's tier constrained by the group's. *)
Theorem processMessage_runs_agent_iff (env : MessageEnv) (now : Z)
  (msg : NewMessage) (st : RouterState) :
  let senderTier :=
    UserRegistry.getUserTier (rs_usersFile st)
      (translateJid (rs_lidToPhoneMap st) (nm_sender msg)) in
  let result := processMessage env now msg st in
  ((exists tier response, result.2 = Processed tier response)
   <-> exists group,
         lookupGroup (nm_chat_jid msg) (rs_registeredGroups st) = Some group
         /\ (senderTier = owner \/ senderTier = family)
         /\ (rg_folder group = MAIN_GROUP_FOLDER
             \/ TRIGGER_PATTERN_test (Js.trim (nm_content msg)) = true)
         /\ (Js.endsWith "@g.us" (nm_chat_jid msg) = true ->
             exists participants,
               groupMetadata env (nm_chat_jid msg) = inr participants
               /\ Authorization.hs_result
                    (Authorization.hasStrangers (rs_usersFile st)
                       (rs_strangerCache st) now (nm_chat_jid msg)
                       participants false) = false))
  /\ (forall tier response,
        result.2 = Processed tier response ->
        exists group prompt,
          lookupGroup (nm_chat_jid msg) (rs_registeredGroups st) = Some group
          /\ tier = Authorization.determineAgentContext senderTier
                      (rg_contextTier group)
          /\ (tier = ctxOwner -> senderTier = owner)
          /\ rs_effects result.1
             = (rs_effects st
                ++ [Typing (nm_chat_jid msg) true;
                    AgentRun group prompt (nm_chat_jid msg) tier;
                    Typing (nm_chat_jid msg) false]
                ++ (if Js.truthy response
                    then [Sent (nm_chat_jid msg) (default EmptyString response)]
                    else []))%list)
  /\ result.2 <> LegacyRejected /\ result.2 <> EmptyPrompt.
Proof.
  cbv zeta. unfold processMessage.
  destruct (lookupGroup (nm_chat_jid msg) (rs_registeredGroups st)) as [group|];
    [|cbn; repeat split; try discriminate;
      [intros (? & ? & ?); discriminate | intros (? & ? & _); discriminate]].
  assert (Hmain : forall st1,
    rs_usersFile st1 = rs_usersFile st ->
    rs_lidToPhoneMap st1 = rs_lidToPhoneMap st ->
    rs_effects st1 = rs_effects st ->
    let senderTier :=
      UserRegistry.getUserTier (rs_usersFile st)
        (translateJid (rs_lidToPhoneMap st) (nm_sender msg)) in
    let result := authorizeAndRun env msg group st1 in
    ((exists tier response, result.2 = Processed tier response)
     <-> (senderTier = owner \/ senderTier = family)
         /\ (rg_folder group = MAIN_GROUP_FOLDER
             \/ TRIGGER_PATTERN_test (Js.trim (nm_content msg)) = true))
    /\ (forall tier response,
          result.2 = Processed tier response ->
          exists prompt,
            tier = Authorization.determineAgentContext senderTier
                     (rg_contextTier group)
            /\ (tier = ctxOwner -> senderTier = owner)
            /\ rs_effects result.1
               = (rs_effects st
                  ++ [Typing (nm_chat_jid msg) true;
                      AgentRun group prompt (nm_chat_jid msg) tier;
                      Typing (nm_chat_jid msg) false]
                  ++ (if Js.truthy response
                      then [Sent (nm_chat_jid msg) (default EmptyString response)]
                      else []))%list)
    /\ result.2 <> LegacyRejected /\ result.2 <> EmptyPrompt).
  { intros st1 Hu Hl He. cbv zeta.
    pose proof (authorizeAndRun_outcome env msg group st1) as Hout.
    pose proof (authorizeAndRun_effects env msg group st1) as Heff.
    cbv zeta in Hout, Heff. rewrite Hu, Hl in Hout.
    set (senderTier := UserRegistry.getUserTier _ _) in *.
    assert (Htrig : String.eqb (rg_folder group) MAIN_GROUP_FOLDER
                    || TRIGGER_PATTERN_test (Js.trim (nm_content msg)) = true
                    <-> rg_folder group = MAIN_GROUP_FOLDER
                        \/ TRIGGER_PATTERN_test (Js.trim (nm_content msg)) = true).
    { rewrite orb_true_iff, String.eqb_eq. reflexivity. }
    assert (Hsender : bool_decide (senderTier = owner)
                      || bool_decide (senderTier = family) = true
                      <-> senderTier = owner \/ senderTier = family).
    { rewrite orb_true_iff, !bool_decide_eq_true. reflexivity. }
    destruct (bool_decide (senderTier = owner) || bool_decide (senderTier = family))
      eqn:Es.
    - destruct (String.eqb (rg_folder group) MAIN_GROUP_FOLDER
                || TRIGGER_PATTERN_test (Js.trim (nm_content msg))) eqn:Et.
      + rewrite Hout in Heff |- *. destruct Heff as (prompt & Heff & _).
        split; [split; [intros _; split; [apply Hsender|apply Htrig]; reflexivity
                       | intros _; eauto]|].
        split; [|split; discriminate].
        intros tier response [= <- <-]. exists prompt.
        split; [reflexivity|]. split.
        * intros Ho.
          destruct (proj1 Hsender eq_refl) as [Eo|Ef]; [exact Eo|]. rewrite Ef in Ho.
          destruct (rg_contextTier group) as [[]|]; discriminate.
        * rewrite Heff, He. reflexivity.
      + rewrite Hout.
        split; [split; [intros (? & ? & ?); discriminate|]|].
        * intros [_ Ht]. apply Htrig in Ht. discriminate.
        * split; [discriminate|split; discriminate].
    - rewrite Hout.
      split; [split; [intros (? & ? & E); destruct (_ && _) in E; discriminate|]|].
      + intros [Hs _]. apply Hsender in Hs. discriminate.
      + split; [|split; destruct (_ && _); discriminate].
        intros tier response E. destruct (_ && _) in E; discriminate. }
  destruct (Js.endsWith "@g.us" (nm_chat_jid msg)) eqn:Eg.
  - destruct (groupMetadata env (nm_chat_jid msg)) as [message|participants] eqn:Em.
    + cbn. repeat split; try discriminate.
      * intros (? & ? & ?); discriminate.
      * intros (g & _ & _ & _ & Hgate).
        destruct (Hgate eq_refl) as (ps & Hps & _). discriminate.
    + destruct (Authorization.hs_result _) eqn:Er.
      * assert (Hs : forall r : RouterState * MessageOutcome,
                  r = (match UserRegistry.getUsersByTier (rs_usersFile st) ctxOwner with
                       | [] => (withStrangerCache
                                  (Authorization.hs_cache
                                     (Authorization.hasStrangers (rs_usersFile st)
                                        (rs_strangerCache st) now (nm_chat_jid msg)
                                        participants false)) st, StrangersDetected)
                       | ownerUser :: _ =>
                           if Js.strTruthy (ui_jid ownerUser)
                           then (push (Sent (ui_jid ownerUser)
                                         (strangerWarning (rg_name group)))
                                   (withStrangerCache
                                      (Authorization.hs_cache
                                         (Authorization.hasStrangers (rs_usersFile st)
                                            (rs_strangerCache st) now (nm_chat_jid msg)
                                            participants false)) st),
                                 StrangersDetected)
                           else (withStrangerCache
                                   (Authorization.hs_cache
                                      (Authorization.hasStrangers (rs_usersFile st)
                                         (rs_strangerCache st) now (nm_chat_jid msg)
                                         participants false)) st, StrangersDetected)
                       end) -> r.2 = StrangersDetected).
        { intros r ->. repeat case_match; reflexivity. }
        rewrite (Hs _ eq_refl). repeat split; try discriminate.
        -- intros (? & ? & ?); discriminate.
        -- intros (g & _ & _ & _ & Hgate).
           destruct (Hgate eq_refl) as (ps & [= <-] & Hno). congruence.
      * destruct (Hmain (withStrangerCache
                           (Authorization.hs_cache
                              (Authorization.hasStrangers (rs_usersFile st)
                                 (rs_strangerCache st) now (nm_chat_jid msg)
                                 participants false)) st)
                    eq_refl eq_refl eq_refl) as (Hiff & Hrun & Hl & He).
        split; [|split; [|split; assumption]].
        -- rewrite Hiff. split.
           ++ intros (Hs & Ht). exists group. repeat split; auto.
              intros _. exists participants. auto.
           ++ intros (g & [= <-] & Hs & Ht & _). auto.
        -- intros tier response E.
           destruct (Hrun tier response E) as (prompt & H1 & H2 & H3).
           exists group, prompt. auto.
  - destruct (Hmain st eq_refl eq_refl eq_refl) as (Hiff & Hrun & Hl & He).
    split; [|split; [|split; assumption]].
    + rewrite Hiff. split.
      * intros (Hs & Ht). exists group. repeat split; auto. discriminate.
      * intros (g & [= <-] & Hs & Ht & _). auto.
    + intros tier response E.
      destruct (Hrun tier response E) as (prompt & H1 & H2 & H3).
      exists group, prompt. auto.
Qed.


(** A message in a registered group chat that has a participant of tier
    [stranger] is not processed, whoever sent it, when [hasStrangers]
    classifies: the only effect is the alert sent to the owner of the
    registry, if there is one, and the time stamp of the last agent run is
    unchanged. *)
Theorem strangers_in_group_block_everyone (env : MessageEnv) (now : Z)
  (msg : NewMessage) (st : RouterState) (group : RegisteredGroup)
  (participants : list string) :
  lookupGroup (nm_chat_jid msg) (rs_registeredGroups st) = Some group ->
  Js.endsWith "@g.us" (nm_chat_jid msg) = true ->
  groupMetadata env (nm_chat_jid msg) = inr participants ->
  (forall cached,
     rs_strangerCache st !! Authorization.normalizeJid (nm_chat_jid msg)
     = Some cached ->
     300000 <= now - Authorization.sce_lastChecked cached) ->
  (exists jid, In jid participants
               /\ UserRegistry.getUserTier (rs_usersFile st) jid = stranger) ->
  let result := processMessage env now msg st in
  result.2 = StrangersDetected
  /\ rs_effects result.1
     = (rs_effects st
        ++ match UserRegistry.getUsersByTier (rs_usersFile st) ctxOwner with
           | ownerUser :: _ =>
               [Sent (ui_jid ownerUser)
                  ("⚠️ Security Alert: Strangers detected in group "
                   ++ String "034" EmptyString ++ rg_name group
                   ++ String "034" EmptyString
                   ++ ". All messages from this group are being ignored until strangers are removed or added to your user registry.")]
           | [] => []
           end)%list
  /\ rs_lastAgentTimestamp result.1 = rs_lastAgentTimestamp st.
Proof.
  intros Hg Hchat Hmeta Hold Hstranger. cbv zeta.
  unfold processMessage. rewrite Hg, Hchat, Hmeta.
  rewrite (hasStrangers_miss_is_fresh _ _ _ _ _ Hold).
  rewrite hasStrangers_fresh_result.
  rewrite (proj2 (existsb_stranger_iff _ _) Hstranger).
  unfold UserRegistry.getUsersByTier.
  destruct (Js.strTruthy (ui_jid (reg_owner _))) eqn:Eo.
  - rewrite Eo. cbn. repeat split.
  - cbn. rewrite app_nil_r. repeat split.
Qed.

End MessageRouting.

Section EscapeXml.

Lemma hasChar_replaceAll_same (c : ascii) (replacement s : string) :
  Js.hasChar c replacement = false ->
  Js.hasChar c (Js.replaceAll c replacement s) = false.
Proof.
  intros Hr. induction s as [|d s IH]; [reflexivity|].
  cbn [Js.replaceAll]. destruct (Ascii.eqb d c) eqn:E.
  - rewrite hasChar_app, Hr. exact IH.
  - cbn [Js.hasChar]. rewrite E. exact IH.
Qed.

Lemma hasChar_replaceAll_other (c d : ascii) (replacement s : string) :
  Js.hasChar d replacement = false -> Js.hasChar d s = false ->
  Js.hasChar d (Js.replaceAll c replacement s) = false.
Proof.
  intros Hr. induction s as [|x s IH]; [reflexivity|].
  cbn [Js.replaceAll Js.hasChar]. intros Hs. apply orb_false_iff in Hs as [Hx Hs].
  destruct (Ascii.eqb x c).
  - rewrite hasChar_app, Hr. exact (IH Hs).
  - cbn [Js.hasChar]. rewrite Hx. exact (IH Hs).
Qed.

Lemma replaceAll_absent (c : ascii) (replacement s : string) :
  Js.hasChar c s = false -> Js.replaceAll c replacement s = s.
Proof.
  induction s as [|x s IH]; [reflexivity|].
  cbn [Js.replaceAll Js.hasChar]. intros Hs. apply orb_false_iff in Hs as [Hx Hs].
  rewrite Hx, (IH Hs). reflexivity.
Qed.

(** The escaped text contains none of the characters [<], [>] and the
    double quote, and a text without [&], [<], [>] and the double quote is
    left as it is. *)
Theorem escapeXml_leaves_no_markup (s : string) :
  Js.hasChar "<" (Index.escapeXml s) = false
  /\ Js.hasChar ">" (Index.escapeXml s) = false
  /\ Js.hasChar "034" (Index.escapeXml s) = false
  /\ (Js.hasChar "&" s = false -> Js.hasChar "<" s = false ->
      Js.hasChar ">" s = false -> Js.hasChar "034" s = false ->
      Index.escapeXml s = s).
Proof.
  unfold Index.escapeXml.
  set (s1 := Js.replaceAll "&" "&amp;" s).
  assert (H2 : Js.hasChar "<" (Js.replaceAll "<" "&lt;" s1) = false)
    by (apply hasChar_replaceAll_same; reflexivity).
  assert (H3a : Js.hasChar ">" (Js.replaceAll ">" "&gt;" (Js.replaceAll "<" "&lt;" s1)) = false)
    by (apply hasChar_replaceAll_same; reflexivity).
  assert (H3b : Js.hasChar "<" (Js.replaceAll ">" "&gt;" (Js.replaceAll "<" "&lt;" s1)) = false)
    by (apply hasChar_replaceAll_other; [reflexivity | exact H2]).
  repeat split.
  - apply hasChar_replaceAll_other; [reflexivity | exact H3b].
  - apply hasChar_replaceAll_other; [reflexivity | exact H3a].
  - apply hasChar_replaceAll_same; reflexivity.
  - intros Ha Hl Hg Hq. unfold s1.
    rewrite (replaceAll_absent "&" _ s Ha), (replaceAll_absent "<" _ s Hl),
      (replaceAll_absent ">" _ s Hg), (replaceAll_absent "034" _ s Hq).
    reflexivity.
Qed.

End EscapeXml.

(* --------------------------------------------------------------------- *)
(** ** Command channel: what the watcher preserves *)
(* --------------------------------------------------------------------- *)

Section WatcherInvariants.
Import Types.
Context `{Config.Settings} `{Config.Runtime}.

Lemma addUser_keeps_owner (usersFile : Utils.JsonFile UserRegistry)
  (jid name tier : string) (addedBy : option string) (addedAt : string) :
  reg_owner (UserRegistry.loadUserRegistry
               (UserRegistry.addUser usersFile jid name tier addedBy addedAt).2)
  = reg_owner (UserRegistry.loadUserRegistry usersFile).
Proof.
  unfold UserRegistry.addUser.
  destruct (negb _); [reflexivity|]. destruct (String.eqb tier "family"); reflexivity.
Qed.

Lemma removeUser_keeps_owner (usersFile : Utils.JsonFile UserRegistry)
  (jid : string) (removed : bool) (file' : Utils.JsonFile UserRegistry) :
  UserRegistry.removeUser usersFile jid = Some (removed, file') ->
  reg_owner (UserRegistry.loadUserRegistry file')
  = reg_owner (UserRegistry.loadUserRegistry usersFile).
Proof.
  unfold UserRegistry.removeUser.
  repeat case_match; intros [= <- <-]; reflexivity.
Qed.

Lemma processTaskIpc_keeps_owner (payload : option Index.IpcData)
  (sourceGroup : string) (isMain : bool) (now : Z) (rand : string)
  (st : Index.HostState) :
  reg_owner (UserRegistry.loadUserRegistry
               (Index.usersFile
                  (Index.completionState
                     (Index.processTaskIpc payload sourceGroup isMain now rand st))))
  = reg_owner (UserRegistry.loadUserRegistry (Index.usersFile st)).
Proof.
  unfold Index.processTaskIpc.
  destruct payload as [data|]; [|reflexivity].
  repeat case_match; simpl; try reflexivity.
  - match goal with
    | Ha : UserRegistry.addUser ?f ?j ?n ?t ?b ?a = (_, ?file') |- _ =>
        pose proof (addUser_keeps_owner f j n t b a) as Ho; rewrite Ha in Ho;
        exact Ho
    end.
  - match goal with
    | Hr : UserRegistry.removeUser ?f ?j = Some (_, _) |- _ =>
        exact (removeUser_keeps_owner _ _ _ _ Hr)
    end.
Qed.


Lemma ipcStep_keeps_owner (st st' : Index.HostState) :
  Index.ipcStep st st' ->
  reg_owner (UserRegistry.loadUserRegistry (Index.usersFile st'))
  = reg_owner (UserRegistry.loadUserRegistry (Index.usersFile st)).
Proof.
  intros [sourceGroup file s _ _ | sourceGroup file now rand s _ _].
  - unfold Index.processMessageFile. repeat case_match; reflexivity.
  - unfold Index.processTaskFile.
    destruct (Index.readTaskFile sourceGroup file (Index.ipc s)) as [[|payload]|];
      try reflexivity.
    pose proof (processTaskIpc_keeps_owner payload sourceGroup
                  (String.eqb sourceGroup Config.MAIN_GROUP_FOLDER) now rand s) as Ho.
    destruct (Index.processTaskIpc payload sourceGroup _ now rand s); exact Ho.
Qed.

Lemma owner_tier_by_owner_entry (file file' : Utils.JsonFile UserRegistry)
  (jid : string) :
  reg_owner (UserRegistry.loadUserRegistry file')
  = reg_owner (UserRegistry.loadUserRegistry file) ->
  UserRegistry.getUserTier file' jid = owner ->
  UserRegistry.getUserTier file jid = owner.
Proof.
  unfold UserRegistry.getUserTier, UserRegistry.getUserTierFromRegistry.
  intros ->. destruct (_ && _); [reflexivity|].
  repeat case_match; discriminate.
Qed.

(** Whatever command files the watcher consumes, from whatever namespace,
    the owner entry of the user registry stays as it is: nobody becomes
    owner and the owner is never removed. *)
Theorem ipc_never_changes_the_owner (st st' : Index.HostState) :
  Index.ipcReach st st' ->
  reg_owner (UserRegistry.loadUserRegistry (Index.usersFile st'))
  = reg_owner (UserRegistry.loadUserRegistry (Index.usersFile st))
  /\ forall jid,
       UserRegistry.getUserTier (Index.usersFile st') jid = owner
       <-> UserRegistry.getUserTier (Index.usersFile st) jid = owner.
Proof.
  intros Hreach.
  assert (Ho : reg_owner (UserRegistry.loadUserRegistry (Index.usersFile st'))
               = reg_owner (UserRegistry.loadUserRegistry (Index.usersFile st))).
  { induction Hreach as [|sa sb _ IH Hstep]; [reflexivity|].
    rewrite (ipcStep_keeps_owner sa sb Hstep). exact IH. }
  split; [exact Ho|]. intros jid. split.
  - apply owner_tier_by_owner_entry. exact Ho.
  - apply owner_tier_by_owner_entry. symmetry. exact Ho.
Qed.

(* queues *)












End WatcherInvariants.

(* --------------------------------------------------------------------- *)
(** ** Container runner: vaults and the environment file *)
(* --------------------------------------------------------------------- *)

Section VaultsAndEnvironment.
Import Types ContainerRunner.
Context `{Config.Settings} `{Config.Runtime} `{ContainerRunner.MountSecurity}.

(** A vault is mounted only after [validateVaultMount] returned. *)
Lemma vaultMount_validated (host : HostView) (vault : option VaultSettings)
  (target : string) (m : VolumeMount) :
  In m (vaultMount host vault target) ->
  containerPath m = target
  /\ readonly m = false
  /\ exists settings resolved,
       vault = Some settings
       /\ vs_enabled settings = true
       /\ hostPath m = Config.expandPath (vs_path settings)
       /\ realpathSync host (hostPath m) = Resolved resolved
       /\ isDirectory host resolved = true
       /\ forall pattern, In pattern blockedPatterns ->
                          Js.includes pattern (Js.toLowerCase resolved) = false.
Proof.
  unfold vaultMount. destruct vault as [v|]; [|intros []].
  destruct (vs_enabled v) eqn:Een; [|intros []]. cbn [andb].
  destruct (Js.strTruthy (vs_path v)); [|intros []].
  destruct (validateVaultMount host (Config.expandPath (vs_path v))) eqn:Ev;
    [|intros []].
  intros [<- | []]. cbn [containerPath readonly hostPath].
  split; [reflexivity|]. split; [reflexivity|].
  unfold validateVaultMount in Ev.
  destruct (realpathSync host (Config.expandPath (vs_path v)))
    as [resolved| |message] eqn:Er; try discriminate.
  destruct (existsb _ blockedPatterns) eqn:Eb; [discriminate|].
  exists v, resolved. repeat split; auto.
  intros pattern Hin.
  destruct (Js.includes pattern (Js.toLowerCase resolved)) eqn:Ei; [|reflexivity].
  assert (existsb (fun pattern => Js.includes pattern (Js.toLowerCase resolved))
                  blockedPatterns = true) as Ht.
  { apply existsb_exists. exists pattern. auto. }
  congruence.
Qed.

Lemma vault_mounts_origin (host : HostView) (group : RegisteredGroup)
  (isMain : bool) (effectiveTier : option ContextTier) (m : VolumeMount) :
  In m (buildVolumeMounts host group isMain effectiveTier) ->
  containerPath m = "/workspace/vaults/private"
  \/ containerPath m = "/workspace/vaults/main" ->
  In m (additionalMounts group isMain)
  \/ (resolveContextTier group isMain effectiveTier <> ctxFriend
      /\ (containerPath m = "/workspace/vaults/private" ->
          resolveContextTier group isMain effectiveTier = ctxOwner)
      /\ readonly m = false
      /\ exists settings resolved,
           (if String.eqb (containerPath m) "/workspace/vaults/private"
            then vc_privateVault (vaultConfig host) = Some settings
            else vc_mainVault (vaultConfig host) = Some settings)
           /\ vs_enabled settings = true
           /\ hostPath m = Config.expandPath (vs_path settings)
           /\ realpathSync host (hostPath m) = Resolved resolved
           /\ isDirectory host resolved = true
           /\ forall pattern, In pattern blockedPatterns ->
                              Js.includes pattern (Js.toLowerCase resolved) = false).
Proof.
  intros Hin Hpath. unfold buildVolumeMounts in Hin.
  rewrite in_app_iff in Hin. destruct Hin as [Htier | Hrest].
  - right.
    destruct (resolveContextTier group isMain effectiveTier) eqn:Et;
      cbn [tierMounts] in Htier.
    + (* owner *)
      rewrite !in_app_iff in Htier.
      destruct Htier as [[<- | []] | [Hv | [Hv | [<- | []]]]];
        try (destruct Hpath; discriminate).
      * destruct (vaultMount_validated _ _ _ _ Hv) as (Hp & Hro & v & r & Hs & Hrest).
        split; [discriminate|]. split; [reflexivity|]. split; [exact Hro|].
        exists v, r. rewrite Hp. cbn. split; [exact Hs | exact Hrest].
      * destruct (vaultMount_validated _ _ _ _ Hv) as (Hp & Hro & v & r & Hs & Hrest).
        split; [discriminate|]. split; [reflexivity|]. split; [exact Hro|].
        exists v, r. rewrite Hp. cbn. split; [exact Hs | exact Hrest].
    + (* family *)
      rewrite !in_app_iff in Htier. destruct Htier as [Hv | [[<- | []] | Hg]].
      * destruct (vaultMount_validated _ _ _ _ Hv) as (Hp & Hro & v & r & Hs & Hrest).
        split; [discriminate|]. split; [rewrite Hp; discriminate|].
        split; [exact Hro|].
        exists v, r. rewrite Hp. cbn. split; [exact Hs | exact Hrest].
      * destruct Hpath; discriminate.
      * apply globalMount_read_only in Hg as (Hp & _). rewrite Hp in Hpath.
        destruct Hpath; discriminate.
    + (* friend *)
      rewrite !in_app_iff in Htier.
      destruct Htier as [[<- | []] | Hg]; [destruct Hpath; discriminate|].
      apply globalMount_read_only in Hg as (Hp & _). rewrite Hp in Hpath.
      destruct Hpath; discriminate.
  - rewrite !in_app_iff in Hrest.
    destruct Hrest as [[<- | []] | [[<- | []] | [He | Ha]]];
      try (destruct Hpath; discriminate); [|left; exact Ha].
    apply envMount_read_only in He as (Hp & _). rewrite Hp in Hpath.
    destruct Hpath; discriminate.
Qed.

(** A mount at one of the two vault paths is either one that the validator
    of additional mounts returned, or the vault the configuration names for
    that path: enabled, mounted read-write from its expanded path, which
    resolves to a directory whose lower-cased path contains none of the
    blocked patterns.  The private vault is mounted for the owner tier
    only, and no vault for the friend tier. *)
Theorem vault_mounts_are_validated (host : HostView) (group : RegisteredGroup)
  (isMain : bool) (effectiveTier : option ContextTier) (m : VolumeMount) :
  let contextTier :=
    match effectiveTier, rg_contextTier group with
    | Some tier, _ => tier
    | None, Some tier => tier
    | None, None => if isMain then ctxOwner else ctxFriend
    end in
  let validated :=
    match rg_containerConfig group with
    | Some config =>
        match cc_additionalMounts config with
        | Some requested => validateAdditionalMounts requested (rg_name group) isMain
        | None => []
        end
    | None => []
    end in
  In m (buildVolumeMounts host group isMain effectiveTier) ->
  containerPath m = "/workspace/vaults/private"
  \/ containerPath m = "/workspace/vaults/main" ->
  In m validated
  \/ (contextTier <> ctxFriend
      /\ (containerPath m = "/workspace/vaults/private" -> contextTier = ctxOwner)
      /\ readonly m = false
      /\ exists settings resolved,
           (if String.eqb (containerPath m) "/workspace/vaults/private"
            then vc_privateVault (vaultConfig host) = Some settings
            else vc_mainVault (vaultConfig host) = Some settings)
           /\ vs_enabled settings = true
           /\ hostPath m = Config.expandPath (vs_path settings)
           /\ realpathSync host (hostPath m) = Resolved resolved
           /\ isDirectory host resolved = true
           /\ forall pattern,
                In pattern [".ssh"; ".gnupg"; ".gpg"; ".aws"; "credentials"] ->
                Js.includes pattern (Js.toLowerCase resolved) = false).
Proof.
  cbv zeta. intros Hin Hpath.
  assert (Etier : resolveContextTier group isMain effectiveTier
                  = match effectiveTier, rg_contextTier group with
                    | Some tier, _ => tier
                    | None, Some tier => tier
                    | None, None => if isMain then ctxOwner else ctxFriend
                    end).
  { unfold resolveContextTier.
    destruct effectiveTier, (rg_contextTier group); reflexivity. }
  rewrite <- Etier.
  destruct (vault_mounts_origin host group isMain effectiveTier m Hin Hpath)
    as [Ha | (Hne & Hpriv & Hro & Hvault)].
  - left. exact Ha.
  - right. split; [exact Hne|]. split; [exact Hpriv|]. split; [exact Hro|].
    exact Hvault.
Qed.


(** Joining lines with a separator none of them contains, and splitting
    again, gives the lines back. *)
Lemma split_join_lines (sep : ascii) (line : string) (lines : list string) :
  Forall (fun p => Js.hasChar sep p = false) (line :: lines) ->
  Js.split sep (Js.join (String sep EmptyString) (line :: lines)
                ++ String sep EmptyString)
  = (line :: lines ++ [EmptyString])%list.
Proof.
  revert line. induction lines as [|next lines IH]; intros line Hall.
  - inversion Hall as [|? ? Hl _]; subst. cbn [Js.join].
    rewrite (split_append_sep sep line EmptyString Hl). reflexivity.
  - inversion Hall as [|? ? Hl Hrest]; subst.
    change (Js.join (String sep EmptyString) (line :: next :: lines))
      with (line ++ String sep EmptyString
            ++ Js.join (String sep EmptyString) (next :: lines)).
    rewrite string_app_assoc.
    change ((String sep EmptyString
             ++ Js.join (String sep EmptyString) (next :: lines))
            ++ String sep EmptyString)
      with (String sep (Js.join (String sep EmptyString) (next :: lines)
                        ++ String sep EmptyString)).
    rewrite (split_append_sep sep line _ Hl), (IH next Hrest). reflexivity.
Qed.

Lemma filteredLines_spec (envContent line : string) :
  In line (filteredLines envContent) ->
  In line (Js.split "010" envContent)
  /\ Js.hasChar "010" line = false
  /\ exists v, In v allowedVars
               /\ Js.startsWith (v ++ "=") (Js.trim line) = true.
Proof.
  unfold filteredLines. intros Hin. apply filter_In in Hin as [Hin Hkeep].
  split; [exact Hin|]. split.
  - pose proof (split_pieces_without_sep "010" envContent) as Hall.
    rewrite Forall_forall in Hall. apply Hall.
    apply list_elem_of_In. exact Hin.
  - destruct (negb (Js.strTruthy (Js.trim line)) || Js.startsWith "#" (Js.trim line));
      [discriminate|].
    apply existsb_exists in Hkeep as (v & Hv & Hs). eauto.
Qed.

Lemma filteredLines_explicit (envContent : string) :
  filteredLines envContent
  = List.filter (fun line =>
                   Js.strTruthy (Js.trim line)
                   && negb (Js.startsWith "#" (Js.trim line))
                   && (Js.startsWith "CLAUDE_CODE_OAUTH_TOKEN=" (Js.trim line)
                       || Js.startsWith "ANTHROPIC_API_KEY=" (Js.trim line)))
                (Js.split "010" envContent).
Proof.
  unfold filteredLines. apply List.filter_ext. exact allowed_line_test.
Qed.

(** The environment file handed to the container holds nothing but the
    lines of the project's .env that, trimmed, are not empty, are no
    comment and start with [CLAUDE_CODE_OAUTH_TOKEN=] or
    [ANTHROPIC_API_KEY=], in their order, each followed by a line feed:
    reading it back line by line gives those lines.  It is written, and
    its directory mounted read-only, exactly when .env exists and has such
    a line. *)
Theorem env_file_exposes_only_allowed_variables (host : HostView) :
  let envFile := Config.path_join [cwd host; ".env"] in
  let kept :=
    List.filter (fun line =>
                   Js.strTruthy (Js.trim line)
                   && negb (Js.startsWith "#" (Js.trim line))
                   && (Js.startsWith "CLAUDE_CODE_OAUTH_TOKEN=" (Js.trim line)
                       || Js.startsWith "ANTHROPIC_API_KEY=" (Js.trim line)))
                (Js.split "010" (readFileSync host envFile)) in
  match envFileContent host with
  | Some content =>
      existsSync host envFile = true
      /\ kept <> []
      /\ content = Js.join (String "010" EmptyString) kept ++ String "010" EmptyString
      /\ Js.split "010" content = (kept ++ [EmptyString])%list
      /\ envMount host
         = [ {| hostPath := Config.path_join [Config.DATA_DIR; "env"];
                containerPath := "/workspace/env-dir";
                readonly := true |} ]
  | None =>
      (existsSync host envFile = false \/ kept = [])
      /\ envMount host = []
  end.
Proof.
  cbv zeta. unfold envFileContent, envMount.
  rewrite <- filteredLines_explicit.
  destruct (existsSync host (Config.path_join [cwd host; ".env"]));
    [|split; [left|]; reflexivity].
  destruct (filteredLines (readFileSync host (Config.path_join [cwd host; ".env"])))
    as [|line lines] eqn:El; [split; [right|]; reflexivity|].
  split; [reflexivity|]. split; [discriminate|]. split; [reflexivity|].
  split; [|reflexivity].
  apply split_join_lines. apply Forall_forall. intros p Hp.
  apply list_elem_of_In in Hp. rewrite <- El in Hp.
  apply filteredLines_spec in Hp as (_ & Hnl & _). exact Hnl.
Qed.

End VaultsAndEnvironment.

(* --------------------------------------------------------------------- *)
(** ** Due tasks *)
(* --------------------------------------------------------------------- *)

Section DueTasks.
Import Types Db.

Lemma insertByNextRun_In (task x : ScheduledTask) (sorted : list ScheduledTask) :
  In x (insertByNextRun task sorted) <-> x = task \/ In x sorted.
Proof.
  induction sorted as [|first rest IH]; simpl.
  - split; [intros [<-|[]]; auto | intros [->|[]]; auto].
  - destruct (_ <=? _); simpl; [split; intros [E|E]; auto|].
    rewrite IH. tauto.
Qed.

Lemma foldr_insertByNextRun_In (x : ScheduledTask) (tasks : list ScheduledTask) :
  In x (foldr insertByNextRun [] tasks) <-> In x tasks.
Proof.
  induction tasks as [|t tasks IH]; simpl; [tauto|].
  rewrite insertByNextRun_In, IH. split; intros [E|E]; auto.
Qed.

(** The rows [getDueTasks] returns. *)
Lemma getDueTasks_In (now : Z) (db : Database) (task : ScheduledTask) :
  In task (getDueTasks now db)
  <-> (exists key, scheduled_tasks db !! key = Some task) /\ isDue now task = true.
Proof.
  unfold getDueTasks. rewrite foldr_insertByNextRun_In, filter_In, in_map_iff.
  split.
  - intros [([key t] & <- & Hin) Hd]. split; [|exact Hd].
    exists key. apply elem_of_map_to_list, list_elem_of_In. exact Hin.
  - intros [(key & Hk) Hd]. split; [|exact Hd].
    exists (key, task). split; [reflexivity|].
    apply list_elem_of_In, elem_of_map_to_list. exact Hk.
Qed.

(** A task recorded as run with no next run is completed: it is due at no
    later time, also after it is resumed, and the tasks due among the
    others are as before. *)
Theorem finished_task_is_never_due (id lastResult : string) (now : Z)
  (db : Database) :
  (forall key task, scheduled_tasks db !! key = Some task -> st_id task = key) ->
  let db' := updateTaskAfterRun id None lastResult now db in
  (forall key task, scheduled_tasks db' !! key = Some task -> st_id task = key)
  /\ forall later task,
       (In task (getDueTasks later db') -> st_id task <> id)
       /\ (In task (getDueTasks later
                      (updateTask id (statusUpdate active) db')) ->
           st_id task <> id)
       /\ (st_id task <> id ->
           (In task (getDueTasks later db') <-> In task (getDueTasks later db))).
Proof.
  intros Hkey. cbv zeta.
  assert (Hkey' : keyedById (updateTaskAfterRun id None lastResult now db)).
  { intros key task Hl. cbn in Hl.
    apply lookup_alter_Some in Hl as [(-> & t & Ht & ->) | [_ Hold]];
      [cbn; apply (Hkey _ _ Ht) | apply (Hkey _ _ Hold)]. }
  split; [exact Hkey'|]. intros later task. split; [|split].
  - intros Hin Hid. apply getDueTasks_In in Hin as [(key & Hl) Hd].
    cbn in Hl. apply lookup_alter_Some in Hl as [(-> & t & Ht & ->) | [Hne Hold]].
    + unfold isDue in Hd. cbn in Hd. rewrite andb_false_r in Hd. discriminate.
    + apply Hkey in Hold. congruence.
  - intros Hin Hid. apply getDueTasks_In in Hin as [(key & Hl) Hd].
    cbn in Hl. apply lookup_alter_Some in Hl as [(-> & t & Ht & ->) | [Hne Hold]].
    + apply lookup_alter_Some in Ht as [(_ & t0 & Ht0 & ->) | [Hne _]];
        [|congruence].
      unfold isDue in Hd. cbn in Hd. rewrite andb_false_r in Hd. discriminate.
    + apply lookup_alter_Some in Hold as [(-> & _) | [_ Hold]]; [congruence|].
      apply Hkey in Hold. congruence.
  - intros Hid. rewrite !getDueTasks_In. split; intros [(key & Hl) Hd];
      (split; [|exact Hd]).
    + cbn in Hl. apply lookup_alter_Some in Hl as [(-> & t & Ht & ->) | [_ Hold]];
        [cbn in Hid; apply Hkey in Ht; congruence | eauto].
    + exists key. cbn. apply lookup_alter_Some. right.
      split; [|exact Hl]. apply Hkey in Hl. congruence.
Qed.

End DueTasks.

(* --------------------------------------------------------------------- *)
(** ** The HTTP API *)
(* --------------------------------------------------------------------- *)

Section ApiFacts.
Import Types Api.
Context `{Config.Runtime} `{Environment}.


(** The first code unit of an encoded string can be read back. *)
Lemma utf8Char_prefix_injective (c d : ascii) (r s : string) :
  utf8Char c ++ r = utf8Char d ++ s -> c = d /\ r = s.
Proof.
  assert (Hdec : forall (x : ascii) (t : string),
            match utf8Char x ++ t with
            | String b0 rest =>
                if (nat_of_ascii b0 <? 128)%nat then (b0, rest)
                else match rest with
                     | String b1 rest' =>
                         (ascii_of_nat ((nat_of_ascii b0 - 192) * 64
                                        + (nat_of_ascii b1 - 128)), rest')
                     | EmptyString => (b0, rest)
                     end
            | EmptyString => (Ascii.zero, EmptyString)
            end = (x, t)).
  { intros x t. destruct x as [[] [] [] [] [] [] [] []]; reflexivity. }
  intros E. pose proof (Hdec c r) as Hc. pose proof (Hdec d s) as Hd.
  rewrite E in Hc. rewrite Hc in Hd. injection Hd as -> ->. auto.
Qed.

Lemma Buffer_from_injective (a b : string) :
  Buffer_from a = Buffer_from b -> a = b.
Proof.
  revert b. induction a as [|c a IH]; intros [|d b]; cbn [Buffer_from].
  - reflexivity.
  - intros E. exfalso. unfold utf8Char in E.
    destruct (nat_of_ascii d <? 128)%nat; discriminate.
  - intros E. exfalso. unfold utf8Char in E.
    destruct (nat_of_ascii c <? 128)%nat; discriminate.
  - intros E. apply utf8Char_prefix_injective in E as [-> E].
    rewrite (IH b E). reflexivity.
Qed.

(** The comparison of the two buffers is the comparison of the token with
    the text after [Bearer ]. *)
Lemma token_check (token presented : string) :
  negb (Nat.eqb (String.length (Buffer_from token))
                (String.length (Buffer_from presented)))
  || negb (timingSafeEqual (Buffer_from token) (Buffer_from presented)) = false
  <-> presented = token.
Proof.
  unfold timingSafeEqual. rewrite orb_false_iff, !negb_false_iff. split.
  - intros [_ E]. apply String.eqb_eq in E. symmetry.
    apply Buffer_from_injective. exact E.
  - intros ->. rewrite Nat.eqb_refl, String.eqb_refl. auto.
Qed.

Lemma startsWith_drop (p s : string) :
  Js.startsWith p s = true -> s = p ++ Js.drop (String.length p) s.
Proof.
  revert s. induction p as [|a p IH]; intros s; [reflexivity|].
  destruct s as [|b s]; [discriminate|]. cbn [Js.startsWith String.length Js.drop].
  intros E. apply andb_true_iff in E as [Eab Ep]. apply Ascii.eqb_eq in Eab. subst b.
  change (String a s = String a (p ++ Js.drop (String.length p) s)).
  f_equal. apply IH. exact Ep.
Qed.

Lemma handleBody_calls (body : Json) :
  calls (handleBody body) <> [] ->
  exists text channel context,
    calls (handleBody body) = [(text, channel, context)]
    /\ field "text" body = Some (JString text)
    /\ Js.trim text <> EmptyString
    /\ (String.length text <= MAX_TEXT_LENGTH)%nat
    /\ channel <> EmptyString
    /\ exists properties, context = JObject properties.
Proof.
  unfold handleBody. intros Hc.
  destruct body; try (exfalso; apply Hc; reflexivity);
    (destruct (field "text" _) as [[| | |text| |]|] eqn:Et;
       try (exfalso; apply Hc; reflexivity));
    (destruct (negb (Js.strTruthy (Js.trim text))) eqn:Etrim;
       [exfalso; apply Hc; reflexivity|]);
    (destruct (MAX_TEXT_LENGTH <? String.length text)%nat eqn:Elen;
       [exfalso; apply Hc; reflexivity|]);
    revert Hc;
    (destruct (field "context" _) as [[| | | | |cprops]|] eqn:Ectx; cbn [negb];
       try (intros Hc; exfalso; apply Hc; reflexivity));
    (destruct (field "channel" _) as [[| | |ch| |]|] eqn:Ech; cbn [negb];
       try (intros Hc; exfalso; apply Hc; reflexivity));
    intros _;
    (assert (Htrim : Js.trim text <> EmptyString)
       by (intros E; rewrite E in Etrim; discriminate));
    (assert (Hlen : (String.length text <= MAX_TEXT_LENGTH)%nat)
       by (apply Nat.ltb_ge in Elen; exact Elen));
    match goal with
    | |- context [calls (if _ then {| statusCode := _; payload := _;
                                      calls := [(_, ?channel, ?context)] |}
                         else _)] =>
        exists text, channel, context
    end;
    (split; [repeat case_match; reflexivity|]);
    (split; [reflexivity|]); (split; [exact Htrim|]); (split; [exact Hlen|]);
    (split; [try discriminate;
             try (destruct (Js.strTruthy ch) eqn:Ec;
                  [destruct ch; discriminate | discriminate])
            | cbn; eauto]).
Qed.

(** A request reaches [processMessage] only as POST /api/message carrying
    the configured, non-empty token as its bearer credential, with a body
    whose text is a non-blank string within the length limit; the call is
    made once, with a non-empty channel and an object as context. *)
Theorem message_is_processed_only_with_the_token (apiToken : option string)
  (req : Request) :
  calls (handleRequest apiToken req) <> [] ->
  method req = "POST"
  /\ pathname req = Some "/api/message"
  /\ exists token text channel context,
       apiToken = Some token
       /\ token <> EmptyString
       /\ authorization req = Some ("Bearer " ++ token)
       /\ calls (handleRequest apiToken req) = [(text, channel, context)]
       /\ Js.trim text <> EmptyString
       /\ (String.length text <= 32 * 1024)%nat
       /\ channel <> EmptyString
       /\ exists properties, context = JObject properties.
Proof.
  unfold handleRequest. intros Hc.
  destruct (pathname req) as [path|]; [|exfalso; apply Hc; reflexivity].
  destruct (String.eqb (method req) "GET" && String.eqb path "/api/health");
    [exfalso; apply Hc; reflexivity|].
  destruct (String.eqb (method req) "POST" && String.eqb path "/api/message") eqn:Ep;
    [|exfalso; apply Hc; reflexivity].
  apply andb_true_iff in Ep as [Em Epath].
  apply String.eqb_eq in Em. apply String.eqb_eq in Epath. subst path.
  split; [exact Em|]. split; [reflexivity|].
  destruct apiToken as [token|]; [|exfalso; apply Hc; reflexivity].
  cbn [Js.truthy default from_option id] in Hc |- *.
  destruct (Js.strTruthy token) eqn:Etok; [|exfalso; apply Hc; reflexivity].
  cbn [negb] in Hc |- *.
  destruct (authorization req) as [authHeader|]; [|exfalso; apply Hc; reflexivity].
  cbn [Js.truthy default from_option id] in Hc |- *.
  destruct (Js.strTruthy authHeader); [|exfalso; apply Hc; reflexivity].
  destruct (Js.startsWith "Bearer " authHeader) eqn:Eb;
    [|exfalso; apply Hc; reflexivity].
  cbn [negb orb] in Hc |- *.
  destruct (negb (Nat.eqb _ _) || negb (timingSafeEqual _ _)) eqn:Ecmp;
    [exfalso; apply Hc; reflexivity|].
  apply token_check in Ecmp.
  pose proof (startsWith_drop "Bearer " authHeader Eb) as Eh.
  cbn [String.length] in Eh. rewrite Ecmp in Eh.
  assert (Hbody : forall message, calls (bodyError message) = []).
  { intros message. unfold bodyError. destruct (String.eqb _ _); reflexivity. }
  destruct (readBody 0 EmptyString (chunks req) (ending req)) as [message|bytes];
    [exfalso; apply Hc; apply Hbody|].
  destruct (Config.JSON_parse (toStringUtf8 bytes)) as [message|body];
    [exfalso; apply Hc; apply Hbody|].
  destruct (handleBody_calls body Hc) as (text & channel & context & H1 & _ & H2).
  exists token, text, channel, context.
  split; [reflexivity|]. split; [destruct token; [discriminate|discriminate]|].
  split; [f_equal; exact Eh|]. split; [exact H1 | exact H2].
Qed.



End ApiFacts.

(* --------------------------------------------------------------------- *)
(** ** Runs on the sample deployment *)
(* --------------------------------------------------------------------- *)

(** On the sample registry: adding Dee or removing Cy leaves Bob, written
    with a device suffix, in the family tier. *)
Lemma registry_edits_are_local_witness :
  UserRegistry.getUserTier
    (UserRegistry.addUser Fixture.usersFile "400@s.whatsapp.net" "Dee" "friend"
       None "2026").2 "200:7@s.whatsapp.net"
  = Types.family
  /\ forall removed file',
       UserRegistry.removeUser Fixture.usersFile "300@s.whatsapp.net"
       = Some (removed, file') ->
       UserRegistry.getUserTier file' "200:7@s.whatsapp.net" = Types.family.
Proof.
  assert (Hadd : UserRegistry.normalizeJid "200:7@s.whatsapp.net"
                 <> UserRegistry.normalizeJid "400@s.whatsapp.net")
    by (intros E; vm_compute in E; discriminate E).
  assert (Hrem : UserRegistry.normalizeJid "200:7@s.whatsapp.net"
                 <> UserRegistry.normalizeJid "300@s.whatsapp.net")
    by (intros E; vm_compute in E; discriminate E).
  split.
  - rewrite (proj1 (registry_edits_are_local Fixture.usersFile "400@s.whatsapp.net"
                      "Dee" "friend" None "2026" "200:7@s.whatsapp.net" Hadd)).
    reflexivity.
  - intros removed file' Hr.
    rewrite (proj2 (registry_edits_are_local Fixture.usersFile "300@s.whatsapp.net"
                      "Cy" "friend" None "2026" "200:7@s.whatsapp.net" Hrem)
               removed file' Hr).
    reflexivity.
Defined.

(** Dee is added to the family and removed again. *)
Lemma addUser_then_removeUser_witness :
  exists file'',
    UserRegistry.removeUser
      (UserRegistry.addUser Fixture.usersFile "400:2@s.whatsapp.net" "Dee" "family"
         (Some "100@s.whatsapp.net") "2026").2 "400:2@s.whatsapp.net"
    = Some (true, file'')
    /\ UserRegistry.loadUserRegistry file''
       = UserRegistry.loadUserRegistry Fixture.usersFile
    /\ UserRegistry.getUserTier file'' "400:2@s.whatsapp.net" = Types.stranger.
Proof.
  apply (addUser_then_removeUser Fixture.usersFile "400:2@s.whatsapp.net" "Dee"
           "family" (Some "100@s.whatsapp.net") "2026").
  reflexivity.
Defined.

(** Bob's identity with the device suffix 12. *)
Lemma device_suffix_is_ignored_witness :
  Utils.normalizeJid "200:12@s.whatsapp.net" = Utils.normalizeJid "200@s.whatsapp.net"
  /\ UserRegistry.getUserTier Fixture.usersFile "200:12@s.whatsapp.net"
     = UserRegistry.getUserTier Fixture.usersFile "200@s.whatsapp.net"
  /\ (Authorization.canInvoke Fixture.usersFile "200:12@s.whatsapp.net" true).1
     = (Authorization.canInvoke Fixture.usersFile "200@s.whatsapp.net" true).1.
Proof.
  exact (device_suffix_is_ignored Fixture.usersFile "200" "12" "s.whatsapp.net"
           true eq_refl eq_refl eq_refl).
Defined.

(** The owner and an unknown identity, with an empty cache. *)
Lemma fresh_hasStrangers_agrees_with_participant_tiers_witness :
  Authorization.hs_result
    (Authorization.hasStrangers Fixture.usersFile ∅ 1000 "222@g.us"
       ["100@s.whatsapp.net"; "999:1@s.whatsapp.net"] false) = true
  <-> exists p,
        In p (Authorization.getParticipantTiers Fixture.usersFile
                ["100@s.whatsapp.net"; "999:1@s.whatsapp.net"])
        /\ Types.gp_tier p = Types.stranger.
Proof.
  apply (fresh_hasStrangers_agrees_with_participant_tiers Fixture.usersFile ∅ 1000
           "222@g.us" ["100@s.whatsapp.net"; "999:1@s.whatsapp.net"] false).
  intros _ cached Hc. vm_compute in Hc. discriminate Hc.
Defined.

(** The owner writes to the family group, which has an unknown
    participant: the message is not processed and the owner is alerted. *)
Lemma strangers_in_group_block_everyone_witness :
  (@Index.processMessage Fixture.settings Fixture.trigger Fixture.messageEnv
     1000 Fixture.ownerMessage Fixture.routerState).2
  = Index.StrangersDetected
  /\ Index.rs_effects
       (@Index.processMessage Fixture.settings Fixture.trigger
          Fixture.messageEnv 1000 Fixture.ownerMessage Fixture.routerState).1
     = [Index.Sent "100@s.whatsapp.net" (Index.strangerWarning "Family")].
Proof.
  destruct (@strangers_in_group_block_everyone Fixture.settings Fixture.trigger
              Fixture.messageEnv 1000 Fixture.ownerMessage Fixture.routerState
              (Fixture.group "Family" "family-chat" (Some Types.ctxFamily))
              ["100@s.whatsapp.net"; "200:3@s.whatsapp.net"; "999@s.whatsapp.net"]
              eq_refl eq_refl eq_refl) as (Ho & He & _).
  - intros cached Hc. vm_compute in Hc. discriminate Hc.
  - exists "999@s.whatsapp.net". split; [right; right; left; reflexivity | reflexivity].
  - split; [exact Ho | exact He].
Defined.

(** The main namespace asks to remove the owner: the owner stays. *)
Lemma ipc_never_changes_the_owner_witness :
  UserRegistry.getUserTier
    (Index.usersFile
       (@Index.processTaskFile Fixture.settings Fixture.runtime "main" "rm.json" 0 "x"
          (Fixture.hostWith "main" "rm.json" true
             (Index.IpcParsed
                (Some (Fixture.removeUserCommand "100:5@s.whatsapp.net"))))))
    "100@s.whatsapp.net" = Types.owner.
Proof.
  apply (@ipc_never_changes_the_owner Fixture.settings Fixture.runtime
           (Fixture.hostWith "main" "rm.json" true
              (Index.IpcParsed
                 (Some (Fixture.removeUserCommand "100:5@s.whatsapp.net"))))).
  - apply (Index.ReachStep _ _ _ (Index.ReachHere _)).
    apply Index.StepTask; [intros E; discriminate E | reflexivity].
  - reflexivity.
Defined.


(** The private vault mounted for the owner on the sample host. *)
Lemma vault_mounts_are_validated_witness :
  exists settings resolved,
    Types.vc_privateVault (ContainerRunner.vaultConfig Fixture.hostView)
    = Some settings
    /\ Types.vs_enabled settings = true
    /\ ContainerRunner.realpathSync Fixture.hostView (Types.vs_path settings)
       = ContainerRunner.Resolved resolved
    /\ Js.includes ".ssh" (Js.toLowerCase resolved) = false.
Proof.
  destruct (@vault_mounts_are_validated Fixture.settings Fixture.runtime
              Fixture.mountSecurity Fixture.hostView Fixture.friendsGroup false
              (Some Types.ctxOwner)
              {| ContainerRunner.hostPath := "/vaults/private";
                 ContainerRunner.containerPath := "/workspace/vaults/private";
                 ContainerRunner.readonly := false |})
    as [Hextra | (_ & _ & _ & settings & resolved & Hs & Hen & Hp & Hr & _ & Hb)].
  - vm_compute. right; left; reflexivity.
  - left; reflexivity.
  - vm_compute in Hextra. destruct Hextra as [E | []]. discriminate E.
  - exists settings, resolved. cbn in Hs, Hp, Hr.
    injection Hs as <-. repeat split; auto.
    apply Hb. left. reflexivity.
Defined.

(** The task of the main group is due at its time, and no longer once it
    was recorded as run without a next run, even when resumed. *)
Lemma finished_task_is_never_due_witness :
  In Fixture.mainTask (Db.getDueTasks 100000000 Fixture.database)
  /\ forall task,
       In task (Db.getDueTasks 100000000
                  (Db.updateTask "task-1" (Db.statusUpdate Types.active)
                     (Db.updateTaskAfterRun "task-1" None "ok" 90000000
                        Fixture.database))) ->
       Types.st_id task <> "task-1".
Proof.
  assert (Hkey : Db.keyedById Fixture.database).
  { intros key t Hl. cbn in Hl.
    apply lookup_singleton_Some in Hl as [<- <-]. reflexivity. }
  split; [vm_compute; left; reflexivity|].
  intros task.
  exact (proj1 (proj2 (proj2 (finished_task_is_never_due "task-1" "ok" 90000000
                                Fixture.database Hkey) 100000000 task))).
Defined.

(** A request with the token and the body [{"text":"hello"}], sent in two
    chunks. *)
Lemma message_is_processed_only_with_the_token_witness :
  Api.method Fixture.helloRequest = "POST"
  /\ Api.pathname Fixture.helloRequest = Some "/api/message"
  /\ exists token text channel context,
       Some "s3cret" = Some token
       /\ token <> EmptyString
       /\ Api.authorization Fixture.helloRequest = Some ("Bearer " ++ token)
       /\ Api.calls (@Api.handleRequest Fixture.apiRuntime Fixture.apiEnvironment
                       (Some "s3cret") Fixture.helloRequest)
          = [(text, channel, context)]
       /\ Js.trim text <> EmptyString
       /\ (String.length text <= 32 * 1024)%nat
       /\ channel <> EmptyString
       /\ exists properties, context = Types.JObject properties.
Proof.
  apply (@message_is_processed_only_with_the_token Fixture.apiRuntime
           Fixture.apiEnvironment (Some "s3cret") Fixture.helloRequest).
  intros E. vm_compute in E. discriminate E.
Defined.
